(** * finanzen-fundamentals: the scraping functions of [stocks.py]

    A shallow embedding of [src/finanzen_fundamentals/stocks.py] and the
    properties of its ISIN extractor, URL builder, table parser, numeric
    normalizers and page-level orchestrators.

    Conventions of the embedding.
    - A Python [str] is a [string] whose characters are the code points
      below 256.  On that range the regular-expression class [\d] is exactly
      ['0'..'9'], and [str.lower] stays inside the range.
    - A Python call that may raise is a value of [result]: [Ok v] or
      [Raise e], with [e] the class of the exception.
    - A [dict] with string keys is a [gmap string _]; a [dict] with a fixed
      set of literal keys is a record.
    - [float(x)] is kept as the decimal numeral that [x] denotes; Python
      returns the binary64 number nearest to it. *)

From Stdlib Require Import ZArith NArith QArith Ascii String List Bool Lia.
From stdpp Require Import base option list gmap strings.

Local Open Scope string_scope.

(** ** Exceptions *)

Inductive exn : Type :=
| AttributeError
| ValueError
| IndexError
| KeyError
| UnboundLocalError
| SystemExit
| RequestException
| ParserError.

Inductive result (A : Type) : Type :=
| Ok (a : A)
| Raise (e : exn).

Arguments Ok {A} a.
Arguments Raise {A} e.

Global Instance result_ret : MRet result := fun _ a => Ok a.

Global Instance result_bind : MBind result := fun _ _ k m =>
  match m with
  | Ok a => k a
  | Raise e => Raise e
  end.

Global Instance result_fmap : FMap result := fun _ _ f m =>
  match m with
  | Ok a => Ok (f a)
  | Raise e => Raise e
  end.

(** [try: v = m  except Exception: v = None] *)
Definition try_or_None {A : Type} (m : result A) : option A :=
  match m with
  | Ok a => Some a
  | Raise _ => None
  end.

(** [for x in l: ...] with a body that may raise, collecting one value per
    iteration. *)
Fixpoint for_each {A B : Type} (f : A -> result B) (l : list A) : result (list B) :=
  match l with
  | [] => Ok []
  | x :: l' => y ← f x; ys ← for_each f l'; Ok (y :: ys)
  end.

(** ** Characters and character classes *)

Definition code (c : ascii) : N := N_of_ascii c.

Definition in_range (lo hi : N) (c : ascii) : bool :=
  (lo <=? code c)%N && (code c <=? hi)%N.

(** [\d] and [0-9] *)
Definition is_digit (c : ascii) : bool := in_range 48 57 c.
(** [A-Z] *)
Definition is_upper_az (c : ascii) : bool := in_range 65 90 c.
(** [a-z] *)
Definition is_lower_az (c : ascii) : bool := in_range 97 122 c.
(** [[a-zA-Z]] *)
Definition is_letter (c : ascii) : bool := is_lower_az c || is_upper_az c.
(** [[A-Z0-9]] *)
Definition is_upper_or_digit (c : ascii) : bool := is_upper_az c || is_digit c.
(** [[^\d,]] *)
Definition not_digit_or_comma (c : ascii) : bool :=
  negb (is_digit c || Ascii.eqb c ",").

(** [str.lower] on one code point below 256: [A-Z] and the Latin-1 capitals
    U+00C0..U+00DE (without the multiplication sign U+00D7). *)
Definition lower_char (c : ascii) : ascii :=
  if is_upper_az c || (in_range 192 222 c && negb (code c =? 215)%N)
  then ascii_of_N (code c + 32)
  else c.

(** [str.upper] on one code point; it is applied to regular-expression
    matches only, which are ASCII. *)
Definition upper_char (c : ascii) : ascii :=
  if is_lower_az c then ascii_of_N (code c - 32) else c.

Fixpoint map_string (f : ascii -> ascii) (s : string) : string :=
  match s with
  | EmptyString => EmptyString
  | String c s' => String (f c) (map_string f s')
  end.

Definition lower (s : string) : string := map_string lower_char s.
Definition upper (s : string) : string := map_string upper_char s.

(** ** Regular expressions of the shape used by the module

    Every pattern of [stocks.py] that the claims touch is either a
    sequence of single-character classes ([isin_pattern]) or one class
    substituted everywhere ([re.sub]). *)

(** Match a sequence of classes at the start of [s]; the matched text. *)
Fixpoint match_here (pat : list (ascii -> bool)) (s : string) : option string :=
  match pat with
  | [] => Some EmptyString
  | cls :: pat' =>
      match s with
      | EmptyString => None
      | String c s' =>
          if cls c
          then match match_here pat' s' with
               | Some m => Some (String c m)
               | None => None
               end
          else None
      end
  end.

(** [re.search(pat, s)]: the leftmost match, [m.group()]. *)
Fixpoint re_search (pat : list (ascii -> bool)) (s : string) : option string :=
  match match_here pat s with
  | Some m => Some m
  | None =>
      match s with
      | EmptyString => None
      | String _ s' => re_search pat s'
      end
  end.

(** [re.sub(cls, repl, s)] for a one-character class. *)
Fixpoint re_sub (cls : ascii -> bool) (repl : string) (s : string) : string :=
  match s with
  | EmptyString => EmptyString
  | String c s' =>
      if cls c then repl ++ re_sub cls repl s' else String c (re_sub cls repl s')
  end.

Definition is_char (a : ascii) : ascii -> bool := Ascii.eqb a.

(** [needle in s] *)
Fixpoint contains (needle s : string) : bool :=
  String.prefix needle s ||
  match s with
  | EmptyString => false
  | String _ s' => contains needle s'
  end.

(** ** [parse_for_isin] and [join_url] *)

(** [r"[a-zA-Z]{2}[A-Z0-9]{9}\d"] *)
Definition isin_pattern : list (ascii -> bool) :=
  repeat is_letter 2 ++ repeat is_upper_or_digit 9 ++ [is_digit].

Definition parse_for_isin (string_object : string) : option string :=
  re_search isin_pattern string_object.

Definition isin_search_url : string :=
  "https://www.finanzen.net/suchergebnis.asp?_search=".

Definition join_url (url search_value : string) : string * option string :=
  let isin := parse_for_isin search_value in
  let url := url ++ search_value in
  let url := match isin with
             | Some _ => isin_search_url ++ search_value
             | None => url
             end in
  (url, isin).


(** ** [float(x)] on a [str]

    CPython strips white space, checks the underscores, and hands the
    rest to its [strtod], which has to consume the whole text:
    [[+-]? (inf | infinity | nan | (D+ (. D* )? | . D+) ([eE] [+-]? D+)?)].
    [strtod] returns the binary64 nearest to the decimal it read, ties to
    even, and an infinity when the decimal is out of the binary64 range.

    A finite result is kept as the decimal that was read: [Finite neg m e]
    stands for the binary64 nearest to [(-1)^neg * m * 10^e], and is
    produced for a decimal below [overflow_threshold] only.  Two results
    that are equal here are equal floats in Python; different decimals can
    still round to one binary64. *)

Inductive pyfloat : Type :=
| Finite (neg : bool) (mant : N) (exp10 : Z)
| Infinity (neg : bool)
| NaN.

(** The decimal a finite [pyfloat] was read from. *)
Definition float_value (x : pyfloat) : option Q :=
  match x with
  | Finite neg m e =>
      let q := (inject_Z (Z.of_N m) * Qpower (10 # 1) e)%Q in
      Some (if neg then Qopp q else q)
  | _ => None
  end.

(** The white space that [float] strips from both ends: tab to carriage
    return and the space, and below 256 also U+0085 and U+00A0 (the
    separators U+001C..U+001F are not stripped). *)
Definition is_space (c : ascii) : bool :=
  in_range 9 13 c || (code c =? 32)%N || (code c =? 133)%N || (code c =? 160)%N.

Fixpoint lstrip (s : string) : string :=
  match s with
  | String c s' => if is_space c then lstrip s' else s
  | EmptyString => EmptyString
  end.

Fixpoint rstrip (s : string) : string :=
  match s with
  | EmptyString => EmptyString
  | String c s' =>
      match rstrip s' with
      | EmptyString => if is_space c then EmptyString else String c EmptyString
      | r => String c r
      end
  end.

Definition strip (s : string) : string := rstrip (lstrip s).

(** The value of a decimal digit. *)
Definition digit_val (c : ascii) : N := (code c - 48)%N.

(** The number written by a string of digits, read after [acc]. *)
Fixpoint digits_val (acc : N) (s : string) : N :=
  match s with
  | EmptyString => acc
  | String c s' => digits_val (10 * acc + digit_val c) s'
  end.

(** The longest prefix of digits, and the rest. *)
Fixpoint span_digits (s : string) : string * string :=
  match s with
  | String c s' =>
      if is_digit c
      then let '(d, r) := span_digits s' in (String c d, r)
      else (EmptyString, s)
  | EmptyString => (EmptyString, EmptyString)
  end.

(** An underscore is allowed between two digits only; [prev] is the
    character before [s].  The text without its underscores, or [None]. *)
Fixpoint drop_underscores (prev : ascii) (s : string) : option string :=
  match s with
  | EmptyString => if Ascii.eqb prev "_" then None else Some EmptyString
  | String c s' =>
      if Ascii.eqb c "_"
      then if is_digit prev then drop_underscores c s' else None
      else if Ascii.eqb prev "_" && negb (is_digit c) then None
           else match drop_underscores c s' with
                | Some r => Some (String c r)
                | None => None
                end
  end.

(** An optional sign: whether it is a minus, and the rest. *)
Definition take_sign (s : string) : bool * string :=
  match s with
  | String "-" s' => (true, s')
  | String "+" s' => (false, s')
  | _ => (false, s)
  end.

(** The exponent part: [None] when the text is not a well-formed exponent
    followed by nothing. *)
Definition parse_exponent (s : string) : option Z :=
  match s with
  | EmptyString => Some 0%Z
  | String c s' =>
      if Ascii.eqb c "e" || Ascii.eqb c "E"
      then let '(neg, s'') := take_sign s' in
           match span_digits s'' with
           | (String d ds, EmptyString) =>
               let n := Z.of_N (digits_val 0 (String d ds)) in
               Some (if neg then (- n)%Z else n)
           | _ => None
           end
      else None
  end.

(** The least magnitude that rounds to an infinity: half way between the
    largest binary64, [(2^53 - 1) * 2^971], and [2^1024]; the tie goes to
    the even neighbour, which is out of range. *)
Definition overflow_threshold : Z := (Z.shiftl 1 1024 - Z.shiftl 1 970)%Z.

(** Whether [m * 10^e] is at or beyond the threshold. *)
Definition overflows (m : N) (e : Z) : bool :=
  (overflow_threshold * 10 ^ Z.max 0 (- e) <=? Z.of_N m * 10 ^ Z.max 0 e)%Z.

(** The float [strtod] returns for the decimal [m * 10^e] read after the
    sign [neg]. *)
Definition float_of_decimal (neg : bool) (m : N) (e : Z) : pyfloat :=
  if overflows m e then Infinity neg else Finite neg m e.

Definition parse_number (neg : bool) (s : string) : option pyfloat :=
  let '(ip, r1) := span_digits s in
  let '(fp, r2) := match r1 with
                   | String "." r => span_digits r
                   | _ => (EmptyString, r1)
                   end in
  match ip ++ fp with
  | EmptyString => None
  | ds =>
      match parse_exponent r2 with
      | Some e =>
          Some (float_of_decimal neg (digits_val 0 ds) (e - Z.of_nat (String.length fp)))
      | None => None
      end
  end.

Definition strtod (s : string) : option pyfloat :=
  let '(neg, body) := take_sign s in
  let word := lower body in
  if String.eqb word "inf" || String.eqb word "infinity" then Some (Infinity neg)
  else if String.eqb word "nan" then Some NaN
  else parse_number neg body.

Definition float (x : string) : result pyfloat :=
  let s := strip x in
  let cleaned := if contains "_" s then drop_underscores "000" s else Some s in
  match cleaned with
  | Some t => match strtod t with
              | Some v => Ok v
              | None => Raise ValueError
              end
  | None => Raise ValueError
  end.


(** ** The page as the code observes it

    [stocks.py] reads a BeautifulSoup tree through a handful of queries.
    [Soup] records their answers for one page, in document order. *)

(** A [<tr>]: the text of its first [<td class="font-bold">], if it has one,
    and the text of each of its [<td>]. *)
Record Row : Type := {
  font_bold : option string;
  tds : list string
}.

(** The parent of a heading: the text of every [<th>] and every [<tr>]
    below it. *)
Record Tag : Type := {
  ths : list string;
  trs : list Row
}.

(** [soup.find(name, text=re.compile(signaler))] for a heading, [matches]
    being the search of the compiled pattern in the heading's string. *)
Definition find_heading {A : Type} (matches : string -> bool)
    (headings : list (string * A)) : option A :=
  snd <$> List.find (fun h => matches (fst h)) headings.

(** [x.attr] on the outcome of a [find]: [None] has no attributes. *)
Definition attr_of {A : Type} (x : option A) : result A :=
  match x with
  | Some a => Ok a
  | None => Raise AttributeError
  end.

(** [dict(pairs)]: a later pair overwrites an earlier one with its key. *)
Definition dict_of {V : Type} (pairs : list (string * V)) : gmap string V :=
  fold_left (fun d kv => <[fst kv := snd kv]> d) pairs ∅.

(** A table as [_parse_table] and [get_estimates] return it:
    row name, then column label, then the number or [None]. *)
Abbreviation TableDict := (gmap string (gmap string (option pyfloat))).

(** *** The rows of [get_fundamentals._parse_table] *)

(** Lines 115-118: the cells of one row, stage by stage. *)
Definition fundamentals_row_data (row_data : list string)
    : result (list (option pyfloat)) :=
  let row_data := map (re_sub (is_char ".") EmptyString) row_data in
  let row_data := map (re_sub (is_char ",") ".") row_data in
  for_each (fun x => if String.eqb x "-" then Ok None else Some <$> float x)
           row_data.

(** Lines 112-119: one turn of the loop over the rows. *)
Definition fundamentals_row (years : list string) (table_dict : TableDict)
    (row : Row) : result TableDict :=
  name ← attr_of (font_bold row);
  let row_data := drop 2 (tds row) in
  row_data ← fundamentals_row_data row_data;
  Ok (<[name := dict_of (zip years row_data)]> table_dict).

(** [for row in rows: ...] threading the dictionary that the body updates. *)
Fixpoint for_rows {S : Type} (body : S -> Row -> result S) (acc : S)
    (rows : list Row) : result S :=
  match rows with
  | [] => Ok acc
  | row :: rows' => acc' ← body acc row; for_rows body acc' rows'
  end.

(** *** The rows of [get_estimates] *)

(** Lines 225-228: the cells of one row, stage by stage. *)
Definition estimates_row_data (row_data : list string)
    : result (list (option pyfloat)) :=
  let row_data := map (fun x => if String.eqb x "-" then None else Some x) row_data in
  let row_data := map (fmap (re_sub not_digit_or_comma EmptyString)) row_data in
  let row_data := map (fmap (re_sub (is_char ",") ".")) row_data in
  for_each (fun x => match x with
                     | Some x => Some <$> float x
                     | None => Ok None
                     end) row_data.

(** Lines 221-229: one turn of the loop over the rows. *)
Definition estimates_row (years : list string) (table_dict : TableDict)
    (row : Row) : result TableDict :=
  let fields := tds row in
  match fields with
  | [] => Raise IndexError
  | name :: row_data =>
      row_data ← estimates_row_data row_data;
      Ok (<[name := dict_of (zip years row_data)]> table_dict)
  end.

(** The dictionary [get_fundamentals] returns. *)
Record Fundamentals : Type := {
  Quotes : option TableDict;
  Key_Ratios : option TableDict;
  Income_Statement : option TableDict;
  Balance_Sheet : option TableDict;
  ISIN : string;
  Other : option TableDict
}.

Section Page.

(** What [pd.read_html(...)[0].set_index(...)] returns, and what
    [DataFrame.to_dict("index")] makes of it: pandas values, left abstract. *)
Variable DataFrame : Type.
Variable IndexDict : Type.
Variable to_dict_index : DataFrame -> IndexDict.

Record Soup : Type := {
  (** the text of the first [<div class="special_info_box">] *)
  special_info_box : option string;
  (** the first [<meta property="og:title">] and its [content] attribute *)
  og_title : option (option string);
  (** each [<h1>] ([<h2>]) that has a [.string], with its parent *)
  h1 : list (string * Tag);
  h2 : list (string * Tag);
  (** each [<h3 class="box-headline">] that has a [.string], with the outcome
      of [pd.read_html(parent.prettify(), ...)[0]] and [set_index] on it *)
  h3_box_headline : list (string * result DataFrame)
}.

(** [finanzen_fundamentals.scraper._make_soup]: the request and the parse. *)
Variable _make_soup : string -> result Soup.

Definition get_isin_from_soup (soup : Soup) : result (option string) :=
  match og_title soup with
  | Some (Some content) => Ok (parse_for_isin content)
  | Some None => Raise KeyError
  | None => Ok None
  end.

(** ["Die gewünschte Seite konnte nicht angezeigt werden"], with U+00FC *)
Definition load_error : string :=
  "Die gew" ++ String "252" "nschte Seite konnte nicht angezeigt werden".

Definition _check_site (soup : Soup) : result unit :=
  match special_info_box soup with
  | Some message_text =>
      if contains load_error message_text then Raise ValueError else Ok tt
  | None => Ok tt
  end.

(** [isin if isin else get_isin_from_soup(soup)] *)
Definition isin_or_from_soup (isin : option string) (soup : Soup)
    : result (option string) :=
  match isin with
  | Some (String c s) => Ok (Some (String c s))
  | _ => get_isin_from_soup soup
  end.

(** [isin.upper()] *)
Definition isin_upper (isin : option string) : result string :=
  upper <$> attr_of isin.

(** [_parse_table] of [get_fundamentals] *)
Definition _parse_table (soup : Soup) (signaler : string) : result TableDict :=
  table ← attr_of (find_heading (contains signaler) (h2 soup));
  let years := drop 2 (ths table) in
  let rows := drop 1 (trs table) in
  for_rows (fundamentals_row years) ∅ rows.

Definition get_fundamentals (stock : string) : result Fundamentals :=
  let stock := lower stock in
  let '(url, isin) := join_url "https://www.finanzen.net/bilanz_guv/" stock in
  soup ← _make_soup url;
  _ ← _check_site soup;
  let quote_info := try_or_None (_parse_table soup "Die Aktie") in
  let key_ratios := try_or_None (_parse_table soup "Unternehmenskennzahlen") in
  let income_info := try_or_None (_parse_table soup "GuV") in
  let balance_sheet := try_or_None (_parse_table soup "Bilanz") in
  isin ← isin_or_from_soup isin soup;
  let other_info := try_or_None (_parse_table soup "sonstige Angaben") in
  isin_up ← isin_upper isin;
  Ok {| Quotes := quote_info;
        Key_Ratios := key_ratios;
        Income_Statement := income_info;
        Balance_Sheet := balance_sheet;
        ISIN := isin_up;
        Other := other_info |}.

(** *** [get_chart_infos] *)

Record ChartInfos : Type := {
  chart_ISIN : string;
  Performance : IndexDict
}.

(** [_parse_table] of [get_chart_infos] *)
Definition _parse_table_chart (soup : Soup) (signaler : string) : result DataFrame :=
  df_table ← attr_of (find_heading (contains signaler) (h3_box_headline soup));
  df_table.

(** The warning that the [except] branch prints is not part of the value. *)
Definition get_chart_infos (stock : string) : result ChartInfos :=
  let stock := lower stock in
  let '(url, isin) := join_url "https://www.finanzen.net/aktien/" stock in
  soup ← _make_soup url;
  _ ← _check_site soup;
  let performance_info := try_or_None (_parse_table_chart soup "Performance") in
  isin ← isin_or_from_soup isin soup;
  isin_up ← isin_upper isin;
  performance ← to_dict_index <$> attr_of performance_info;
  Ok {| chart_ISIN := isin_up; Performance := performance |}.

(** *** [get_estimates] *)

(** ["^Schätzungen"], with U+00E4 *)
Definition estimates_heading : string := "Sch" ++ String "228" "tzungen".

Definition get_estimates (stock : string) : result TableDict :=
  let stock := lower stock in
  soup ← _make_soup ("https://www.finanzen.net/schaetzungen/" ++ stock);
  _ ← _check_site soup;
  table ← attr_of (find_heading (String.prefix estimates_heading) (h1 soup));
  let years := drop 1 (ths table) in
  let rows := drop 1 (trs table) in
  for_rows (estimates_row years) ∅ rows.

End Page.

(** ** The lxml variants and their default arguments

    [def f(stock, results=[])] creates one list when the module is loaded;
    every call that leaves [results] out binds the parameter to that same
    list.  [Defaults] is the content of those lists, threaded through the
    calls. *)

(** [x.replace(old, new)] for a one-character [old]. *)
Definition str_replace (old : ascii) (new : string) (x : string) : string :=
  re_sub (is_char old) new x.

(** [x.split(" ")[0]] *)
Fixpoint split_space_0 (x : string) : string :=
  match x with
  | EmptyString => EmptyString
  | String c x' => if Ascii.eqb c " " then EmptyString else String c (split_space_0 x')
  end.

(** An entry of a [table_row] of [get_estimates_lxml]. *)
Inductive Cell : Type :=
| CStr (s : string)
| CFloat (x : pyfloat).

(** Lines 327-330, for one index [i >= 1]. *)
Definition estimates_lxml_cell (x : string) : result Cell :=
  if String.eqb x "-" then Ok (CStr x)
  else
    let x := str_replace "," "." (str_replace "." EmptyString x) in
    CFloat <$> float (split_space_0 x).

(** Lines 326-334: the row after the conversion, and the new [header_row]. *)
Definition estimates_lxml_row (header_row : bool) (table_row : list string)
    : result (list Cell * bool) :=
  if header_row then
    match table_row with
    | [] => Ok ([], header_row)
    | x0 :: rest => rest ← for_each estimates_lxml_cell rest;
                    Ok (CStr x0 :: rest, header_row)
    end
  else
    match table_row with
    | [] => Raise IndexError
    | _ :: rest => Ok (CStr "Estimation" :: map CStr rest, true)
    end.

(** Lines 382-383: every entry but the first. *)
Definition fundamentals_lxml_data (data : list string) : list string :=
  match data with
  | [] => []
  | x0 :: rest => x0 :: map (fun x => str_replace "," "." (str_replace "." EmptyString x)) rest
  end.

Section Lxml.

(** requests, lxml and pandas, as functions of their arguments:
    [requests.get(url).text], [html.fromstring], [e.xpath(q)] for a query
    that selects elements and for one that selects text, the children of an
    element, the three statements that build [dataframe] from the collected
    rows, and [pd.concat(frames, ignore_index=True)]. *)
Variable Element : Type.
Variable DataFrame : Type.
Variable requests_get : string -> result string.
Variable html_fromstring : string -> result Element.
Variable xpath : Element -> string -> list Element.
Variable xpath_text : Element -> string -> list string.
Variable children : Element -> list Element.
Variable make_frame_cells : list (list Cell) -> result DataFrame.
Variable make_frame_text : list (list string) -> result DataFrame.
Variable pd_concat : list DataFrame -> result DataFrame.

(** The elements of the lists that the parameters [results] default to. *)
Variable Obj : Type.

Record Defaults : Type := {
  get_estimates_lxml_results : list Obj;
  get_fundamentals_lxml_results : list Obj
}.

(** The state of the module right after it is loaded. *)
Definition fresh : Defaults :=
  {| get_estimates_lxml_results := []; get_fundamentals_lxml_results := [] |}.

Definition check_site_availability (url : string) : result unit :=
  match requests_get url with
  | Ok _ => Ok tt
  | Raise RequestException => Raise SystemExit
  | Raise e => Raise e
  end.

Definition get_parser (function stock_name : string) : result Element :=
  let base_url := "https://www.finanzen.net" in
  let functions : gmap string string :=
    <["index" := "/index/"]> (
    <["fundamentals" := "/bilanz_guv/"]> (
    <["estimates" := "/schaetzungen/"]> (
    <["stock" := "/aktien/"]> (
    <["search" := "/suchergebnis.asp?_search="]> ∅)))) in
  match functions !! function with
  | None => Raise ValueError
  | Some path =>
      _ ← check_site_availability base_url;
      let url := base_url ++ path ++ stock_name in
      response ← requests_get url;
      html_fromstring response
  end.

(** The loop of [get_estimates_lxml]: [data_table] and [header_row] are
    created by the call; [dataframe] is unbound until the first turn. *)
Fixpoint estimates_lxml_loop (data_table : list (list Cell)) (header_row : bool)
    (dataframe : option DataFrame) (rows : list Element) : result DataFrame :=
  match rows with
  | [] => match dataframe with
          | Some df => Ok df
          | None => Raise UnboundLocalError
          end
  | data_element :: rows' =>
      table_row ← for_each (fun i => match xpath_text i "./text()" with
                                      | t :: _ => Ok t
                                      | [] => Raise IndexError
                                      end) (children data_element);
      '(table_row, header_row) ← estimates_lxml_row header_row table_row;
      let data_table := (data_table ++ [table_row])%list in
      df ← make_frame_cells data_table;
      estimates_lxml_loop data_table header_row (Some df) rows'
  end.

(** The double quote, and a text between double quotes. *)
Definition quoted (s : string) : string :=
  String "034" s ++ String "034" EmptyString.

(** The base path of a section, [head] being [h1] or [h2]. *)
Definition xp_section (head text : string) : string :=
  "//div[contains(@class, " ++ quoted "box table-quotes" ++ ")]//" ++ head
  ++ "[contains(text(), " ++ quoted text ++ ")]//..".

Definition xp_estimates : string :=
  xp_section "h1" ("Sch" ++ String "228" "tzungen").

(** The body of [get_estimates_lxml], [results] being the content of the
    list the parameter is bound to; it gives back the outcome and the
    content of that list when the call ends.  No statement of the body
    reads, appends to or rebinds [results]; the rows are collected in
    [data_table], which the call creates. *)
Definition get_estimates_lxml_body (stock : string) (results : list Obj)
    : result DataFrame * list Obj :=
  let url := "https://www.finanzen.net/schaetzungen/" ++ stock in
  let xp_data := xp_estimates ++ "//table//tr" in
  (response ← requests_get url;
   parser ← html_fromstring response;
   estimates_lxml_loop [] false None (xpath parser xp_data),
   results).

(** The rows of one table of [get_fundamentals_lxml] (lines 378-386). *)
Definition fundamentals_lxml_rows (data_element : Element) : list (list string) :=
  map (fun i => fundamentals_lxml_data (xpath_text i ".//td/text()"))
      (drop 1 (xpath data_element ".//table//tr")).

(** Lines 369-392: one turn of the inner loop. *)
Definition fundamentals_lxml_element (data_element : Element) : result DataFrame :=
  let header_array := xpath_text data_element ".//table//thead//tr//th/text()" in
  let table_data := ([header_array] ++ fundamentals_lxml_rows data_element)%list in
  make_frame_text table_data.

(** Lines 356-392: one turn of the outer loop, extending [complete_data_set]. *)
Definition fundamentals_lxml_table (stock : string)
    (complete_data_set : list DataFrame) (table : string) : result (list DataFrame) :=
  parser ← get_parser "fundamentals" stock;
  let xp_base := xp_section "h2" table in
  frames ← for_each fundamentals_lxml_element (xpath parser xp_base);
  Ok (complete_data_set ++ frames)%list.

Fixpoint for_tables (body : list DataFrame -> string -> result (list DataFrame))
    (acc : list DataFrame) (tables : list string) : result (list DataFrame) :=
  match tables with
  | [] => Ok acc
  | t :: tables' => acc' ← body acc t; for_tables body acc' tables'
  end.

(** The body of [get_fundamentals_lxml]; here too [results] is left alone,
    and the frames are collected in [complete_data_set], created by the
    call. *)
Definition get_fundamentals_lxml_body (stock : string) (results : list Obj)
    : result DataFrame * list Obj :=
  let tables := ["Die Aktie"; "Unternehmenskennzahlen"; "GuV"; "Bilanz";
                 "sonstige Angaben"] in
  (complete_data_set ← for_tables (fundamentals_lxml_table stock) [] tables;
   pd_concat complete_data_set,
   results).

(** A call [get_estimates_lxml(stock)]: the parameter is bound to the
    module's list, and what the body leaves in it stays there. *)
Definition get_estimates_lxml (stock : string) (d : Defaults)
    : result DataFrame * Defaults :=
  let '(r, results) := get_estimates_lxml_body stock (get_estimates_lxml_results d) in
  (r, {| get_estimates_lxml_results := results;
         get_fundamentals_lxml_results := get_fundamentals_lxml_results d |}).

Definition get_fundamentals_lxml (stock : string) (d : Defaults)
    : result DataFrame * Defaults :=
  let '(r, results) := get_fundamentals_lxml_body stock (get_fundamentals_lxml_results d) in
  (r, {| get_estimates_lxml_results := get_estimates_lxml_results d;
         get_fundamentals_lxml_results := results |}).

(** The two orchestrators that have a [results] parameter and are called
    with it left out. *)
Inductive orchestrator : Type :=
| EstimatesLxml
| FundamentalsLxml.

Definition call (o : orchestrator) (stock : string) (d : Defaults)
    : result DataFrame * Defaults :=
  match o with
  | EstimatesLxml => get_estimates_lxml stock d
  | FundamentalsLxml => get_fundamentals_lxml stock d
  end.

(** Calls one after the other, each with [results] left out: what is in
    the default lists afterwards. *)
Fixpoint after_calls (history : list (orchestrator * string)) (d : Defaults)
    : Defaults :=
  match history with
  | [] => d
  | (o, stock) :: history' => after_calls history' (snd (call o stock d))
  end.

End Lxml.

(** * The vocabulary of the statements *)

(** [m] is, class by class, of the shape [pat]. *)
Fixpoint shaped (pat : list (ascii -> bool)) (m : string) : bool :=
  match pat, m with
  | [], EmptyString => true
  | cls :: pat', String c m' => cls c && shaped pat' m'
  | _, _ => false
  end.

(** Whether the characters of [p] agree with the classes of [pat], as far
    as both go: only then can a match of [pat] start where [p] does. *)
Fixpoint may_start (pat : list (ascii -> bool)) (p : string) : bool :=
  match pat, p with
  | cls :: pat', String c p' => cls c && may_start pat' p'
  | _, _ => true
  end.

(** No position of [p] can start a match of [pat]. *)
Fixpoint skipped (pat : list (ascii -> bool)) (p : string) : bool :=
  match p with
  | EmptyString => true
  | String _ p' => negb (may_start pat p) && skipped pat p'
  end.

(** The class the pattern has at position [i]. *)
Definition isin_class (i : nat) : ascii -> bool :=
  if (i <? 2)%nat then is_letter
  else if (i <? 11)%nat then is_upper_or_digit else is_digit.

(** Twelve characters: two ASCII letters, nine characters that are an
    upper-case ASCII letter or a digit, one digit. *)
Definition isin_shaped (m : string) : Prop :=
  String.length m = 12 /\
  forall i c, String.get i m = Some c -> isin_class i c = true.

(** The pattern as the specification words it: two letters, nine
    alphanumeric characters, one digit. *)
Definition is_alphanumeric (c : ascii) : bool := is_letter c || is_digit c.

Definition spec_isin_pattern : list (ascii -> bool) :=
  repeat is_letter 2 ++ repeat is_alphanumeric 9 ++ [is_digit].

(** A site that answers on the ISIN search endpoint only, with a page that
    has no section at all. *)
Definition search_endpoint_only : string -> result (Soup unit) :=
  fun url =>
    if String.prefix isin_search_url url
    then Ok {| special_info_box := None; og_title := None;
               h1 := []; h2 := []; h3_box_headline := [] |}
    else Raise RequestException.

(** Every character of [s] is in the class [cls]. *)
Fixpoint all_chars (cls : ascii -> bool) (s : string) : bool :=
  match s with
  | EmptyString => true
  | String c s' => cls c && all_chars cls s'
  end.

Definition all_digits (s : string) : bool := all_chars is_digit s.

(** A text of digits with at most one point in it: the characters that
    remain after the separators are rewritten. *)
Definition is_plain (c : ascii) : bool := is_digit c || is_char "." c.

(** A text of [n] digits 9, the largest number of [n] digits. *)
Fixpoint nines (n : nat) : string :=
  match n with
  | O => EmptyString
  | S n' => String "9" (nines n')
  end.

(** Groups of digits, the first one not empty: the integer part of a
    localized number is these groups with a point between them. *)
Definition digit_groups (groups : list string) : bool :=
  match groups with
  | g :: _ => negb (String.eqb g EmptyString) && forallb all_digits groups
  | [] => false
  end.

(** A page of the shape of the fundamentals page: the five sections, each a
    table with the columns 2022 and 2023 and one row. *)
Definition one_row_table (name : string) (cells : list string) : Tag :=
  {| ths := ["check"; "label"; "2022"; "2023"];
     trs := [ {| font_bold := None; tds := [] |};
              {| font_bold := Some name; tds := ("box" :: name :: cells)%list |} ] |}.

Definition sample_sections (balance : list (string * Tag)) : list (string * Tag) :=
  ([ ("Die Aktie SAP", one_row_table "Kurs" ["98,50"; "139,42"]);
     ("Unternehmenskennzahlen (in EUR)", one_row_table "Umsatz je Aktie" ["26,40"; "-"]);
     ("GuV (in Mio. EUR)", one_row_table "Umsatzerl" ["30.871,00"; "31.207,00"]) ]
   ++ balance ++
   [ ("sonstige Angaben", one_row_table "Personal" ["111.961"; "107.602"]) ])%list.

Definition sample_page (balance : list (string * Tag)) : Soup unit :=
  {| special_info_box := None;
     og_title := Some (Some "SAP SE Bilanz | A | 716460 | DE0007164600");
     h1 := [];
     h2 := sample_sections balance;
     h3_box_headline := [] |}.

(** The balance sheet has a row of three cells under two column labels. *)
Definition long_row_page : Soup unit :=
  sample_page [("Bilanz (in Mio. EUR)", one_row_table "Eigenkapital" ["1"; "2"; "3"])].

(** The five categories of [get_fundamentals], the heading each is looked
    up by, and the entry of the result it is stored in. *)
Inductive category : Type :=
| CatQuotes | CatKeyRatios | CatIncome | CatBalance | CatOther.

Definition signaler_of (c : category) : string :=
  match c with
  | CatQuotes => "Die Aktie"
  | CatKeyRatios => "Unternehmenskennzahlen"
  | CatIncome => "GuV"
  | CatBalance => "Bilanz"
  | CatOther => "sonstige Angaben"
  end.

Definition field_of (c : category) (r : Fundamentals) : option TableDict :=
  match c with
  | CatQuotes => Quotes r
  | CatKeyRatios => Key_Ratios r
  | CatIncome => Income_Statement r
  | CatBalance => Balance_Sheet r
  | CatOther => Other r
  end.

(** The cell as lines 116-117 leave it. *)
Definition cleaned (x : string) : string :=
  re_sub (is_char ",") "." (re_sub (is_char ".") EmptyString x).

(** The balance sheet has a cell that is not a number. *)
Definition bad_cell_page : Soup unit :=
  sample_page [("Bilanz (in Mio. EUR)", one_row_table "Eigenkapital" ["1.000,5"; "n/a"])].

(** The page has no balance sheet heading. *)
Definition no_balance_page : Soup unit := sample_page [].

(** The stock page: no performance heading, the ISIN in the title. *)
Definition no_performance_page : Soup unit :=
  {| special_info_box := None;
     og_title := Some (Some "SAP Aktie | A | 716460 | DE0007164600");
     h1 := []; h2 := [];
     h3_box_headline := [("Kennzahlen", Ok tt)] |}.

(** A page without sections and without an ISIN in its metadata. *)
Definition anonymous_page : Soup unit :=
  {| special_info_box := None; og_title := Some (Some "SAP Aktie");
     h1 := []; h2 := []; h3_box_headline := [] |}.

Definition sample_quotes : TableDict :=
  {[ "Kurs" := {[ "2022" := Some (Finite false 9850 (-2));
                  "2023" := Some (Finite false 13942 (-2)) ]} ]}.
Definition sample_key_ratios : TableDict :=
  {[ "Umsatz je Aktie" := {[ "2022" := Some (Finite false 2640 (-2)); "2023" := None ]} ]}.
Definition sample_income : TableDict :=
  {[ "Umsatzerl" := {[ "2022" := Some (Finite false 3087100 (-2));
                       "2023" := Some (Finite false 3120700 (-2)) ]} ]}.
Definition sample_other : TableDict :=
  {[ "Personal" := {[ "2022" := Some (Finite false 111961 0);
                      "2023" := Some (Finite false 107602 0) ]} ]}.

(** * Further vocabulary and functions of the module *)

(** An ISIN as [isin.upper()] leaves it: two upper-case letters, nine
    upper-case letters or digits, one digit. *)
Definition upper_isin_pattern : list (ascii -> bool) :=
  repeat is_upper_az 2 ++ repeat is_upper_or_digit 9 ++ [is_digit].

(** An ISIN whose national part has no letter: two upper-case letters and
    ten digits. *)
Definition digit_isin_pattern : list (ascii -> bool) :=
  repeat is_upper_az 2 ++ repeat is_digit 10.

(** The stock page with its performance table, read by pandas into [7]. *)
Definition performance_page : Soup nat :=
  {| special_info_box := None;
     og_title := Some (Some "SAP Aktie | A | 716460 | DE0007164600");
     h1 := []; h2 := [];
     h3_box_headline := [("Kennzahlen", Raise ValueError); ("Performance", Ok 7)] |}.

(** The page that the site sends for a stock it does not know. *)
Definition not_found_page : Soup unit :=
  {| special_info_box := Some ("Hinweis: " ++ load_error ++ ".");
     og_title := Some (Some "SAP SE Bilanz | A | 716460 | DE0007164600");
     h1 := []; h2 := sample_sections []; h3_box_headline := [] |}.

(** A page whose [og:title] tag has no [content] attribute. *)
Definition no_content_page : Soup unit :=
  {| special_info_box := None; og_title := Some None;
     h1 := []; h2 := sample_sections []; h3_box_headline := [] |}.

(** The characters of a localized number with a sign in front. *)
Definition is_signed_plain (c : ascii) : bool := is_plain c || is_char "-" c.

(** The estimates page: the heading, and a table with the columns 2024 and
    2025 and one row. *)
Definition estimates_page (cells : list string) : Soup unit :=
  {| special_info_box := None; og_title := None;
     h1 := [(estimates_heading ++ " zu SAP",
             {| ths := ["label"; "2024e"; "2025e"];
                trs := [ {| font_bold := None; tds := [] |};
                         {| font_bold := None; tds := ("Umsatz" :: cells)%list |} ] |})];
     h2 := []; h3_box_headline := [] |}.

(** ** [get_indices] and [search_stock]

    Two more functions read a BeautifulSoup tree.  They can raise
    [TypeError], by subscripting the [None] of a failed [find]. *)

Inductive raised : Type :=
| Builtin (e : exn)
| TypeError.

Inductive outcome (A : Type) : Type :=
| Returns (a : A)
| Raises (e : raised).

Arguments Returns {A} a.
Arguments Raises {A} e.

Global Instance outcome_ret : MRet outcome := fun _ a => Returns a.

Global Instance outcome_bind : MBind outcome := fun _ _ k m =>
  match m with
  | Returns a => k a
  | Raises e => Raises e
  end.

(** A call of a function of [result] type, inside one of [outcome] type. *)
Definition lift {A : Type} (m : result A) : outcome A :=
  match m with
  | Ok a => Returns a
  | Raise e => Raises (Builtin e)
  end.

(** [x.find("a")["href"]] on a tag [x], given the [href] of its first [<a>]:
    no [<a>] makes the subscript a [TypeError], an [<a>] without [href] a
    [KeyError]. *)
Definition a_href (a : option (option string)) : outcome string :=
  match a with
  | Some (Some href) => Returns href
  | Some None => Raises (Builtin KeyError)
  | None => Raises TypeError
  end.

(** The host that relative links are appended to. *)
Definition finanzen_net : string := "https://www.finanzen.net".

(** A [<li>] of the index navigation: the text and the [href] of its first
    [<a>], if it has one. *)
Record Li : Type := {
  li_a : option (string * option string)
}.

(** The index page: the [<li>] of the first [<ul class="box-nav">]. *)
Record IndexSoup : Type := {
  box_nav : option (list Li)
}.

(** Line 65.  The right-hand side is evaluated before the key. *)
Definition get_indices_entry (indices : gmap string string) (result : Li)
    : outcome (gmap string string) :=
  value ← (href ← a_href (snd <$> li_a result); Returns (finanzen_net ++ href));
  key ← match li_a result with
        | Some (text, _) => Returns text
        | None => Raises (Builtin AttributeError)
        end;
  Returns (<[key := value]> indices).

Fixpoint for_lis (indices : gmap string string) (index_links : list Li)
    : outcome (gmap string string) :=
  match index_links with
  | [] => Returns indices
  | result :: rest => indices ← get_indices_entry indices result; for_lis indices rest
  end.

(** A [<td>] of the search page: its text, and the [href] of its first
    [<a>]. *)
Record Td : Type := {
  td_text : string;
  td_a : option (option string)
}.

(** The search page: the text of the first [<div class="red">], and the
    [<tr>] of the first [<table class="table">], each with its [<td>]. *)
Record SearchSoup : Type := {
  div_red : option string;
  table_table : option (list (list Td))
}.

(** What [search_stock] returns: [list()] or, by falling off its end,
    [None]. *)
Inductive search_return : Type :=
| EmptyList
| NoneValue.

(** The text before the first line feed: as far as [.+] can reach. *)
Fixpoint line_of (s : string) : string :=
  match s with
  | EmptyString => EmptyString
  | String c s' => if Ascii.eqb c "010" then EmptyString else String c (line_of s')
  end.

(** The last position at which [needle] starts in [s]. *)
Fixpoint find_last (needle s : string) : option nat :=
  match s with
  | EmptyString => if String.prefix needle s then Some 0 else None
  | String _ s' =>
      match find_last needle s' with
      | Some i => Some (S i)
      | None => if String.prefix needle s then Some 0 else None
      end
  end.

(** [(.+)-aktie] matched at the start of [rest]: the group.  [.+] is greedy
    and takes at least one character, none of them a line feed, so the
    group ends where ["-aktie"] starts last on the line of [rest]. *)
Definition group_aktie (rest : string) : option string :=
  match line_of rest with
  | EmptyString => None
  | String c line =>
      match find_last "-aktie" line with
      | Some i => Some (String c (String.substring 0 i line))
      | None => None
      end
  end.

(** [s[n:]] *)
Fixpoint string_drop (n : nat) (s : string) : string :=
  match n, s with
  | S n', String _ s' => string_drop n' s'
  | _, _ => s
  end.

(** [re.search("aktien/(.+)-aktie", s)] and its [group(1)]; [None] when
    there is no match. *)
Fixpoint search_aktie (s : string) : option string :=
  match s with
  | EmptyString => None
  | String _ s' =>
      if String.prefix "aktien/" s
      then match group_aktie (string_drop 7 s) with
           | Some g => Some g
           | None => search_aktie s'
           end
      else search_aktie s'
  end.

(** Lines 253-257: one turn of the loop over the rows. *)
Definition search_stock_row (row : list Td) : outcome (string * string) :=
  match row with
  | [] => Raises (Builtin IndexError)
  | cell :: _ =>
      let name := td_text cell in
      link ← a_href (td_a cell);
      let link := finanzen_net ++ link in
      Returns (name, link)
  end.

Fixpoint for_search_rows (rows : list (list Td)) : outcome (list (string * string)) :=
  match rows with
  | [] => Returns []
  | row :: rows' => r ← search_stock_row row; rs ← for_search_rows rows'; Returns (r :: rs)
  end.

(** Lines 268-271: the lines printed so far, and how the loop ends. *)
Fixpoint print_results (printed : list string) (result_list : list (string * string))
    : list string * outcome unit :=
  match result_list with
  | [] => (printed, Returns tt)
  | result :: rest =>
      let result_name := fst result in
      match search_aktie (snd result) with
      | Some result_short =>
          let line := result_name ++ ": " ++ result_short in
          print_results (printed ++ [line])%list rest
      | None => (printed, Raises (Builtin AttributeError))
      end
  end.

(** Lines 260-265 *)
Definition apply_limit {A : Type} (limit : Z) (result_list : list A) : list A :=
  if (limit >? 0)%Z then
    let result_len := Z.of_nat (length result_list) in
    let limit := if (limit >? result_len)%Z then result_len else limit in
    take (Z.to_nat limit) result_list
  else result_list.

Section Search.

(** [_make_soup], for the index page and for the search page. *)
Variable _make_index_soup : string -> result IndexSoup.
Variable _make_search_soup : string -> result SearchSoup.

Definition get_indices (url : string) : outcome (gmap string string) :=
  soup ← lift (_make_index_soup url);
  index_links ← lift (attr_of (box_nav soup));
  for_lis ∅ index_links.

(** The lines [search_stock] prints, and what it returns or raises. *)
Definition search_stock (stock : string) (limit : Z)
    : list string * outcome search_return :=
  let stock := lower stock in
  match _make_search_soup (isin_search_url ++ stock) with
  | Raise e => ([], Raises (Builtin e))
  | Ok soup =>
      if match div_red soup with
         | Some text => contains "kein Ergebnis geliefert" text
         | None => false
         end
      then ([], Returns EmptyList)
      else
        match table_table soup with
        | None => ([], Raises (Builtin AttributeError))
        | Some rows =>
            match for_search_rows (drop 1 rows) with
            | Raises e => ([], Raises e)
            | Returns result_list =>
                let result_list := apply_limit limit result_list in
                let '(printed, end_) := print_results [] result_list in
                (printed, _ ← end_; Returns NoneValue)
            end
        end
  end.

End Search.

(** ** [search_stock_lxml] *)

(** White space as [str.strip] sees it below 256. *)
Definition is_str_space (c : ascii) : bool :=
  in_range 9 13 c || in_range 28 32 c || (code c =? 133)%N || (code c =? 160)%N.

Fixpoint str_lstrip (s : string) : string :=
  match s with
  | String c s' => if is_str_space c then str_lstrip s' else s
  | EmptyString => EmptyString
  end.

Fixpoint str_rstrip (s : string) : string :=
  match s with
  | EmptyString => EmptyString
  | String c s' =>
      match str_rstrip s' with
      | EmptyString => if is_str_space c then EmptyString else String c EmptyString
      | r => String c r
      end
  end.

(** [s.strip()] *)
Definition str_strip (s : string) : string := str_rstrip (str_lstrip s).

(** [s.replace(old, new)] for an [old] that is not empty: the occurrences
    are taken from the left and do not overlap.  [skip] counts the characters
    of an occurrence still to pass over. *)
Fixpoint replace_from (old new : string) (skip : nat) (s : string) : string :=
  match s with
  | EmptyString => EmptyString
  | String c s' =>
      match skip with
      | S k => replace_from old new k s'
      | O => if String.prefix old s
             then new ++ replace_from old new (String.length old - 1) s'
             else String c (replace_from old new 0 s')
      end
  end.

Definition replace_all (old new s : string) : string := replace_from old new 0 s.

(** Line 491 *)
Definition fn_stock_name_of (raw_link : string) : string :=
  replace_all "-aktie" EmptyString (replace_all "/aktien/" EmptyString raw_link).

Section SearchLxml.

Variable Element : Type.
Variable DataFrame : Type.
Variable requests_get : string -> result string.
Variable html_fromstring : string -> result Element.
Variable xpath : Element -> string -> list Element.
Variable xpath_text : Element -> string -> list string.

(** [pd.DataFrame(columns=indices)], and [df.append] of the frame of one
    row with these columns. *)
Variable empty_frame : DataFrame.
Variable df_append : DataFrame -> string * string * string * string -> DataFrame.

(** [''.join(td.xpath('./text()')).strip()] for the [<td>] at index [i]. *)
Definition td_text_at (table_element : Element) (i : nat) : result string :=
  match xpath table_element ".//td" !! i with
  | Some td => Ok (str_strip (String.concat EmptyString (xpath_text td "./text()")))
  | None => Raise IndexError
  end.

(** Lines 486-491: the four entries of a row. *)
Definition search_lxml_row (table_element : Element)
    : result (string * string * string * string) :=
  let raw_name := str_strip (String.concat EmptyString (xpath_text table_element ".//a/text()")) in
  let raw_link := str_strip (String.concat EmptyString (xpath_text table_element ".//a//@href")) in
  raw_isin ← td_text_at table_element 1;
  raw_wkn ← td_text_at table_element 2;
  let fn_stock_name := fn_stock_name_of raw_link in
  Ok (raw_name, fn_stock_name, raw_isin, raw_wkn).

(** Lines 481-499.  [skip_first_element] is [0] before the first turn. *)
Fixpoint search_lxml_loop (skip_first_element : bool) (limit : Z) (df : DataFrame)
    (summary_table : list Element) : result DataFrame :=
  match summary_table with
  | [] => Ok df
  | table_element :: rest =>
      if negb skip_first_element then search_lxml_loop true limit df rest
      else
        row ← search_lxml_row table_element;
        if (limit =? 0)%Z then Ok df
        else if (limit >? 0)%Z
             then search_lxml_loop skip_first_element (limit - 1) (df_append df row) rest
             else search_lxml_loop skip_first_element limit (df_append df row) rest
  end.

(** [results], given or not, is rebound to a new list at line 479 and not
    used after that. *)
Definition search_stock_lxml (stock : string) (limit : Z) : result DataFrame :=
  let df := empty_frame in
  parser ← get_parser Element requests_get html_fromstring "search" stock;
  let table_xpath := "//div[contains(@class, " ++ quoted "table" ++ ")]//tr" in
  let summary_table := xpath parser table_xpath in
  if (length summary_table =? 0)%nat then Raise ValueError
  else search_lxml_loop false limit df summary_table.

End SearchLxml.

(** The search page with three results, the last one not a stock. *)
Definition search_page : SearchSoup :=
  {| div_red := None;
     table_table := Some
       [ [];
         [ {| td_text := "SAP SE"; td_a := Some (Some "/aktien/sap-aktie") |};
           {| td_text := "DE0007164600"; td_a := None |} ];
         [ {| td_text := "Deutsche Bank AG";
              td_a := Some (Some "/aktien/deutsche_bank-aktie") |} ];
         [ {| td_text := "DAX 40"; td_a := Some (Some "/index/dax") |} ] ] |}.

(** The search page that reports no result. *)
Definition no_result_page : SearchSoup :=
  {| div_red := Some "Ihre Suche hat leider kein Ergebnis geliefert.";
     table_table := None |}.

(** The navigation of the index page. *)
Definition index_page : IndexSoup :=
  {| box_nav := Some [ {| li_a := Some ("DAX", Some "/index/dax/30-werte") |};
                       {| li_a := Some ("MDAX", Some "/index/mdax/werte") |} ] |}.

(** A result row as [search_stock] expects it: a first cell with the name
    of the stock and a link of the form [/aktien/<short>-aktie], [short]
    not empty and on one line; [entry] is the name and [short]. *)
Definition stock_row (row : list Td) (entry : string * string) : Prop :=
  exists cell rest,
    row = cell :: rest /\
    td_text cell = fst entry /\
    td_a cell = Some (Some ("/aktien/" ++ snd entry ++ "-aktie")) /\
    snd entry <> EmptyString /\
    all_chars (fun c => negb (Ascii.eqb c "010")) (snd entry) = true.

(** The entry of [result_list] for such a row: the name and the link. *)
Definition result_pair (entry : string * string) : string * string :=
  (fst entry, finanzen_net ++ "/aktien/" ++ snd entry ++ "-aktie").

(** The line [search_stock] prints for an entry. *)
Definition result_line (entry : string * string) : string :=
  fst entry ++ ": " ++ snd entry.

(** The search page with two results, both stocks. *)
Definition stock_results_page : SearchSoup :=
  {| div_red := None;
     table_table := Some
       [ [];
         [ {| td_text := "SAP SE"; td_a := Some (Some "/aktien/sap-aktie") |};
           {| td_text := "DE0007164600"; td_a := None |} ];
         [ {| td_text := "Deutsche Bank AG";
              td_a := Some (Some "/aktien/deutsche_bank-aktie") |} ] ] |}.

(** * Properties *)

Local Arguments String.append !_ _ / : simpl nomatch.

Create HintDb pystr discriminated.

(** ** The models at work *)

Example parse_for_isin_ex1 : parse_for_isin "xx DE0007164600 yy" = Some "DE0007164600".
Proof. reflexivity. Qed.

Example float_ex1 : float "1234.56" = Ok (Finite false 123456 (-2)).
Proof. reflexivity. Qed.

Example float_ex2 : float " -1_0.5e3 " = Ok (Finite true 105 2).
Proof. reflexivity. Qed.

Example float_ex3 : float "-" = Raise ValueError.
Proof. reflexivity. Qed.

Example float_ex4 : float "1.234.56" = Raise ValueError.
Proof. reflexivity. Qed.

Example float_ex5 : float "12,5%" = Raise ValueError.
Proof. reflexivity. Qed.

Example float_ex6 : float "." = Raise ValueError.
Proof. reflexivity. Qed.

Example float_ex7 : float "1e" = Raise ValueError.
Proof. reflexivity. Qed.

Example float_ex8 : float "-Infinity" = Ok (Infinity true).
Proof. reflexivity. Qed.

Example float_ex9 : float EmptyString = Raise ValueError.
Proof. reflexivity. Qed.

Example float_ex10 : float "1e400" = Ok (Infinity false).
Proof. vm_compute. reflexivity. Qed.

Example float_ex11 : float "-1e400" = Ok (Infinity true).
Proof. vm_compute. reflexivity. Qed.

Example float_ex12 :
  float "1.7976931348623158e308" = Ok (Finite false 17976931348623158 292) /\
  float "1.7976931348623159e308" = Ok (Infinity false).
Proof. split; vm_compute; reflexivity. Qed.

Example float_ex13 : float "1e-400" = Ok (Finite false 1 (-400)).
Proof. vm_compute. reflexivity. Qed.

(** ** Strings *)

Lemma append_nil_r (s : string) : s ++ EmptyString = s.
Proof. induction s as [|c s IH]; simpl; [reflexivity | now rewrite IH]. Qed.

Lemma append_assoc (a b c : string) : (a ++ b) ++ c = a ++ (b ++ c).
Proof. induction a as [|x a IH]; simpl; [reflexivity | now rewrite IH]. Qed.

Lemma length_append (a b : string) :
  String.length (a ++ b) = String.length a + String.length b.
Proof. induction a as [|x a IH]; simpl; [reflexivity | now rewrite IH]. Qed.

(** ** The pattern matcher *)

Lemma match_here_sound pat : forall s m,
  match_here pat s = Some m -> shaped pat m = true /\ exists post, s = m ++ post.
Proof.
  induction pat as [|cls pat IH]; intros s m H; simpl in H.
  - injection H as <-. split; [reflexivity | now exists s].
  - destruct s as [|c s]; [discriminate|].
    destruct (cls c) eqn:Hc; [|discriminate].
    destruct (match_here pat s) as [m'|] eqn:Hm; [|discriminate].
    injection H as <-. destruct (IH _ _ Hm) as [Hs [post ->]].
    split; [simpl; now rewrite Hc | now exists post].
Qed.

Lemma match_here_complete pat : forall m post,
  shaped pat m = true -> match_here pat (m ++ post) = Some m.
Proof.
  induction pat as [|cls pat IH]; intros m post H; destruct m as [|c m];
    simpl in *; try discriminate; [reflexivity|].
  apply andb_prop in H as [Hc Hm]. now rewrite Hc, (IH _ _ Hm).
Qed.

Lemma re_search_sound pat : forall s m,
  re_search pat s = Some m ->
  exists pre post, s = pre ++ m ++ post /\ shaped pat m = true /\
    forall pre' m' post', s = pre' ++ m' ++ post' -> shaped pat m' = true ->
      String.length pre <= String.length pre'.
Proof.
  induction s as [|c s IH]; intros m H; simpl in H.
  - destruct (match_here pat EmptyString) as [m0|] eqn:Hm; [|discriminate].
    injection H as ->. destruct (match_here_sound _ _ _ Hm) as [Hs [post Hp]].
    exists EmptyString, post. simpl. repeat split; auto. intros; lia.
  - destruct (match_here pat (String c s)) as [m0|] eqn:Hm.
    + injection H as ->. destruct (match_here_sound _ _ _ Hm) as [Hs [post Hp]].
      exists EmptyString, post. simpl. repeat split; auto. intros; lia.
    + destruct (IH _ H) as (pre & post & -> & Hs & Hleft).
      exists (String c pre), post. simpl. repeat split; auto.
      intros pre' m' post' Heq Hs'. destruct pre' as [|c' pre']; simpl in Heq.
      * rewrite Heq, (match_here_complete _ _ _ Hs') in Hm. discriminate.
      * injection Heq as _ Heq. simpl. apply le_n_S. eapply Hleft; eauto.
Qed.

Lemma re_search_none pat : forall s,
  re_search pat s = None ->
  forall pre m post, s = pre ++ m ++ post -> shaped pat m = false.
Proof.
  induction s as [|c s IH]; intros H pre m post Heq; simpl in H;
    destruct (shaped pat m) eqn:Hs; auto; exfalso.
  - destruct pre; [|discriminate]. simpl in Heq.
    rewrite Heq, (match_here_complete _ _ _ Hs) in H. discriminate.
  - destruct (match_here pat (String c s)) eqn:Hm; [discriminate|].
    destruct pre as [|c' pre]; simpl in Heq.
    + rewrite Heq, (match_here_complete _ _ _ Hs) in Hm. discriminate.
    + injection Heq as _ Heq. rewrite (IH H _ _ _ Heq) in Hs. discriminate.
Qed.

Lemma may_start_false pat : forall p s,
  may_start pat p = false -> match_here pat (p ++ s) = None.
Proof.
  induction pat as [|cls pat IH]; intros p s H; destruct p as [|c p];
    simpl in *; try discriminate.
  destruct (cls c); [|reflexivity]. simpl in H. now rewrite (IH _ _ H).
Qed.

Lemma re_search_skipped pat : forall p s,
  skipped pat p = true -> re_search pat (p ++ s) = re_search pat s.
Proof.
  induction p as [|c p IH]; intros s H; [reflexivity|].
  cbn [skipped] in H. apply andb_prop in H as [Hn Hs].
  apply negb_true_iff in Hn.
  change (String c p ++ s) with (String c (p ++ s)).
  cbn [re_search].
  change (String c (p ++ s)) with (String c p ++ s).
  rewrite (may_start_false _ _ _ Hn). now apply IH.
Qed.

(** ** [parse_for_isin] *)

Lemma shaped_length pat : forall m,
  shaped pat m = true -> String.length m = List.length pat.
Proof.
  induction pat as [|cls pat IH]; intros [|c m] H; simpl in *;
    try discriminate; [reflexivity|].
  apply andb_prop in H as [_ H]. now rewrite (IH _ H).
Qed.

Lemma isin_shaped_iff (m : string) :
  shaped isin_pattern m = true <-> isin_shaped m.
Proof.
  split.
  - intros H. pose proof (shaped_length _ _ H) as Hl.
    do 12 (destruct m as [|? m]; [discriminate Hl|]).
    destruct m; [|discriminate Hl].
    cbn [isin_pattern repeat app shaped] in H.
    repeat (apply andb_prop in H as [? H]).
    split; [reflexivity|].
    intros i c' Hg.
    do 12 (destruct i as [|i]; [injection Hg as <-; assumption|]).
    discriminate Hg.
  - intros [Hl Hc].
    do 12 (destruct m as [|? m]; [discriminate Hl|]).
    destruct m; [|discriminate Hl].
    cbn [isin_pattern repeat app shaped].
    rewrite !andb_true_iff.
    repeat match goal with |- _ /\ _ => split end; try reflexivity;
      first [ exact (Hc 0 _ eq_refl) | exact (Hc 1 _ eq_refl)
            | exact (Hc 2 _ eq_refl) | exact (Hc 3 _ eq_refl)
            | exact (Hc 4 _ eq_refl) | exact (Hc 5 _ eq_refl)
            | exact (Hc 6 _ eq_refl) | exact (Hc 7 _ eq_refl)
            | exact (Hc 8 _ eq_refl) | exact (Hc 9 _ eq_refl)
            | exact (Hc 10 _ eq_refl) | exact (Hc 11 _ eq_refl) ].
Qed.

(** C5, as stated, fails: ["abcdefghijk1"] is two letters, nine alphanumeric
    characters and a digit, and [parse_for_isin] does not find it. *)
Lemma parse_for_isin_lowercase_not_found :
  shaped spec_isin_pattern "abcdefghijk1" = true /\
  parse_for_isin "abcdefghijk1" = None.
Proof. split; reflexivity. Qed.

(** C5 (amended): for every input string, [parse_for_isin] returns the
    leftmost substring made of two ASCII letters, nine characters that are
    upper-case ASCII letters or digits, and one digit, when there is one, and
    [None] when no substring has that shape. *)
Theorem parse_for_isin_leftmost (string_object : string) :
  match parse_for_isin string_object with
  | Some isin =>
      exists pre post,
        string_object = pre ++ isin ++ post /\ isin_shaped isin /\
        forall pre' m' post',
          string_object = pre' ++ m' ++ post' -> isin_shaped m' ->
          String.length pre <= String.length pre'
  | None =>
      forall pre m post, string_object = pre ++ m ++ post -> ~ isin_shaped m
  end.
Proof.
  unfold parse_for_isin.
  destruct (re_search isin_pattern string_object) as [isin|] eqn:H.
  - destruct (re_search_sound _ _ _ H) as (pre & post & Heq & Hs & Hleft).
    exists pre, post. repeat split; try assumption.
    + now apply isin_shaped_iff.
    + now apply isin_shaped_iff.
    + intros pre' m' post' Heq' Hs'. apply (Hleft pre' m' post' Heq').
      now apply isin_shaped_iff.
  - intros pre m post Heq Hs. apply isin_shaped_iff in Hs.
    rewrite (re_search_none _ _ H _ _ _ Heq) in Hs. discriminate.
Qed.

(** ** [join_url] *)

Lemma parse_for_isin_whole (m : string) :
  isin_shaped m -> parse_for_isin m = Some m.
Proof.
  intros H. apply isin_shaped_iff in H. unfold parse_for_isin.
  destruct m as [|c m]; [discriminate H|].
  cbn [re_search].
  rewrite <- (append_nil_r (String c m)) at 1.
  now rewrite (match_here_complete _ _ EmptyString H).
Qed.

(** No match of the ISIN pattern starts inside the search endpoint: the
    endpoint has no upper-case letter and no digit, and ends in ["="]. *)
Lemma parse_for_isin_search_url (search_value : string) :
  parse_for_isin (isin_search_url ++ search_value) = parse_for_isin search_value.
Proof. unfold parse_for_isin. now apply re_search_skipped. Qed.

(** Whenever the extractor finds an ISIN in the search value, the URL is the
    ISIN search endpoint followed by the search value. *)
Lemma join_url_search_endpoint (url search_value isin : string) :
  parse_for_isin search_value = Some isin ->
  join_url url search_value = (isin_search_url ++ search_value, Some isin).
Proof. intros H. unfold join_url. now rewrite H. Qed.

Lemma join_url_direct (url search_value : string) :
  parse_for_isin search_value = None ->
  join_url url search_value = (url ++ search_value, None).
Proof. intros H. unfold join_url. now rewrite H. Qed.

(** The scenario of the specification: ["DE0007164600"], lower-cased by the
    orchestrators, is sent to the ISIN search endpoint. *)
Example join_url_DE0007164600 :
  join_url "https://www.finanzen.net/bilanz_guv/" (lower "DE0007164600")
  = ("https://www.finanzen.net/suchergebnis.asp?_search=de0007164600",
     Some "de0007164600").
Proof. reflexivity. Qed.

(** C6: the code at the failing input.  ["DE000A1EWWW0"] is an ISIN, and
    [parse_for_isin] finds it; [get_fundamentals] and [get_chart_infos]
    lower-case it first, the pattern then rejects the letters of its middle
    part, and the URL is the direct stock endpoint. The request of
    [get_fundamentals] goes to that URL, whereas for ["DE0007164600"] it
    goes to the search endpoint. *)
Theorem join_url_lowercased_isin_direct_endpoint :
  parse_for_isin "DE000A1EWWW0" = Some "DE000A1EWWW0" /\
  join_url "https://www.finanzen.net/bilanz_guv/" (lower "DE000A1EWWW0")
  = ("https://www.finanzen.net/bilanz_guv/de000a1ewww0", None) /\
  join_url "https://www.finanzen.net/aktien/" (lower "DE000A1EWWW0")
  = ("https://www.finanzen.net/aktien/de000a1ewww0", None) /\
  get_fundamentals unit search_endpoint_only "DE000A1EWWW0"
  = Raise RequestException /\
  get_fundamentals unit search_endpoint_only "DE0007164600"
  = Ok {| Quotes := None; Key_Ratios := None; Income_Statement := None;
          Balance_Sheet := None; ISIN := "DE0007164600"; Other := None |}.
Proof. repeat split; reflexivity. Qed.

(** C7: for every search value in which the extractor finds an ISIN, and so
    for every search value that is itself an ISIN, the extractor applied to
    the URL that [join_url] builds returns the ISIN that [join_url] derived
    from the search value. *)
Theorem join_url_isin_roundtrip (url search_value : string) :
  parse_for_isin search_value <> None ->
  parse_for_isin (fst (join_url url search_value)) = snd (join_url url search_value) /\
  snd (join_url url search_value) = parse_for_isin search_value /\
  (isin_shaped search_value -> snd (join_url url search_value) = Some search_value).
Proof.
  intros H. destruct (parse_for_isin search_value) as [isin|] eqn:Hp; [|congruence].
  rewrite (join_url_search_endpoint url _ _ Hp). cbn [fst snd].
  rewrite parse_for_isin_search_url, Hp. repeat split.
  intros Hs. now rewrite <- Hp, (parse_for_isin_whole _ Hs).
Qed.

(** The round trip at ["DE0007164600"]. *)
Lemma join_url_isin_roundtrip_witness :
  parse_for_isin "DE0007164600" <> None /\
  parse_for_isin (fst (join_url "https://www.finanzen.net/aktien/" "DE0007164600"))
  = snd (join_url "https://www.finanzen.net/aktien/" "DE0007164600").
Proof.
  assert (H : parse_for_isin "DE0007164600" <> None) by (vm_compute; discriminate).
  split; [exact H|].
  exact (proj1 (join_url_isin_roundtrip "https://www.finanzen.net/aktien/"
                  "DE0007164600" H)).
Defined.

(** ** Digits, separators and [float] *)

Lemma all_chars_app cls (a b : string) :
  all_chars cls (a ++ b) = all_chars cls a && all_chars cls b.
Proof.
  induction a as [|c a IH]; simpl; [reflexivity|].
  now rewrite IH, andb_assoc.
Qed.

Lemma all_chars_impl (cls cls' : ascii -> bool) (s : string) :
  (forall c, cls c = true -> cls' c = true) ->
  all_chars cls s = true -> all_chars cls' s = true.
Proof.
  intros Himp. induction s as [|c s IH]; simpl; [reflexivity|].
  intros H. apply andb_prop in H as [Hc Hs]. now rewrite (Himp _ Hc), IH.
Qed.

Lemma is_digit_cases (c : ascii) :
  is_digit c = true ->
  In c ["0"; "1"; "2"; "3"; "4"; "5"; "6"; "7"; "8"; "9"]%char.
Proof.
  destruct c as [[] [] [] [] [] [] [] []]; vm_compute; intros H;
    try discriminate H; tauto.
Qed.

Ltac digit_cases H :=
  apply is_digit_cases in H; cbn [In] in H;
  repeat (destruct H as [<- | H]); [.. | destruct H].

Lemma re_sub_app cls repl (a b : string) :
  re_sub cls repl (a ++ b) = re_sub cls repl a ++ re_sub cls repl b.
Proof.
  induction a as [|c a IH]; simpl; [reflexivity|].
  destruct (cls c); rewrite IH; [now rewrite append_assoc | reflexivity].
Qed.

Lemma re_sub_none cls repl (s : string) :
  all_chars (fun c => negb (cls c)) s = true -> re_sub cls repl s = s.
Proof.
  induction s as [|c s IH]; simpl; [reflexivity|].
  intros H. apply andb_prop in H as [Hc Hs].
  apply negb_true_iff in Hc. now rewrite Hc, IH.
Qed.

Lemma re_sub_digits cls repl (s : string) :
  (forall c, is_digit c = true -> cls c = false) ->
  all_digits s = true -> re_sub cls repl s = s.
Proof.
  intros Hcls H. apply re_sub_none. revert H. apply all_chars_impl.
  intros c Hc. now rewrite (Hcls _ Hc).
Qed.

Lemma digit_not_dot c : is_digit c = true -> is_char "." c = false.
Proof. intros H. digit_cases H; reflexivity. Qed.

Lemma digit_not_comma c : is_digit c = true -> is_char "," c = false.
Proof. intros H. digit_cases H; reflexivity. Qed.

Lemma digit_kept c : is_digit c = true -> not_digit_or_comma c = false.
Proof. intros H. unfold not_digit_or_comma. now rewrite H. Qed.

#[local] Hint Resolve digit_not_dot digit_not_comma digit_kept : pystr.

Lemma is_plain_cases (c : ascii) :
  is_plain c = true ->
  In c ["0"; "1"; "2"; "3"; "4"; "5"; "6"; "7"; "8"; "9"; "."]%char.
Proof.
  destruct c as [[] [] [] [] [] [] [] []]; vm_compute; intros H;
    try discriminate H; tauto.
Qed.

Ltac plain_cases H :=
  apply is_plain_cases in H; cbn [In] in H;
  repeat (destruct H as [<- | H]); [.. | destruct H].

Lemma lstrip_plain (s : string) : all_chars is_plain s = true -> lstrip s = s.
Proof.
  destruct s as [|c s]; [reflexivity|]. cbn [all_chars]. intros H.
  apply andb_prop in H as [Hc _]. plain_cases Hc; reflexivity.
Qed.

Lemma rstrip_plain (s : string) : all_chars is_plain s = true -> rstrip s = s.
Proof.
  induction s as [|c s IH]; [reflexivity|]. cbn [all_chars]. intros H.
  apply andb_prop in H as [Hc Hs]. cbn [rstrip]. rewrite (IH Hs).
  destruct s; [|reflexivity]. plain_cases Hc; reflexivity.
Qed.

Lemma strip_plain (s : string) : all_chars is_plain s = true -> strip s = s.
Proof. intros H. unfold strip. now rewrite (lstrip_plain _ H), rstrip_plain. Qed.

Lemma contains_underscore_plain (s : string) :
  all_chars is_plain s = true -> contains "_" s = false.
Proof.
  induction s as [|c s IH]; [reflexivity|]. cbn [all_chars]. intros H.
  apply andb_prop in H as [Hc Hs]. cbn [contains]. rewrite (IH Hs).
  plain_cases Hc; reflexivity.
Qed.

Lemma span_digits_app (d r : string) :
  all_digits d = true ->
  match r with String c _ => is_digit c = false | EmptyString => True end ->
  span_digits (d ++ r) = (d, r).
Proof.
  intros Hd Hr. induction d as [|c d IH]; simpl.
  - destruct r as [|c r]; [reflexivity|]. simpl. now rewrite Hr.
  - cbn [all_digits all_chars] in Hd. apply andb_prop in Hd as [Hc Hd].
    rewrite Hc, (IH Hd). reflexivity.
Qed.

Lemma span_digits_all (d : string) :
  all_digits d = true -> span_digits d = (d, EmptyString).
Proof.
  intros H. rewrite <- (append_nil_r d) at 1. now apply span_digits_app.
Qed.

(** [strtod] on a text that starts with a digit reads a number without sign. *)
Lemma strtod_digit_first (c : ascii) (s : string) :
  is_digit c = true -> strtod (String c s) = parse_number false (String c s).
Proof. intros H. digit_cases H; reflexivity. Qed.

(** The number written as [ip "." fp]. *)
Lemma parse_number_point (neg : bool) (ip fp : string) :
  all_digits ip = true -> ip <> EmptyString -> all_digits fp = true ->
  parse_number neg (ip ++ String "." fp)
  = Some (float_of_decimal neg (digits_val 0 (ip ++ fp)) (- Z.of_nat (String.length fp))).
Proof.
  intros Hi Hne Hf. unfold parse_number.
  rewrite (span_digits_app ip (String "." fp) Hi eq_refl).
  rewrite (span_digits_all fp Hf).
  destruct ip as [|c ip]; [congruence|]. reflexivity.
Qed.

Lemma float_point (ip fp : string) :
  all_digits ip = true -> ip <> EmptyString -> all_digits fp = true ->
  float (ip ++ String "." fp)
  = Ok (float_of_decimal false (digits_val 0 (ip ++ fp)) (- Z.of_nat (String.length fp))).
Proof.
  intros Hi Hne Hf.
  assert (Hp : all_chars is_plain (ip ++ String "." fp) = true).
  { rewrite all_chars_app. cbn [all_chars].
    rewrite (all_chars_impl is_digit is_plain ip), (all_chars_impl is_digit is_plain fp);
      try assumption; try reflexivity;
      intros c Hc; unfold is_plain; now rewrite Hc. }
  unfold float. rewrite (strip_plain _ Hp), (contains_underscore_plain _ Hp).
  destruct ip as [|c ip]; [congruence|].
  cbn [all_digits all_chars] in Hi. apply andb_prop in Hi as [Hc Hi].
  change (String c ip ++ String "." fp) with (String c (ip ++ String "." fp)).
  rewrite (strtod_digit_first _ _ Hc).
  change (String c (ip ++ String "." fp)) with (String c ip ++ String "." fp).
  rewrite parse_number_point; try reflexivity; try congruence.
  cbn [all_digits all_chars]. now rewrite Hc.
Qed.

(** ** The binary64 range *)

Lemma digit_val_le (c : ascii) : is_digit c = true -> (digit_val c <= 9)%N.
Proof. intros H. digit_cases H; apply N.leb_le; reflexivity. Qed.

(** A text of [n] digits writes a number below [10^n]. *)
Lemma digits_val_lt (s : string) : forall acc : N,
  all_digits s = true ->
  (Z.of_N (digits_val acc s) < (Z.of_N acc + 1) * 10 ^ Z.of_nat (String.length s))%Z.
Proof.
  induction s as [|c s IH]; intros acc H.
  - cbn [digits_val String.length]. change (Z.of_nat 0) with 0%Z.
    rewrite Z.pow_0_r. lia.
  - cbn [all_digits all_chars] in H. apply andb_prop in H as [Hc Hs].
    cbn [digits_val String.length]. rewrite Nat2Z.inj_succ, Z.pow_succ_r by lia.
    pose proof (IH (10 * acc + digit_val c)%N Hs) as Hlt.
    pose proof (digit_val_le c Hc) as Hd.
    rewrite N2Z.inj_add, N2Z.inj_mul in Hlt.
    assert (Hp : (0 < 10 ^ Z.of_nat (String.length s))%Z)
      by (apply Z.pow_pos_nonneg; lia).
    change (Z.of_N 10) with 10%Z in Hlt.
    assert (Hd' : (Z.of_N (digit_val c) <= 9)%Z) by lia.
    nia.
Qed.

(** The largest number of 308 digits is in the binary64 range. *)
Lemma threshold_above_308_digits : (10 ^ 308 < overflow_threshold)%Z.
Proof. vm_compute. reflexivity. Qed.

(** A decimal with at most 308 digits before the point is read as a finite
    float. *)
Lemma float_of_decimal_in_range (neg : bool) (ip fp : string) :
  all_digits ip = true -> all_digits fp = true ->
  (String.length ip <= 308)%nat ->
  float_of_decimal neg (digits_val 0 (ip ++ fp)) (- Z.of_nat (String.length fp))
  = Finite neg (digits_val 0 (ip ++ fp)) (- Z.of_nat (String.length fp)).
Proof.
  intros Hi Hf Hlen. unfold float_of_decimal, overflows.
  assert (Hd : all_digits (ip ++ fp) = true).
  { unfold all_digits in *. now rewrite all_chars_app, Hi, Hf. }
  pose proof (digits_val_lt (ip ++ fp) 0 Hd) as Hlt.
  rewrite length_append, Nat2Z.inj_add, Z.pow_add_r in Hlt by lia.
  rewrite Z.opp_involutive.
  rewrite (Z.max_r 0 (Z.of_nat (String.length fp))) by lia.
  rewrite (Z.max_l 0 (- Z.of_nat (String.length fp))) by lia.
  rewrite Z.pow_0_r, Z.mul_1_r.
  pose proof threshold_above_308_digits as HT.
  assert (Hip : (10 ^ Z.of_nat (String.length ip) <= 10 ^ 308)%Z)
    by (apply Z.pow_le_mono_r; lia).
  assert (Hp : (0 < 10 ^ Z.of_nat (String.length fp))%Z)
    by (apply Z.pow_pos_nonneg; lia).
  assert (Hq : (0 < 10 ^ Z.of_nat (String.length ip))%Z)
    by (apply Z.pow_pos_nonneg; lia).
  set (m := Z.of_N (digits_val 0 (ip ++ fp))) in *.
  set (P := (10 ^ Z.of_nat (String.length fp))%Z) in *.
  set (Q := (10 ^ Z.of_nat (String.length ip))%Z) in *.
  set (B := (10 ^ 308)%Z) in *.
  destruct (Z.leb_spec (overflow_threshold * P) m) as [Hle|_]; [|reflexivity].
  exfalso. change (Z.of_N 0) with 0%Z in Hlt.
  assert (H1 : (Q * P <= B * P)%Z) by (apply Z.mul_le_mono_nonneg_r; lia).
  assert (H2 : (B * P < overflow_threshold * P)%Z) by (apply Z.mul_lt_mono_pos_r; lia).
  lia.
Qed.

(** ** The numeric normalizers *)

Lemma concat_cons (sep g : string) (gs : list string) :
  gs <> [] -> String.concat sep (g :: gs) = g ++ sep ++ String.concat sep gs.
Proof. destruct gs; [congruence | reflexivity]. Qed.

Lemma re_sub_point_groups (groups : list string) :
  forallb all_digits groups = true ->
  re_sub (is_char ".") EmptyString (String.concat "." groups)
  = String.concat EmptyString groups.
Proof.
  induction groups as [|g gs IH]; [reflexivity|].
  cbn [forallb]. intros H. apply andb_prop in H as [Hg Hgs].
  destruct gs as [|g' gs].
  - cbn [String.concat]. apply re_sub_digits; auto with pystr.
  - rewrite (concat_cons "." g (g' :: gs)) by discriminate.
    rewrite (concat_cons EmptyString g (g' :: gs)) by discriminate.
    rewrite !re_sub_app, (IH Hgs), (re_sub_digits _ _ g digit_not_dot Hg).
    reflexivity.
Qed.

Lemma all_digits_groups (groups : list string) :
  forallb all_digits groups = true ->
  all_digits (String.concat EmptyString groups) = true.
Proof.
  induction groups as [|g gs IH]; [reflexivity|].
  cbn [forallb]. intros H. apply andb_prop in H as [Hg Hgs].
  destruct gs as [|g' gs]; [exact Hg|].
  rewrite concat_cons by discriminate. unfold all_digits in *.
  rewrite !all_chars_app, Hg, (IH Hgs). reflexivity.
Qed.

Lemma groups_not_empty (groups : list string) :
  digit_groups groups = true -> String.concat EmptyString groups <> EmptyString.
Proof.
  destruct groups as [|g gs]; [discriminate|]. cbn [digit_groups]. intros H.
  apply andb_prop in H as [Hg _]. apply negb_true_iff in Hg.
  destruct g as [|c g]; [discriminate|].
  destruct gs; [discriminate|]. rewrite concat_cons by discriminate. discriminate.
Qed.

Lemma digits_not_sentinel (ip r : string) :
  all_digits ip = true -> ip <> EmptyString -> String.eqb (ip ++ r) "-" = false.
Proof.
  intros H Hne. destruct ip as [|c ip]; [congruence|].
  cbn [all_digits all_chars] in H. apply andb_prop in H as [Hc _].
  digit_cases Hc; reflexivity.
Qed.

(** What lines 116-118 do to a row of one cell. *)
Lemma fundamentals_row_data_one (x : string) :
  fundamentals_row_data [x]
  = let y := re_sub (is_char ",") "." (re_sub (is_char ".") EmptyString x) in
    if String.eqb y "-" then Ok [None]
    else (fun v => [Some v]) <$> float y.
Proof.
  unfold fundamentals_row_data. cbn [map for_each]. cbv zeta.
  destruct (String.eqb _ "-"); [reflexivity|].
  destruct (float _); reflexivity.
Qed.

(** C2: a cell of the localized form -- groups of digits separated by
    points, a comma, digits -- becomes the float of the number that the
    digits write, with as many decimals as there are digits after the comma:
    the points are removed first and the comma is replaced by a point after
    that; ["1.234,56"] becomes 1234.56.  With at most 308 digits before the
    comma that float is finite (beyond the binary64 range it is [inf]).  The
    cell ["-"] becomes [None]. *)
Theorem fundamentals_normalizer_localized (groups : list string) (fp : string) :
  digit_groups groups = true ->
  all_digits fp = true ->
  fundamentals_row_data [String.concat "." groups ++ "," ++ fp]
  = Ok [Some (float_of_decimal false
                (digits_val 0 (String.concat EmptyString groups ++ fp))
                (- Z.of_nat (String.length fp)))] /\
  ((String.length (String.concat EmptyString groups) <= 308)%nat ->
   fundamentals_row_data [String.concat "." groups ++ "," ++ fp]
   = Ok [Some (Finite false (digits_val 0 (String.concat EmptyString groups ++ fp))
                 (- Z.of_nat (String.length fp)))]) /\
  fundamentals_row_data ["-"] = Ok [None] /\
  forall x, fundamentals_row_data [x]
            = for_each (fun y => if String.eqb y "-" then Ok None
                                 else Some <$> float y)
                [re_sub (is_char ",") "." (re_sub (is_char ".") EmptyString x)].
Proof.
  intros Hg Hf.
  assert (Hgs : forallb all_digits groups = true).
  { destruct groups; [discriminate|]. cbn [digit_groups] in Hg.
    now apply andb_prop in Hg as [_ Hg]. }
  pose proof (all_digits_groups _ Hgs) as Hd.
  pose proof (groups_not_empty _ Hg) as Hne.
  assert (Hval : fundamentals_row_data [String.concat "." groups ++ "," ++ fp]
    = Ok [Some (float_of_decimal false
                  (digits_val 0 (String.concat EmptyString groups ++ fp))
                  (- Z.of_nat (String.length fp)))]).
  { rewrite fundamentals_row_data_one. cbv zeta.
    rewrite !re_sub_app, (re_sub_point_groups _ Hgs).
    rewrite (re_sub_digits _ _ fp digit_not_dot Hf).
    rewrite (re_sub_digits _ _ fp digit_not_comma Hf).
    rewrite (re_sub_digits _ _ _ digit_not_comma Hd).
    cbn [re_sub is_char Ascii.eqb Bool.eqb String.append].
    rewrite (digits_not_sentinel _ _ Hd Hne).
    now rewrite (float_point _ _ Hd Hne Hf). }
  split; [exact Hval|]. split; [|split; reflexivity].
  intros Hlen. rewrite Hval.
  now rewrite (float_of_decimal_in_range false _ _ Hd Hf Hlen).
Qed.

(** The cell ["1.234,56"]. *)
Lemma fundamentals_normalizer_localized_witness :
  digit_groups ["1"; "234"] = true /\ all_digits "56" = true /\
  fundamentals_row_data ["1.234,56"] = Ok [Some (Finite false 123456 (-2))].
Proof.
  split; [reflexivity|]. split; [reflexivity|].
  refine (proj1 (proj2 (fundamentals_normalizer_localized ["1"; "234"] "56"
                          eq_refl eq_refl)) _).
  simpl. lia.
Defined.

(** The bound of 308 digits is sharp: the largest number of 308 digits is
    read as a finite float, the largest of 309 digits as [inf]. *)
Example fundamentals_normalizer_range :
  fundamentals_row_data [nines 308 ++ ",5"]
  = Ok [Some (Finite false (digits_val 0 (nines 308 ++ "5")) (-1))] /\
  fundamentals_row_data [nines 309 ++ ",5"] = Ok [Some (Infinity false)].
Proof. split; vm_compute; reflexivity. Qed.

(** The decimal of that cell is the rational 1234.56. *)
Example float_value_1234_56 :
  match float_value (Finite false 123456 (-2)) with
  | Some q => Qeq q (123456 # 100)
  | None => False
  end.
Proof. reflexivity. Qed.

(** The order of the two substitutions matters: the other way round, the
    comma turns into a point that is then removed with the others. *)
Example substitutions_other_order :
  re_sub (is_char ".") EmptyString (re_sub (is_char ",") "." "1.234,56") = "123456".
Proof. reflexivity. Qed.

(** *** [get_estimates] *)

(** What lines 225-228 do to a row of one cell. *)
Lemma estimates_row_data_one (x : string) :
  estimates_row_data [x]
  = if String.eqb x "-" then Ok [None]
    else (fun v => [Some v])
           <$> float (re_sub (is_char ",") "." (re_sub not_digit_or_comma EmptyString x)).
Proof.
  unfold estimates_row_data. cbn [map for_each].
  destruct (String.eqb x "-"); [reflexivity|]. cbn [fmap option_fmap option_map].
  destruct (float _); reflexivity.
Qed.





(** Beyond the binary64 range the sign is lost too. *)
Example estimates_normalizer_range :
  estimates_row_data ["-" ++ nines 309 ++ ",5"] = Ok [Some (Infinity false)].
Proof. vm_compute. reflexivity. Qed.

(** ** The table parser *)

Lemma for_each_length {A B : Type} (f : A -> result B) (l : list A) (ys : list B) :
  for_each f l = Ok ys -> length ys = length l.
Proof.
  revert ys. induction l as [|x l IH]; intros ys H; cbn [for_each] in H.
  - now injection H as <-.
  - destruct (f x) as [y|]; [|discriminate]. cbn in H.
    destruct (for_each f l) as [ys'|]; [|discriminate]. cbn in H.
    injection H as <-. cbn. now rewrite (IH ys').
Qed.

Lemma for_each_raises {A B : Type} (f : A -> result B) (l : list A) (x : A) (e : exn) :
  In x l -> f x = Raise e -> exists e', for_each f l = Raise e'.
Proof.
  induction l as [|a l IH]; intros Hin Hx; [destruct Hin|].
  cbn [for_each]. destruct Hin as [-> | Hin].
  - rewrite Hx. now exists e.
  - destruct (f a); [|eauto]. destruct (IH Hin Hx) as [e' ->]. cbn. eauto.
Qed.

Lemma for_rows_raises {S : Type} (body : S -> Row -> result S) (rows : list Row)
    (row : Row) :
  In row rows -> (forall acc, exists e, body acc row = Raise e) ->
  forall acc, exists e, for_rows body acc rows = Raise e.
Proof.
  induction rows as [|r rows IH]; intros Hin Hrow acc; [destruct Hin|].
  cbn [for_rows]. destruct Hin as [-> | Hin].
  - destruct (Hrow acc) as [e ->]. now exists e.
  - destruct (body acc r) as [acc'|e]; [|eauto]. cbn. now apply IH.
Qed.

Lemma fundamentals_row_data_length (cells : list string) (vals : list (option pyfloat)) :
  fundamentals_row_data cells = Ok vals -> length vals = length cells.
Proof.
  unfold fundamentals_row_data. intros H. apply for_each_length in H.
  now rewrite H, !length_map.
Qed.

(** A label that is not among [years] is not a key of the row's dictionary. *)
Lemma fold_insert_zip_other {V : Type} (years : list string) : forall (vals : list V)
    (d : gmap string V) (k : string),
  k ∉ years ->
  fold_left (fun d kv => <[fst kv := snd kv]> d) (zip years vals) d !! k = d !! k.
Proof.
  induction years as [|y years IH]; intros [|v vals] d k Hk; try reflexivity.
  cbn. apply not_elem_of_cons in Hk as [Hne Hk].
  rewrite (IH _ _ _ Hk). now rewrite lookup_insert_ne.
Qed.

Lemma fold_insert_zip_lookup {V : Type} (years : list string) : forall (vals : list V)
    (d : gmap string V) (i : nat) (y : string),
  NoDup years -> years !! i = Some y ->
  fold_left (fun d kv => <[fst kv := snd kv]> d) (zip years vals) d !! y
  = match vals !! i with Some v => Some v | None => d !! y end.
Proof.
  induction years as [|y0 years IH]; intros vals d i y Hnd Hy; [discriminate|].
  apply NoDup_cons in Hnd as [Hy0 Hnd].
  destruct vals as [|v vals]; [now destruct i|].
  cbn [zip_with fold_left fst snd]. destruct i as [|i]; cbn in Hy |- *.
  - injection Hy as <-. rewrite (fold_insert_zip_other _ _ _ _ Hy0).
    now rewrite lookup_insert_eq.
  - rewrite (IH _ _ _ _ Hnd Hy). destruct (vals !! i); [reflexivity|].
    rewrite lookup_insert_ne; [reflexivity|].
    intros ->. apply Hy0. eapply list_elem_of_lookup_2; eauto.
Qed.

(** [dict(zip(years, vals))]: the label at position [i] gets the value at
    position [i], and is absent when there is no such value. *)
Lemma dict_of_zip_lookup {V : Type} (years : list string) (vals : list V)
    (i : nat) (y : string) :
  NoDup years -> years !! i = Some y -> dict_of (zip years vals) !! y = vals !! i.
Proof.
  intros Hnd Hy. unfold dict_of.
  rewrite (fold_insert_zip_lookup _ _ _ _ _ Hnd Hy).
  destruct (vals !! i); [reflexivity | apply lookup_empty].
Qed.

Lemma dict_of_zip_other {V : Type} (years : list string) (vals : list V) (k : string) :
  k ∉ years -> dict_of (zip years vals) !! k = None.
Proof.
  intros Hk. unfold dict_of. rewrite (fold_insert_zip_other _ _ _ _ Hk).
  apply lookup_empty.
Qed.

(** C3, as stated, fails: the row has three cells for two labels; it is
    neither rejected nor skipped, and its third cell is dropped. *)
Lemma parse_table_long_row_accepted :
  length ["1"; "2"; "3"] <> length (drop 2 ["check"; "label"; "2022"; "2023"]) /\
  _parse_table unit long_row_page "Bilanz"
  = Ok {[ "Eigenkapital" := {[ "2022" := Some (Finite false 1 0);
                               "2023" := Some (Finite false 2 0) ]} ]}.
Proof. split; [discriminate | reflexivity]. Qed.

Lemma dict_of_snoc {V : Type} (l : list (string * V)) (k : string) (v : V) :
  dict_of (l ++ [(k, v)])%list = <[k := v]> (dict_of l).
Proof. unfold dict_of. now rewrite fold_left_app. Qed.

(** [dict(pairs)]: a key has the value of the last pair that carries it. *)
Lemma dict_of_lookup_Some {V : Type} (l : list (string * V)) (k : string) (v : V) :
  dict_of l !! k = Some v <->
  exists i, l !! i = Some (k, v) /\
            forall j w, (i < j)%nat -> l !! j <> Some (k, w).
Proof.
  revert k v. induction l as [|[k0 v0] l IH] using rev_ind; intros k v.
  - split.
    + unfold dict_of. cbn [fold_left]. rewrite lookup_empty. discriminate.
    + intros (i & Hi & _). destruct i; discriminate Hi.
  - assert (Hend : (l ++ [(k0, v0)])%list !! length l = Some (k0, v0)).
    { rewrite lookup_app_r by lia. now rewrite Nat.sub_diag. }
    assert (Hin : forall i p, (l ++ [(k0, v0)])%list !! i = Some p ->
                    (i < length l)%nat /\ l !! i = Some p \/
                    i = length l /\ p = (k0, v0)).
    { intros i p Hi. destruct (decide (i < length l)%nat) as [Hlt|Hge].
      - left. split; [exact Hlt|]. now rewrite lookup_app_l in Hi.
      - right. pose proof (lookup_lt_Some _ _ _ Hi) as Hb.
        rewrite length_app in Hb. cbn [length] in Hb.
        assert (i = length l) as -> by lia. split; [reflexivity|]. congruence. }
    rewrite dict_of_snoc. destruct (decide (k = k0)) as [->|Hne].
    + rewrite lookup_insert_eq. split.
      * intros [= ->]. exists (length l). split; [exact Hend|].
        intros j w Hj Hl. apply lookup_lt_Some in Hl.
        rewrite length_app in Hl. cbn [length] in Hl. lia.
      * intros (i & Hi & Hlast).
        destruct (Hin i _ Hi) as [[Hlt _] | [_ Heq]].
        -- exfalso. exact (Hlast (length l) v0 Hlt Hend).
        -- congruence.
    + rewrite lookup_insert_ne by congruence. rewrite IH. split.
      * intros (i & Hi & Hlast). exists i. split.
        -- rewrite lookup_app_l; [exact Hi|]. eapply lookup_lt_Some; eauto.
        -- intros j w Hj Hl. destruct (Hin j _ Hl) as [[_ Hl'] | [_ Heq]].
           ++ exact (Hlast j w Hj Hl').
           ++ congruence.
      * intros (i & Hi & Hlast). destruct (Hin i _ Hi) as [[Hlt Hi'] | [_ Heq]].
        -- exists i. split; [exact Hi'|]. intros j w Hj Hl.
           apply (Hlast j w Hj). rewrite lookup_app_l; [exact Hl|].
           eapply lookup_lt_Some; eauto.
        -- congruence.
Qed.

(** [dict(zip(years, vals))]: a label has the value at the last of its
    positions that has a value. *)
Lemma dict_of_zip_lookup_Some {V : Type} (years : list string) (vals : list V)
    (y : string) (v : V) :
  dict_of (zip years vals) !! y = Some v <->
  exists i, years !! i = Some y /\ vals !! i = Some v /\
            forall j, (i < j)%nat -> years !! j = Some y -> vals !! j = None.
Proof.
  rewrite dict_of_lookup_Some. split.
  - intros (i & Hi & Hlast).
    apply lookup_zip_with_Some in Hi as (a & b & Heq & Hy & Hv).
    injection Heq as <- <-. exists i. split; [exact Hy|]. split; [exact Hv|].
    intros j Hj Hyj. destruct (vals !! j) as [w|] eqn:Hw; [|reflexivity].
    exfalso. apply (Hlast j w Hj). apply lookup_zip_with_Some.
    exists y, w. auto.
  - intros (i & Hy & Hv & Hlast). exists i. split.
    + apply lookup_zip_with_Some. exists y, v. auto.
    + intros j w Hj Hz.
      apply lookup_zip_with_Some in Hz as (a & b & Heq & Hyj & Hvj).
      injection Heq as <- <-. rewrite (Hlast j Hj Hyj) in Hvj. discriminate.
Qed.

Lemma for_each_lookup {A B : Type} (f : A -> result B) (l : list A) :
  forall (ys : list B), for_each f l = Ok ys ->
  forall i y, ys !! i = Some y -> exists x, l !! i = Some x /\ f x = Ok y.
Proof.
  induction l as [|a l IH]; intros ys H i y Hy; cbn [for_each] in H.
  - injection H as <-. destruct i; discriminate Hy.
  - destruct (f a) as [b|] eqn:Hb; [|discriminate]. cbn in H.
    destruct (for_each f l) as [ys'|]; [|discriminate]. cbn in H.
    injection H as <-. destruct i as [|i].
    + cbn in Hy. injection Hy as <-. exists a. split; [reflexivity | exact Hb].
    + cbn in Hy. exact (IH ys' eq_refl i y Hy).
Qed.

Lemma map_lookup_Some {A B : Type} (f : A -> B) (l : list A) :
  forall i z, map f l !! i = Some z -> exists x, l !! i = Some x /\ f x = z.
Proof.
  induction l as [|a l IH]; intros [|i] z H; try discriminate H; cbn in H.
  - injection H as <-. exists a. split; reflexivity.
  - exact (IH i z H).
Qed.

(** The value at position [i] is the conversion of the cell at position
    [i]. *)
Lemma fundamentals_row_data_lookup (cells : list string)
    (vals : list (option pyfloat)) (i : nat) (v : option pyfloat) :
  fundamentals_row_data cells = Ok vals -> vals !! i = Some v ->
  exists x, cells !! i = Some x /\ fundamentals_row_data [x] = Ok [v].
Proof.
  unfold fundamentals_row_data at 1. intros H Hv.
  destruct (for_each_lookup _ _ _ H i v Hv) as (z & Hz & Hfz).
  apply map_lookup_Some in Hz as (z' & Hz' & <-).
  apply map_lookup_Some in Hz' as (x & Hx & <-).
  exists x. split; [exact Hx|].
  rewrite fundamentals_row_data_one. cbv zeta.
  destruct (String.eqb _ "-").
  - now injection Hfz as <-.
  - destruct (float _) as [p|e]; cbn in Hfz |- *; [|discriminate].
    now injection Hfz as <-.
Qed.

(** A label that occurs twice: the later cell replaces the earlier one, and
    with one cell only the label is present all the same. *)
Example repeated_label_last_cell :
  dict_of (zip ["2022"; "2022"] [Some (Finite false 1 0); Some (Finite false 2 0)])
    !! "2022" = Some (Some (Finite false 2 0)) /\
  dict_of (zip ["2022"; "2022"] [Some (Finite false 1 0)])
    !! "2022" = Some (Some (Finite false 1 0)).
Proof. split; reflexivity. Qed.

(** C3 (amended): the table parser compares no counts.  A row that has a
    name and whose cells convert is entered in the table whatever the number
    of its cells.  The value at position [i] comes from the cell at position
    [i] after the two leading ones, and every entry of the row's mapping
    pairs a column label with the value at the same position -- for a label
    that occurs more than once, at the last of its positions that has a cell:
    no cell is paired with a wrong column label.  A label none of whose
    positions has a cell is absent (with distinct labels: the labels beyond
    the last cell), as is every key that is not a label, so the cells beyond
    the last label are dropped. *)
Theorem fundamentals_row_pairs_by_position (years : list string)
    (table_dict : TableDict) (row : Row) (name : string)
    (vals : list (option pyfloat)) :
  font_bold row = Some name ->
  fundamentals_row_data (drop 2 (tds row)) = Ok vals ->
  fundamentals_row years table_dict row
  = Ok (<[name := dict_of (zip years vals)]> table_dict) /\
  length vals = length (drop 2 (tds row)) /\
  (forall i v, vals !! i = Some v ->
     exists x, tds row !! (2 + i)%nat = Some x /\ fundamentals_row_data [x] = Ok [v]) /\
  (forall y v, dict_of (zip years vals) !! y = Some v <->
     exists i, years !! i = Some y /\ vals !! i = Some v /\
               forall j, (i < j)%nat -> years !! j = Some y -> vals !! j = None) /\
  (NoDup years ->
   forall i y, years !! i = Some y -> dict_of (zip years vals) !! y = vals !! i) /\
  (forall k, k ∉ years -> dict_of (zip years vals) !! k = None).
Proof.
  intros Hname Hvals. split; [|split; [|split; [|split; [|split]]]].
  - unfold fundamentals_row. rewrite Hname. cbn. rewrite Hvals. reflexivity.
  - now apply fundamentals_row_data_length.
  - intros i v Hv.
    destruct (fundamentals_row_data_lookup _ _ i v Hvals Hv) as (x & Hx & Hc).
    exists x. split; [|exact Hc]. now rewrite lookup_drop in Hx.
  - intros y v. apply dict_of_zip_lookup_Some.
  - intros Hnd i y Hy. now apply dict_of_zip_lookup.
  - intros k Hk. now apply dict_of_zip_other.
Qed.

(** The row of three cells under the labels 2022 and 2023. *)
Lemma fundamentals_row_pairs_by_position_witness :
  fundamentals_row ["2022"; "2023"] ∅
    {| font_bold := Some "Eigenkapital"; tds := ["box"; "Eigenkapital"; "1"; "2"; "3"] |}
  = Ok (<["Eigenkapital" := dict_of (zip ["2022"; "2023"]
            [Some (Finite false 1 0); Some (Finite false 2 0); Some (Finite false 3 0)])]> ∅).
Proof.
  exact (proj1 (fundamentals_row_pairs_by_position ["2022"; "2023"] ∅
    {| font_bold := Some "Eigenkapital"; tds := ["box"; "Eigenkapital"; "1"; "2"; "3"] |}
    "Eigenkapital"
    [Some (Finite false 1 0); Some (Finite false 2 0); Some (Finite false 3 0)]
    eq_refl eq_refl)).
Defined.

(** ** The orchestrators *)

Section Orchestrators.

Context {DataFrame IndexDict : Type}.
Variable to_dict_index : DataFrame -> IndexDict.
Variable _make_soup : string -> result (Soup DataFrame).

(** The URL that [get_fundamentals] requests, and the ISIN it takes from
    the request. *)
Local Abbreviation fundamentals_url stock :=
  (fst (join_url "https://www.finanzen.net/bilanz_guv/" (lower stock))).
Local Abbreviation request_isin stock :=
  (snd (join_url "https://www.finanzen.net/bilanz_guv/" (lower stock))).

(** Once the page is there, passes the site check and an ISIN is resolved,
    [get_fundamentals] returns, and every category is what its own
    [_parse_table] gave, or [None] when that raised. *)
Lemma get_fundamentals_returns (stock : string) (soup : Soup DataFrame) (isin : string) :
  _make_soup (fundamentals_url stock) = Ok soup ->
  _check_site DataFrame soup = Ok tt ->
  isin_or_from_soup DataFrame (request_isin stock) soup = Ok (Some isin) ->
  get_fundamentals DataFrame _make_soup stock
  = Ok {| Quotes := try_or_None (_parse_table DataFrame soup "Die Aktie");
          Key_Ratios := try_or_None (_parse_table DataFrame soup "Unternehmenskennzahlen");
          Income_Statement := try_or_None (_parse_table DataFrame soup "GuV");
          Balance_Sheet := try_or_None (_parse_table DataFrame soup "Bilanz");
          ISIN := upper isin;
          Other := try_or_None (_parse_table DataFrame soup "sonstige Angaben") |}.
Proof.
  unfold fundamentals_url, request_isin, get_fundamentals. intros Hs Hc Hi.
  destruct (join_url _ (lower stock)) as [url isin0]. cbn [fst snd] in *.
  rewrite Hs. cbn. rewrite Hc. cbn. rewrite Hi. reflexivity.
Qed.

(** A heading that is absent makes [_parse_table] raise. *)
Lemma parse_table_missing_heading (soup : Soup DataFrame) (signaler : string) :
  find_heading (contains signaler) (h2 DataFrame soup) = None ->
  _parse_table DataFrame soup signaler = Raise AttributeError.
Proof. intros H. unfold _parse_table. now rewrite H. Qed.

(** The part of C1 that holds: with a heading of [get_fundamentals] absent,
    the result is there, that category is [None], and the other ones are
    what their tables give. *)
Lemma get_fundamentals_missing_section (stock : string) (soup : Soup DataFrame)
    (isin : string) (c : category) :
  _make_soup (fundamentals_url stock) = Ok soup ->
  _check_site DataFrame soup = Ok tt ->
  isin_or_from_soup DataFrame (request_isin stock) soup = Ok (Some isin) ->
  find_heading (contains (signaler_of c)) (h2 DataFrame soup) = None ->
  exists r, get_fundamentals DataFrame _make_soup stock = Ok r /\
    field_of c r = None /\
    forall c', field_of c' r
               = try_or_None (_parse_table DataFrame soup (signaler_of c')).
Proof.
  intros Hs Hc Hi Hf. eexists. split; [exact (get_fundamentals_returns stock soup isin Hs Hc Hi)|].
  split.
  - destruct c; cbn [field_of signaler_of] in *;
      now rewrite (parse_table_missing_heading _ _ Hf).
  - intros []; reflexivity.
Qed.

(** A cell that [float] rejects makes its row raise. *)
Lemma fundamentals_row_bad_cell (years : list string) (acc : TableDict)
    (row : Row) (x : string) :
  In x (drop 2 (tds row)) -> cleaned x <> "-" -> float (cleaned x) = Raise ValueError ->
  exists e, fundamentals_row years acc row = Raise e.
Proof.
  intros Hin Hne Hfl. unfold fundamentals_row.
  destruct (font_bold row) as [name|]; [|now exists AttributeError].
  cbn. unfold fundamentals_row_data.
  destruct (for_each_raises
              (fun x => if String.eqb x "-" then Ok None else Some <$> float x)
              (map (re_sub (is_char ",") ".")
                 (map (re_sub (is_char ".") EmptyString) (drop 2 (tds row))))
              (cleaned x) ValueError) as [e He].
  - unfold cleaned. now do 2 apply in_map.
  - destruct (String.eqb_spec (cleaned x) "-"); [congruence|]. now rewrite Hfl.
  - rewrite He. now exists e.
Qed.

(** C4 (amended): when a cell of a table, not the ["-"] sentinel once
    cleaned, is rejected by [float], [_parse_table] raises for that table;
    it has no handler of its own, so [get_fundamentals] records the whole
    category as [None] -- not the one value -- and still returns, with every
    other category taken from its own table. *)
Theorem unparseable_cell_drops_category (stock : string) (soup : Soup DataFrame)
    (isin : string) (c : category) (table : Tag) (row : Row) (x : string) :
  _make_soup (fundamentals_url stock) = Ok soup ->
  _check_site DataFrame soup = Ok tt ->
  isin_or_from_soup DataFrame (request_isin stock) soup = Ok (Some isin) ->
  find_heading (contains (signaler_of c)) (h2 DataFrame soup) = Some table ->
  In row (drop 1 (trs table)) ->
  In x (drop 2 (tds row)) ->
  cleaned x <> "-" ->
  float (cleaned x) = Raise ValueError ->
  (exists e, _parse_table DataFrame soup (signaler_of c) = Raise e) /\
  exists r, get_fundamentals DataFrame _make_soup stock = Ok r /\
    field_of c r = None /\
    ISIN r = upper isin /\
    forall c', field_of c' r
               = try_or_None (_parse_table DataFrame soup (signaler_of c')).
Proof.
  intros Hs Hc Hi Hf Hrow Hx Hne Hfl.
  assert (Hraise : exists e, _parse_table DataFrame soup (signaler_of c) = Raise e).
  { unfold _parse_table. rewrite Hf. cbn.
    apply (for_rows_raises _ _ row Hrow). intros acc.
    now apply (fundamentals_row_bad_cell _ _ _ x). }
  split; [exact Hraise|].
  eexists. split; [exact (get_fundamentals_returns stock soup isin Hs Hc Hi)|].
  destruct Hraise as [e He]. repeat split.
  - destruct c; cbn [field_of signaler_of] in *; now rewrite He.
  - intros []; reflexivity.
Qed.

(** The URL that [get_chart_infos] requests. *)
Local Abbreviation chart_url stock :=
  (fst (join_url "https://www.finanzen.net/aktien/" (lower stock))).

(** C9: when the lower-cased request holds no ISIN and the page's [og:title]
    holds none either, [get_fundamentals] and [get_chart_infos] raise
    [AttributeError], from [isin.upper()] on [None]; there is no result. *)
Theorem no_isin_raises_attribute_error (stock : string)
    (soup_f soup_c : Soup DataFrame) :
  parse_for_isin (lower stock) = None ->
  _make_soup (fundamentals_url stock) = Ok soup_f ->
  _check_site DataFrame soup_f = Ok tt ->
  get_isin_from_soup DataFrame soup_f = Ok None ->
  _make_soup (chart_url stock) = Ok soup_c ->
  _check_site DataFrame soup_c = Ok tt ->
  get_isin_from_soup DataFrame soup_c = Ok None ->
  get_fundamentals DataFrame _make_soup stock = Raise AttributeError /\
  get_chart_infos DataFrame IndexDict to_dict_index _make_soup stock
  = Raise AttributeError.
Proof.
  unfold fundamentals_url, chart_url, get_fundamentals, get_chart_infos.
  intros Hp Hsf Hcf Hif Hsc Hcc Hic.
  rewrite !(join_url_direct _ _ Hp) in *. cbn [fst] in *.
  rewrite Hsf, Hsc. cbn. rewrite Hcf, Hcc. cbn. rewrite Hif, Hic. split; reflexivity.
Qed.

(** With the performance heading absent, [get_chart_infos] never returns:
    the handler sets [performance_info] to [None], and building the result
    calls [to_dict] on it. *)
Lemma get_chart_infos_missing_performance (stock : string) (soup : Soup DataFrame) :
  _make_soup (chart_url stock) = Ok soup ->
  find_heading (contains "Performance") (h3_box_headline DataFrame soup) = None ->
  exists e, get_chart_infos DataFrame IndexDict to_dict_index _make_soup stock = Raise e.
Proof.
  unfold chart_url, get_chart_infos. intros Hs Hf.
  destruct (join_url _ (lower stock)) as [url isin0]. cbn [fst] in Hs.
  rewrite Hs. cbn. destruct (_check_site DataFrame soup); [|eauto]. cbn.
  unfold _parse_table_chart. rewrite Hf. cbn.
  destruct (isin_or_from_soup DataFrame isin0 soup) as [i|]; [|eauto]. cbn.
  destruct (isin_upper i); cbn; eauto.
Qed.

End Orchestrators.

(** C4, as stated, fails: the cell ["n/a"] of the balance sheet is not
    turned into a missing value; the whole balance sheet is [None], the cell
    ["1.000,5"] next to it included.  The other categories are there. *)
Lemma get_fundamentals_bad_cell_loses_table :
  fundamentals_row_data ["1.000,5"; "-"] = Ok [Some (Finite false 10005 (-1)); None] /\
  fundamentals_row_data ["1.000,5"; "n/a"] = Raise ValueError /\
  get_fundamentals unit (fun _ => Ok bad_cell_page) "sap"
  = Ok {| Quotes := Some sample_quotes;
          Key_Ratios := Some sample_key_ratios;
          Income_Statement := Some sample_income;
          Balance_Sheet := None;
          ISIN := "DE0007164600";
          Other := Some sample_other |}.
Proof. repeat split; reflexivity. Qed.

(** The page whose balance sheet has the cell ["n/a"]. *)
Lemma unparseable_cell_drops_category_witness :
  exists r, get_fundamentals unit (fun _ => Ok bad_cell_page) "sap" = Ok r /\
    field_of CatBalance r = None /\
    ISIN r = upper "DE0007164600" /\
    forall c', field_of c' r
               = try_or_None (_parse_table unit bad_cell_page (signaler_of c')).
Proof.
  refine (proj2 (unparseable_cell_drops_category (fun _ => Ok bad_cell_page)
    "sap" bad_cell_page "DE0007164600" CatBalance
    (one_row_table "Eigenkapital" ["1.000,5"; "n/a"])
    {| font_bold := Some "Eigenkapital";
       tds := ["box"; "Eigenkapital"; "1.000,5"; "n/a"] |}
    "n/a" eq_refl eq_refl eq_refl eq_refl _ _ _ eq_refl)).
  - simpl. left. reflexivity.
  - simpl. right. left. reflexivity.
  - vm_compute. discriminate.
Defined.

(** The request ["sap"] on a page whose title holds no ISIN. *)
Lemma no_isin_raises_attribute_error_witness :
  get_fundamentals unit (fun _ => Ok anonymous_page) "sap" = Raise AttributeError /\
  get_chart_infos unit unit id (fun _ => Ok anonymous_page) "sap" = Raise AttributeError.
Proof.
  exact (no_isin_raises_attribute_error id (fun _ => Ok anonymous_page) "sap"
           anonymous_page anonymous_page
           eq_refl eq_refl eq_refl eq_refl eq_refl eq_refl eq_refl).
Defined.

(** C1: the code at the failing input.  The stock page has no performance
    heading and is otherwise intact (its title holds the ISIN):
    [get_chart_infos] raises instead of returning a record with
    [Performance] absent.  [get_fundamentals], on a page without the balance
    sheet heading, does return, with that one category [None]. *)
Theorem get_chart_infos_aborts_without_performance :
  find_heading (contains "Performance") (h3_box_headline unit no_performance_page) = None /\
  get_chart_infos unit unit id (fun _ => Ok no_performance_page) "sap-aktie"
  = Raise AttributeError /\
  get_fundamentals unit (fun _ => Ok no_balance_page) "sap"
  = Ok {| Quotes := Some sample_quotes;
          Key_Ratios := Some sample_key_ratios;
          Income_Statement := Some sample_income;
          Balance_Sheet := None;
          ISIN := "DE0007164600";
          Other := Some sample_other |}.
Proof. repeat split; reflexivity. Qed.

(** ** Two calls in a row *)

Section TwoCalls.

Context {Element DataFrame Obj : Type}.
Variable requests_get : string -> result string.
Variable html_fromstring : string -> result Element.
Variable xpath : Element -> string -> list Element.
Variable xpath_text : Element -> string -> list string.
Variable children : Element -> list Element.
Variable make_frame_cells : list (list Cell) -> result DataFrame.
Variable make_frame_text : list (list string) -> result DataFrame.
Variable pd_concat : list DataFrame -> result DataFrame.

Local Abbreviation call' :=
  (call Element DataFrame requests_get html_fromstring xpath xpath_text
     children make_frame_cells make_frame_text pd_concat Obj).
Local Abbreviation after_calls' :=
  (after_calls Element DataFrame requests_get html_fromstring xpath xpath_text
     children make_frame_cells make_frame_text pd_concat Obj).

(** A call leaves the default lists as it found them. *)
Lemma call_keeps_defaults (o : orchestrator) (stock : string) (d : Defaults Obj) :
  snd (call' o stock d) = d.
Proof. destruct o, d; reflexivity. Qed.

(** The outcome of a call does not depend on the default lists. *)
Lemma call_outcome_any_defaults (o : orchestrator) (stock : string)
    (d d' : Defaults Obj) :
  fst (call' o stock d) = fst (call' o stock d').
Proof. destruct o; reflexivity. Qed.

Lemma after_calls_keeps_defaults (history : list (orchestrator * string)) :
  forall d : Defaults Obj, after_calls' history d = d.
Proof.
  induction history as [|[o stock] history IH]; intros d; [reflexivity|].
  cbn [after_calls]. rewrite call_keeps_defaults. apply IH.
Qed.

(** The same after any number of earlier calls. *)
Lemma call_after_history (history : list (orchestrator * string))
    (o : orchestrator) (stock : string) :
  fst (call' o stock (after_calls' history (fresh Obj)))
  = fst (call' o stock (fresh Obj)).
Proof. now rewrite after_calls_keeps_defaults. Qed.

(** C8: whatever the two default lists hold before the first call, a
    second call, with another stock, after a first call of either
    orchestrator, has the outcome of a single call in a freshly loaded
    module, and the lists that [results] defaults to are as the first call
    found them; the same after any number of earlier calls.  A body that
    read its [results], or appended to it, would not have this property. *)
Theorem second_call_as_fresh (first second : orchestrator) (stock1 stock2 : string)
    (d : Defaults Obj) :
  fst (call' second stock2 (snd (call' first stock1 d)))
  = fst (call' second stock2 (fresh Obj)) /\
  snd (call' first stock1 d) = d /\
  forall history : list (orchestrator * string),
    fst (call' second stock2 (after_calls' history d))
    = fst (call' second stock2 (fresh Obj)) /\
    after_calls' history d = d.
Proof.
  split; [apply call_outcome_any_defaults|].
  split; [apply call_keeps_defaults|].
  intros history. rewrite after_calls_keeps_defaults.
  split; [apply call_outcome_any_defaults | reflexivity].
Qed.

End TwoCalls.

(** * Further properties *)

(** ** The ISIN through the orchestrators *)

(** A text of one shape, mapped character by character, has the shape that
    the map gives class by class. *)
Lemma shaped_map_string (f : ascii -> ascii) (pat pat' : list (ascii -> bool)) :
  Forall2 (fun cls cls' : ascii -> bool =>
             forall c, cls c = true -> cls' (f c) = true) pat pat' ->
  forall m, shaped pat m = true -> shaped pat' (map_string f m) = true.
Proof.
  induction 1 as [|cls cls' pat pat' Hc _ IH]; intros [|c m] H;
    cbn in *; try discriminate; [reflexivity|].
  apply andb_prop in H as [H1 H2]. now rewrite (Hc _ H1), (IH _ H2).
Qed.

Lemma shaped_map_string_id (f : ascii -> ascii) (pat : list (ascii -> bool)) :
  Forall (fun cls : ascii -> bool => forall c, cls c = true -> f c = c) pat ->
  forall m, shaped pat m = true -> map_string f m = m.
Proof.
  induction 1 as [|cls pat Hc _ IH]; intros [|c m] H;
    cbn in *; try discriminate; [reflexivity|].
  apply andb_prop in H as [H1 H2]. now rewrite (Hc _ H1), (IH _ H2).
Qed.

Ltac by_256 :=
  let c := fresh "c" in
  intros c; destruct c as [[] [] [] [] [] [] [] []]; vm_compute;
  first [reflexivity | discriminate | intros; reflexivity | intros; discriminate].

Lemma upper_letter : forall c, is_letter c = true -> is_upper_az (upper_char c) = true.
Proof. by_256. Qed.

Lemma upper_upper_or_digit :
  forall c, is_upper_or_digit c = true -> is_upper_or_digit (upper_char c) = true.
Proof. by_256. Qed.

Lemma upper_digit : forall c, is_digit c = true -> is_digit (upper_char c) = true.
Proof. by_256. Qed.

Lemma lower_upper_az : forall c, is_upper_az c = true -> is_letter (lower_char c) = true.
Proof. by_256. Qed.

Lemma lower_digit_ud :
  forall c, is_digit c = true -> is_upper_or_digit (lower_char c) = true.
Proof. by_256. Qed.

Lemma lower_digit : forall c, is_digit c = true -> is_digit (lower_char c) = true.
Proof. by_256. Qed.

Lemma upper_lower_upper_az :
  forall c, is_upper_az c = true -> upper_char (lower_char c) = c.
Proof. by_256. Qed.

Lemma upper_lower_digit :
  forall c, is_digit c = true -> upper_char (lower_char c) = c.
Proof. by_256. Qed.

(** [isin.upper()] on what the extractor found. *)
Lemma upper_isin_shaped (isin : string) :
  shaped isin_pattern isin = true -> shaped upper_isin_pattern (upper isin) = true.
Proof.
  apply shaped_map_string.
  repeat constructor; auto using upper_letter, upper_upper_or_digit, upper_digit.
Qed.

Lemma parse_for_isin_shaped (s isin : string) :
  parse_for_isin s = Some isin -> shaped isin_pattern isin = true.
Proof.
  intros H. destruct (re_search_sound _ _ _ H) as (_ & _ & _ & Hs & _). exact Hs.
Qed.

(** What the extractor returns has twelve characters, and the extractor
    finds it again when it is applied to it. *)
Theorem parse_for_isin_fixed_point (string_object isin : string) :
  parse_for_isin string_object = Some isin ->
  String.length isin = 12 /\ parse_for_isin isin = Some isin.
Proof.
  intros H. apply parse_for_isin_shaped in H. apply isin_shaped_iff in H.
  split; [exact (proj1 H) | now apply parse_for_isin_whole].
Qed.

(** At a title of the stock page. *)
Lemma parse_for_isin_fixed_point_witness :
  parse_for_isin "SAP SE Bilanz | A | 716460 | DE0007164600" = Some "DE0007164600" /\
  String.length "DE0007164600" = 12 /\
  parse_for_isin "DE0007164600" = Some "DE0007164600".
Proof.
  split; [reflexivity|].
  exact (parse_for_isin_fixed_point "SAP SE Bilanz | A | 716460 | DE0007164600"
           "DE0007164600" eq_refl).
Defined.

Lemma prefix_app (needle post : string) : String.prefix needle (needle ++ post) = true.
Proof.
  induction needle as [|a needle IH]; [now destruct post|]. cbn.
  destruct (ascii_dec a a); [exact IH | congruence].
Qed.

(** [needle in s] holds for every text that has [needle] somewhere. *)
Lemma contains_app (needle pre post : string) :
  contains needle (pre ++ needle ++ post) = true.
Proof.
  induction pre as [|c pre IH].
  - cbn [String.append]. destruct (needle ++ post) eqn:E; cbn [contains];
      rewrite <- E, prefix_app; reflexivity.
  - change (String c pre ++ needle ++ post) with (String c (pre ++ needle ++ post)).
    cbn [contains]. rewrite IH. apply orb_true_r.
Qed.

Lemma map_string_map_string (f g : ascii -> ascii) (s : string) :
  map_string f (map_string g s) = map_string (fun c => f (g c)) s.
Proof. induction s as [|c s IH]; cbn; [reflexivity | now rewrite IH]. Qed.

Lemma snd_join_url (url search_value : string) :
  snd (join_url url search_value) = parse_for_isin search_value.
Proof. unfold join_url. now destruct (parse_for_isin search_value). Qed.

Lemma fst_join_url (url search_value : string) :
  fst (join_url url search_value)
  = match parse_for_isin search_value with
    | Some _ => isin_search_url ++ search_value
    | None => url ++ search_value
    end.
Proof. unfold join_url. now destruct (parse_for_isin search_value). Qed.

Section OrchestratorResults.

Context {DataFrame IndexDict : Type}.
Variable to_dict_index : DataFrame -> IndexDict.
Variable _make_soup : string -> result (Soup DataFrame).

Local Abbreviation fundamentals_url stock :=
  (fst (join_url "https://www.finanzen.net/bilanz_guv/" (lower stock))).
Local Abbreviation chart_url stock :=
  (fst (join_url "https://www.finanzen.net/aktien/" (lower stock))).

(** The ISIN that either source gives is a match of the pattern. *)
Lemma isin_or_from_soup_shaped (search_value : string) (soup : Soup DataFrame)
    (isin : string) :
  isin_or_from_soup DataFrame (parse_for_isin search_value) soup = Ok (Some isin) ->
  shaped isin_pattern isin = true.
Proof.
  unfold isin_or_from_soup, get_isin_from_soup.
  destruct (parse_for_isin search_value) as [[|c s]|] eqn:Hp.
  - apply parse_for_isin_shaped in Hp. discriminate Hp.
  - intros H. injection H as <-. now apply parse_for_isin_shaped in Hp.
  - destruct (og_title DataFrame soup) as [[content|]|]; try discriminate.
    intros H. injection H as H. now apply parse_for_isin_shaped in H.
Qed.

(** What a returned record of [get_fundamentals] comes from. *)
Lemma get_fundamentals_inv (stock : string) (r : Fundamentals) :
  get_fundamentals DataFrame _make_soup stock = Ok r ->
  exists soup isin,
    _make_soup (fundamentals_url stock) = Ok soup /\
    _check_site DataFrame soup = Ok tt /\
    isin_or_from_soup DataFrame (parse_for_isin (lower stock)) soup = Ok (Some isin) /\
    ISIN r = upper isin /\
    forall c, field_of c r
              = try_or_None (_parse_table DataFrame soup (signaler_of c)).
Proof.
  unfold get_fundamentals. rewrite <- snd_join_url with (url := "https://www.finanzen.net/bilanz_guv/").
  destruct (join_url _ (lower stock)) as [url isin0]. cbn [fst snd].
  destruct (_make_soup url) as [soup|] eqn:Hs; [|discriminate]. cbn.
  destruct (_check_site DataFrame soup) as [[]|] eqn:Hc; [|discriminate]. cbn.
  destruct (isin_or_from_soup DataFrame isin0 soup) as [[isin|]|] eqn:Hi;
    cbn; try discriminate.
  intros H. injection H as <-. exists soup, isin. repeat split; try assumption.
  intros []; reflexivity.
Qed.

(** Whenever [get_fundamentals] returns a record, its ISIN has twelve
    characters: two upper-case letters, nine upper-case letters or digits,
    and a digit. *)
Theorem get_fundamentals_isin_upper_shaped (stock : string) (r : Fundamentals) :
  get_fundamentals DataFrame _make_soup stock = Ok r ->
  shaped upper_isin_pattern (ISIN r) = true /\ String.length (ISIN r) = 12.
Proof.
  intros H. destruct (get_fundamentals_inv _ _ H) as (soup & isin & _ & _ & Hi & -> & _).
  apply isin_or_from_soup_shaped in Hi. apply upper_isin_shaped in Hi.
  split; [exact Hi | exact (shaped_length _ _ Hi)].
Qed.

(** When [get_chart_infos] returns, the page has a performance heading whose
    table pandas could read, [Performance] is that table as a dictionary,
    and the ISIN is an upper-case one. *)
Theorem get_chart_infos_returns_only_with_performance (stock : string)
    (r : ChartInfos IndexDict) :
  get_chart_infos DataFrame IndexDict to_dict_index _make_soup stock = Ok r ->
  exists soup df,
    _make_soup (chart_url stock) = Ok soup /\
    find_heading (contains "Performance") (h3_box_headline DataFrame soup) = Some (Ok df) /\
    Performance IndexDict r = to_dict_index df /\
    shaped upper_isin_pattern (chart_ISIN IndexDict r) = true.
Proof.
  unfold get_chart_infos.
  destruct (join_url _ (lower stock)) as [url isin0] eqn:Hj. cbn [fst snd].
  destruct (_make_soup url) as [soup|] eqn:Hs; [|discriminate]. cbn.
  destruct (_check_site DataFrame soup) as [[]|]; [|discriminate]. cbn.
  destruct (isin_or_from_soup DataFrame isin0 soup) as [[isin|]|] eqn:Hi;
    cbn; try discriminate.
  unfold _parse_table_chart.
  destruct (find_heading (contains "Performance") (h3_box_headline DataFrame soup))
    as [[df|e]|] eqn:Hf; cbn; try discriminate.
  intros H. injection H as <-. exists soup, df. cbn. repeat split; try assumption.
  apply upper_isin_shaped.
  assert (Hi0 : isin0 = parse_for_isin (lower stock)).
  { rewrite <- (snd_join_url "https://www.finanzen.net/aktien/"), Hj. reflexivity. }
  rewrite Hi0 in Hi. now apply isin_or_from_soup_shaped in Hi.
Qed.

(** An ISIN found in the lower-cased request is the one reported, in upper
    case; the page's metadata is not looked at, so that even a title tag
    without [content] does no harm. *)
Theorem get_fundamentals_prefers_request_isin (stock isin : string)
    (soup : Soup DataFrame) :
  parse_for_isin (lower stock) = Some isin ->
  _make_soup (isin_search_url ++ lower stock) = Ok soup ->
  _check_site DataFrame soup = Ok tt ->
  exists r, get_fundamentals DataFrame _make_soup stock = Ok r /\
    ISIN r = upper isin /\
    forall c, field_of c r
              = try_or_None (_parse_table DataFrame soup (signaler_of c)).
Proof.
  intros Hp Hs Hc. unfold get_fundamentals.
  rewrite (join_url_search_endpoint _ _ _ Hp), Hs. cbn. rewrite Hc. cbn.
  pose proof (parse_for_isin_shaped _ _ Hp) as Hsh.
  destruct isin as [|c isin]; [discriminate Hsh|]. cbn.
  eexists. split; [reflexivity|]. split; [reflexivity|]. intros []; reflexivity.
Qed.

(** An ISIN of two upper-case letters and ten digits survives the
    lower-casing of the orchestrator: the request goes to the ISIN search
    endpoint, and the record carries the ISIN as it was given. *)
Theorem get_fundamentals_digit_isin (stock : string) (soup : Soup DataFrame) :
  shaped digit_isin_pattern stock = true ->
  _make_soup (isin_search_url ++ lower stock) = Ok soup ->
  _check_site DataFrame soup = Ok tt ->
  fundamentals_url stock = isin_search_url ++ lower stock /\
  exists r, get_fundamentals DataFrame _make_soup stock = Ok r /\ ISIN r = stock.
Proof.
  intros Hsh Hs Hc.
  assert (Hl : shaped isin_pattern (lower stock) = true).
  { revert Hsh. apply shaped_map_string.
    repeat constructor; auto using lower_upper_az, lower_digit_ud, lower_digit. }
  assert (Hu : upper (lower stock) = stock).
  { unfold upper, lower. rewrite map_string_map_string.
    revert Hsh. apply shaped_map_string_id.
    repeat constructor; auto using upper_lower_upper_az, upper_lower_digit. }
  split.
  - rewrite fst_join_url. apply isin_shaped_iff, parse_for_isin_whole in Hl. now rewrite Hl.
  - apply isin_shaped_iff, parse_for_isin_whole in Hl. unfold get_fundamentals.
    rewrite (join_url_search_endpoint _ _ _ Hl), Hs. cbn. rewrite Hc. cbn.
    destruct (lower stock) as [|c low] eqn:El; [discriminate Hl|]. cbn -[upper].
    eexists. split; [reflexivity|]. exact Hu.
Qed.

End OrchestratorResults.

(** The request ["sap"] on the sample page without balance sheet. *)
Lemma get_fundamentals_isin_upper_shaped_witness :
  shaped upper_isin_pattern "DE0007164600" = true /\ String.length "DE0007164600" = 12.
Proof.
  exact (get_fundamentals_isin_upper_shaped (fun _ => Ok no_balance_page) "sap"
           {| Quotes := Some sample_quotes; Key_Ratios := Some sample_key_ratios;
              Income_Statement := Some sample_income; Balance_Sheet := None;
              ISIN := "DE0007164600"; Other := Some sample_other |}
           eq_refl).
Defined.

(** The stock page with a performance table. *)
Lemma get_chart_infos_returns_only_with_performance_witness :
  exists soup df,
    (fun _ : string => Ok performance_page) "https://www.finanzen.net/aktien/sap-aktie"
    = Ok soup /\
    find_heading (contains "Performance") (h3_box_headline nat soup) = Some (Ok df) /\
    8 = S df /\
    shaped upper_isin_pattern "DE0007164600" = true.
Proof.
  exact (get_chart_infos_returns_only_with_performance S (fun _ => Ok performance_page)
           "sap-aktie" {| chart_ISIN := "DE0007164600"; Performance := 8 |} eq_refl).
Defined.

(** The request ["DE0007164600"] on a page whose title tag has no content. *)
Lemma get_fundamentals_prefers_request_isin_witness :
  exists r, get_fundamentals unit (fun _ => Ok no_content_page) "DE0007164600" = Ok r /\
    ISIN r = upper "de0007164600" /\
    forall c, field_of c r
              = try_or_None (_parse_table unit no_content_page (signaler_of c)).
Proof.
  exact (get_fundamentals_prefers_request_isin (fun _ => Ok no_content_page)
           "DE0007164600" "de0007164600" no_content_page eq_refl eq_refl eq_refl).
Defined.

(** The request ["DE0007164600"]. *)
Lemma get_fundamentals_digit_isin_witness :
  fst (join_url "https://www.finanzen.net/bilanz_guv/" (lower "DE0007164600"))
  = isin_search_url ++ lower "DE0007164600" /\
  exists r, get_fundamentals unit (fun _ => Ok no_content_page) "DE0007164600" = Ok r /\
    ISIN r = "DE0007164600".
Proof.
  exact (get_fundamentals_digit_isin (fun _ => Ok no_content_page)
           "DE0007164600" no_content_page eq_refl eq_refl eq_refl).
Defined.

(** ** The site's error page *)

Section SiteError.

Context {DataFrame IndexDict : Type}.
Variable to_dict_index : DataFrame -> IndexDict.
Variable _make_soup : string -> result (Soup DataFrame).

(** When the info box of the page has the site's "page could not be
    displayed" message anywhere in its text, each of the three orchestrators
    that read the page raises [ValueError], whatever else the page holds. *)
Theorem site_error_raises_value_error (stock pre post : string)
    (soup : Soup DataFrame) :
  special_info_box DataFrame soup = Some (pre ++ load_error ++ post) ->
  (_make_soup (fst (join_url "https://www.finanzen.net/bilanz_guv/" (lower stock)))
   = Ok soup ->
   get_fundamentals DataFrame _make_soup stock = Raise ValueError) /\
  (_make_soup (fst (join_url "https://www.finanzen.net/aktien/" (lower stock)))
   = Ok soup ->
   get_chart_infos DataFrame IndexDict to_dict_index _make_soup stock
   = Raise ValueError) /\
  (_make_soup ("https://www.finanzen.net/schaetzungen/" ++ lower stock) = Ok soup ->
   get_estimates DataFrame _make_soup stock = Raise ValueError).
Proof.
  intros Hbox.
  assert (Hc : _check_site DataFrame soup = Raise ValueError).
  { unfold _check_site. now rewrite Hbox, contains_app. }
  repeat split; intros Hs.
  - unfold get_fundamentals. destruct (join_url _ (lower stock)) as [url isin0].
    cbn [fst] in Hs. rewrite Hs. cbn. now rewrite Hc.
  - unfold get_chart_infos. destruct (join_url _ (lower stock)) as [url isin0].
    cbn [fst] in Hs. rewrite Hs. cbn. now rewrite Hc.
  - unfold get_estimates. rewrite Hs. cbn. now rewrite Hc.
Qed.

End SiteError.

(** The page of an unknown stock, for the request ["sapp"]. *)
Lemma site_error_raises_value_error_witness :
  get_fundamentals unit (fun _ => Ok not_found_page) "sapp" = Raise ValueError /\
  get_chart_infos unit unit id (fun _ => Ok not_found_page) "sapp" = Raise ValueError /\
  get_estimates unit (fun _ => Ok not_found_page) "sapp" = Raise ValueError.
Proof.
  destruct (site_error_raises_value_error (@id unit) (fun _ => Ok not_found_page)
              "sapp" "Hinweis: " "." not_found_page eq_refl) as (H1 & H2 & H3).
  exact (conj (H1 eq_refl) (conj (H2 eq_refl) (H3 eq_refl))).
Defined.

(** ** Tables as dictionaries *)

Lemma fold_insert_other {V : Type} (pairs : list (string * V)) :
  forall (d : gmap string V) (k : string),
  k ∉ pairs.*1 ->
  fold_left (fun d kv => <[fst kv := snd kv]> d) pairs d !! k = d !! k.
Proof.
  induction pairs as [|[k0 v0] pairs IH]; intros d k Hk; [reflexivity|].
  cbn in *. apply not_elem_of_cons in Hk as [Hne Hk].
  rewrite (IH _ _ Hk). now rewrite lookup_insert_ne.
Qed.

Lemma fold_insert_lookup {V : Type} (pairs : list (string * V)) :
  forall (d : gmap string V) (k : string) (v : V),
  NoDup pairs.*1 -> (k, v) ∈ pairs ->
  fold_left (fun d kv => <[fst kv := snd kv]> d) pairs d !! k = Some v.
Proof.
  induction pairs as [|[k0 v0] pairs IH]; intros d k v Hnd Hin.
  - now apply elem_of_nil in Hin.
  - cbn in Hnd. apply NoDup_cons in Hnd as [Hk0 Hnd].
    apply elem_of_cons in Hin as [Heq | Hin]; cbn.
    + injection Heq as -> ->. rewrite (fold_insert_other _ _ _ Hk0).
      apply lookup_insert_eq.
    + now apply IH.
Qed.

Lemma fold_left_map_pairs {A B C : Type} (f : C -> B -> C) (g : A -> B) (l : list A) :
  forall c, fold_left f (map g l) c = fold_left (fun c x => f c (g x)) l c.
Proof. induction l as [|x l IH]; intros c; cbn; [reflexivity | apply IH]. Qed.

Section ParseTable.

Context {DataFrame : Type}.

(** The loop over the rows of a table, when every row has a name and cells
    that convert. *)
Lemma for_rows_parsed (years : list string) (rows : list Row)
    (parsed : list (string * list (option pyfloat))) :
  Forall2 (fun row p => font_bold row = Some (fst p) /\
                        fundamentals_row_data (drop 2 (tds row)) = Ok (snd p))
          rows parsed ->
  forall acc, for_rows (fundamentals_row years) acc rows
              = Ok (fold_left (fun d p => <[fst p := dict_of (zip years (snd p))]> d)
                      parsed acc).
Proof.
  induction 1 as [|row p rows parsed [Hn Hv] _ IH]; intros acc; [reflexivity|].
  assert (Hrow : fundamentals_row years acc row
                 = Ok (<[fst p := dict_of (zip years (snd p))]> acc)).
  { unfold fundamentals_row. rewrite Hn. cbn. now rewrite Hv. }
  cbn [for_rows fold_left]. rewrite Hrow. apply IH.
Qed.

(** When the heading is found and every row after the first has a name in
    bold and cells that convert, [_parse_table] returns the dictionary of the
    rows: each name with [dict(zip(years, values))], a later row replacing an
    earlier one of the same name.  The first row and the first two header
    cells play no part.  With names that differ, each row is found under its
    name. *)
Theorem parse_table_rows (soup : Soup DataFrame) (signaler : string) (table : Tag)
    (parsed : list (string * list (option pyfloat))) :
  find_heading (contains signaler) (h2 DataFrame soup) = Some table ->
  Forall2 (fun row p => font_bold row = Some (fst p) /\
                        fundamentals_row_data (drop 2 (tds row)) = Ok (snd p))
          (drop 1 (trs table)) parsed ->
  _parse_table DataFrame soup signaler
  = Ok (dict_of (map (fun p => (fst p, dict_of (zip (drop 2 (ths table)) (snd p))))
                   parsed)) /\
  (NoDup parsed.*1 ->
   forall name vals, (name, vals) ∈ parsed ->
     exists t, _parse_table DataFrame soup signaler = Ok t /\
       t !! name = Some (dict_of (zip (drop 2 (ths table)) vals))).
Proof.
  intros Hf Hrows.
  assert (Heq : _parse_table DataFrame soup signaler
    = Ok (dict_of (map (fun p => (fst p, dict_of (zip (drop 2 (ths table)) (snd p))))
                     parsed))).
  { unfold _parse_table. rewrite Hf. cbn.
    rewrite (for_rows_parsed _ _ _ Hrows). unfold dict_of.
    now rewrite fold_left_map_pairs. }
  split; [exact Heq|].
  intros Hnd name vals Hin. eexists. split; [exact Heq|].
  unfold dict_of. apply fold_insert_lookup.
  - rewrite <- list_fmap_compose.
    replace (fst ∘ _) with (@fst string (list (option pyfloat))); [exact Hnd|].
    reflexivity.
  - apply (list_elem_of_fmap_2
             (fun p => (fst p, dict_of (zip (drop 2 (ths table)) (snd p)))) _ _ Hin).
Qed.

End ParseTable.

(** The balance sheet of the page with the long row. *)
Lemma parse_table_rows_witness :
  _parse_table unit long_row_page "Bilanz"
  = Ok (dict_of [("Eigenkapital",
                  dict_of (zip ["2022"; "2023"]
                             [Some (Finite false 1 0); Some (Finite false 2 0);
                              Some (Finite false 3 0)]))]).
Proof.
  refine (proj1 (parse_table_rows long_row_page "Bilanz"
            (one_row_table "Eigenkapital" ["1"; "2"; "3"])
            [("Eigenkapital", [Some (Finite false 1 0); Some (Finite false 2 0);
                               Some (Finite false 3 0)])]
            eq_refl _)).
  repeat constructor.
Defined.

(** ** Rows of cells *)

Lemma for_each_Forall2 {A B : Type} (f : A -> result B) (l : list A) (ys : list B) :
  for_each f l = Ok ys <-> Forall2 (fun x y => f x = Ok y) l ys.
Proof.
  revert ys. induction l as [|x l IH]; intros ys; cbn [for_each].
  - split; [intros H; injection H as <-; constructor | inversion 1; reflexivity].
  - split.
    + destruct (f x) as [y|] eqn:Hx; [|discriminate]. cbn.
      destruct (for_each f l) as [ys'|] eqn:Hl; [|discriminate]. cbn.
      intros H. injection H as <-. constructor; [exact Hx | now apply IH].
    + inversion 1 as [|? y ? ys' Hx Hl]; subst. rewrite Hx. cbn.
      apply IH in Hl. now rewrite Hl.
Qed.

(** The cells of a [get_fundamentals] row convert exactly when each one
    does, and then position by position: a cell that is ["-"] once cleaned
    gives [None], every other one the number [float] reads in its cleaned
    text. *)
Theorem fundamentals_row_data_pointwise (cells : list string)
    (vals : list (option pyfloat)) :
  fundamentals_row_data cells = Ok vals <->
  Forall2 (fun x v => if String.eqb (cleaned x) "-" then v = None
                      else exists number, float (cleaned x) = Ok number /\ v = Some number)
          cells vals.
Proof.
  unfold fundamentals_row_data. rewrite for_each_Forall2, map_map.
  rewrite Forall2_fmap_l. fold cleaned.
  split; intros H; induction H as [|x v cells vals Hx _ IH]; constructor;
    try exact IH; unfold cleaned in *; cbn in *;
    destruct (String.eqb _ "-"); try congruence.
  - destruct (float _) as [number|]; [|discriminate]. cbn in Hx.
    injection Hx as <-. now exists number.
  - destruct Hx as (number & -> & ->). reflexivity.
Qed.

(** ** Signs, units and separators *)

Lemma lstrip_first (c : ascii) (s : string) :
  is_space c = false -> lstrip (String c s) = String c s.
Proof. intros H. cbn. now rewrite H. Qed.

Lemma rstrip_no_space (s : string) :
  all_chars (fun c => negb (is_space c)) s = true -> rstrip s = s.
Proof.
  induction s as [|c s IH]; [reflexivity|]. cbn [all_chars]. intros H.
  apply andb_prop in H as [Hc Hs]. apply negb_true_iff in Hc.
  cbn [rstrip]. rewrite (IH Hs). destruct s; [now rewrite Hc | reflexivity].
Qed.

Lemma strip_no_space (s : string) :
  all_chars (fun c => negb (is_space c)) s = true -> strip s = s.
Proof.
  intros H. unfold strip. destruct s as [|c s]; [reflexivity|].
  pose proof H as H'. cbn [all_chars] in H'. apply andb_prop in H' as [Hc _].
  apply negb_true_iff in Hc. now rewrite (lstrip_first _ _ Hc), rstrip_no_space.
Qed.

Lemma contains_underscore_none (s : string) :
  all_chars (fun c => negb (Ascii.eqb c "_")) s = true -> contains "_" s = false.
Proof.
  induction s as [|c s IH]; [reflexivity|]. cbn [all_chars]. intros H.
  apply andb_prop in H as [Hc Hs]. apply negb_true_iff in Hc.
  cbn [contains]. rewrite (IH Hs), orb_false_r.
  change (String.prefix "_" (String c s))
    with (if ascii_dec "_" c then String.prefix EmptyString s else false).
  destruct (ascii_dec "_" c) as [<-|]; [discriminate Hc | reflexivity].
Qed.

Lemma signed_plain_no_space :
  forall c, is_signed_plain c = true -> negb (is_space c) = true.
Proof. by_256. Qed.

Lemma signed_plain_no_underscore :
  forall c, is_signed_plain c = true -> negb (Ascii.eqb c "_") = true.
Proof. by_256. Qed.

Lemma digit_signed_plain : forall c, is_digit c = true -> is_signed_plain c = true.
Proof. by_256. Qed.

(** [float] on a number with a minus sign in front. *)
Lemma float_minus_point (ip fp : string) :
  all_digits ip = true -> ip <> EmptyString -> all_digits fp = true ->
  float (String "-" (ip ++ String "." fp))
  = Ok (float_of_decimal true (digits_val 0 (ip ++ fp)) (- Z.of_nat (String.length fp))).
Proof.
  intros Hi Hne Hf.
  assert (Hp : all_chars is_signed_plain (String "-" (ip ++ String "." fp)) = true).
  { cbn [all_chars]. rewrite all_chars_app. cbn [all_chars].
    rewrite (all_chars_impl is_digit is_signed_plain ip digit_signed_plain Hi).
    rewrite (all_chars_impl is_digit is_signed_plain fp digit_signed_plain Hf).
    reflexivity. }
  unfold float.
  rewrite (strip_no_space _ (all_chars_impl _ _ _ signed_plain_no_space Hp)).
  rewrite (contains_underscore_none _ (all_chars_impl _ _ _ signed_plain_no_underscore Hp)).
  destruct ip as [|c ip]; [congruence|].
  pose proof Hi as Hi'. cbn [all_digits all_chars] in Hi'.
  apply andb_prop in Hi' as [Hc _].
  assert (Hs : strtod (String "-" (String c ip ++ String "." fp))
               = parse_number true (String c ip ++ String "." fp)).
  { change (String c ip ++ String "." fp) with (String c (ip ++ String "." fp)).
    digit_cases Hc; reflexivity. }
  rewrite Hs, (parse_number_point true _ _ Hi Hne Hf). reflexivity.
Qed.

(** The normalizer of [get_fundamentals] keeps the sign: a localized number
    with a minus in front becomes the float of the negative number, which is
    finite and negative when there are at most 308 digits before the comma
    (beyond the binary64 range it is [-inf]). *)
Theorem fundamentals_normalizer_keeps_sign (groups : list string) (fp : string) :
  digit_groups groups = true ->
  all_digits fp = true ->
  fundamentals_row_data ["-" ++ String.concat "." groups ++ "," ++ fp]
  = Ok [Some (float_of_decimal true
                (digits_val 0 (String.concat EmptyString groups ++ fp))
                (- Z.of_nat (String.length fp)))] /\
  ((String.length (String.concat EmptyString groups) <= 308)%nat ->
   fundamentals_row_data ["-" ++ String.concat "." groups ++ "," ++ fp]
   = Ok [Some (Finite true (digits_val 0 (String.concat EmptyString groups ++ fp))
                 (- Z.of_nat (String.length fp)))]).
Proof.
  intros Hg Hf.
  assert (Hgs : forallb all_digits groups = true).
  { destruct groups; [discriminate|]. cbn [digit_groups] in Hg.
    now apply andb_prop in Hg as [_ Hg]. }
  pose proof (all_digits_groups _ Hgs) as Hd.
  pose proof (groups_not_empty _ Hg) as Hne.
  assert (Hval : fundamentals_row_data ["-" ++ String.concat "." groups ++ "," ++ fp]
    = Ok [Some (float_of_decimal true
                  (digits_val 0 (String.concat EmptyString groups ++ fp))
                  (- Z.of_nat (String.length fp)))]).
  { rewrite fundamentals_row_data_one. cbv zeta.
    rewrite !re_sub_app, (re_sub_point_groups _ Hgs).
    rewrite (re_sub_digits _ _ fp digit_not_dot Hf).
    rewrite (re_sub_digits _ _ fp digit_not_comma Hf).
    rewrite (re_sub_digits _ _ _ digit_not_comma Hd).
    cbn [re_sub is_char Ascii.eqb Bool.eqb String.append].
    destruct (String.concat EmptyString groups) as [|c g] eqn:Eg; [congruence|].
    cbn [String.append String.eqb Ascii.eqb Bool.eqb]. cbn.
    change (String c (g ++ String "." fp)) with (String c g ++ String "." fp).
    now rewrite (float_minus_point _ _ Hd Hne Hf). }
  split; [exact Hval|].
  intros Hlen. rewrite Hval.
  now rewrite (float_of_decimal_in_range true _ _ Hd Hf Hlen).
Qed.

(** The cell ["-1.234,56"]. *)
Lemma fundamentals_normalizer_keeps_sign_witness :
  fundamentals_row_data ["-1.234,56"] = Ok [Some (Finite true 123456 (-2))].
Proof.
  refine (proj2 (fundamentals_normalizer_keeps_sign ["1"; "234"] "56" eq_refl eq_refl) _).
  simpl. lia.
Defined.

Lemma re_sub_all_removed cls (s : string) :
  all_chars cls s = true -> re_sub cls EmptyString s = EmptyString.
Proof.
  induction s as [|c s IH]; [reflexivity|]. cbn [all_chars re_sub]. intros H.
  apply andb_prop in H as [Hc Hs]. now rewrite Hc, (IH Hs).
Qed.

(** A class that has the point and no digit removes the points of the
    groups and nothing else. *)
Lemma re_sub_groups cls (groups : list string) :
  cls "."%char = true -> (forall c, is_digit c = true -> cls c = false) ->
  forallb all_digits groups = true ->
  re_sub cls EmptyString (String.concat "." groups) = String.concat EmptyString groups.
Proof.
  intros Hdot Hdig. induction groups as [|g gs IH]; [reflexivity|].
  cbn [forallb]. intros H. apply andb_prop in H as [Hg Hgs].
  destruct gs as [|g' gs].
  - cbn [String.concat]. now apply re_sub_digits.
  - rewrite (concat_cons "." g (g' :: gs)) by discriminate.
    rewrite (concat_cons EmptyString g (g' :: gs)) by discriminate.
    rewrite !re_sub_app, (IH Hgs), (re_sub_digits _ _ g Hdig Hg).
    cbn [re_sub]. rewrite Hdot. reflexivity.
Qed.

Lemma not_sentinel_long (c : ascii) (s : string) :
  s <> EmptyString -> String.eqb (String c s) "-" = false.
Proof.
  intros H. destruct s as [|c' s]; [congruence|]. cbn.
  now destruct (Ascii.eqb c "-").
Qed.

(** The normalizer of [get_estimates] reads the digits and the comma of a
    cell and nothing else: text before and after the number (a currency, a
    percent sign, a minus) and the points between groups of digits leave the
    outcome what it is for the bare digits, comma, digits -- the float of
    the number they write, finite with at most 308 digits before the
    comma. *)
Theorem estimates_normalizer_ignores_decoration (pre post : string)
    (groups : list string) (fp : string) :
  all_chars not_digit_or_comma pre = true ->
  all_chars not_digit_or_comma post = true ->
  digit_groups groups = true ->
  all_digits fp = true ->
  estimates_row_data [pre ++ String.concat "." groups ++ "," ++ fp ++ post]
  = estimates_row_data [String.concat EmptyString groups ++ "," ++ fp] /\
  estimates_row_data [pre ++ String.concat "." groups ++ "," ++ fp ++ post]
  = Ok [Some (float_of_decimal false
                (digits_val 0 (String.concat EmptyString groups ++ fp))
                (- Z.of_nat (String.length fp)))] /\
  ((String.length (String.concat EmptyString groups) <= 308)%nat ->
   estimates_row_data [pre ++ String.concat "." groups ++ "," ++ fp ++ post]
   = Ok [Some (Finite false (digits_val 0 (String.concat EmptyString groups ++ fp))
                 (- Z.of_nat (String.length fp)))]).
Proof.
  intros Hpre Hpost Hg Hf.
  assert (Hgs : forallb all_digits groups = true).
  { destruct groups; [discriminate|]. cbn [digit_groups] in Hg.
    now apply andb_prop in Hg as [_ Hg]. }
  pose proof (all_digits_groups _ Hgs) as Hd.
  pose proof (groups_not_empty _ Hg) as Hne.
  assert (Hcell : String.eqb (pre ++ String.concat "." groups ++ "," ++ fp ++ post) "-"
                  = false).
  { destruct pre as [|c pre].
    - cbn [String.append]. destruct groups as [|g gs]; [discriminate|].
      cbn [digit_groups] in Hg. apply andb_prop in Hg as [Hg1 _].
      apply negb_true_iff in Hg1. destruct g as [|d g]; [discriminate|].
      cbn [forallb] in Hgs. apply andb_prop in Hgs as [Hdg _].
      assert (Hs : all_digits (String d g) = true) by exact Hdg.
      destruct gs.
      + cbn [String.concat]. apply digits_not_sentinel; [exact Hs | discriminate].
      + rewrite concat_cons by discriminate. rewrite append_assoc.
        apply digits_not_sentinel; [exact Hs | discriminate].
    - change (String c pre ++ ?r) with (String c (pre ++ r)).
      apply not_sentinel_long. intros Heq.
      apply (f_equal String.length) in Heq. rewrite !length_append in Heq.
      cbn in Heq. destruct (String.concat "." groups) eqn:E; [|cbn in Heq; lia].
      destruct groups as [|g gs]; [discriminate|].
      cbn [digit_groups] in Hg. apply andb_prop in Hg as [Hg1 _].
      apply negb_true_iff in Hg1. destruct g; [discriminate|].
      destruct gs; [discriminate E|]. rewrite concat_cons in E by discriminate.
      discriminate E. }
  assert (Hdec : estimates_row_data [pre ++ String.concat "." groups ++ "," ++ fp ++ post]
    = Ok [Some (float_of_decimal false
                  (digits_val 0 (String.concat EmptyString groups ++ fp))
                  (- Z.of_nat (String.length fp)))]).
  { rewrite estimates_row_data_one, Hcell, !re_sub_app.
    change (re_sub (is_char ",") "." (re_sub not_digit_or_comma EmptyString ","))
      with ".".
    rewrite (re_sub_all_removed _ _ Hpre), (re_sub_all_removed _ _ Hpost).
    rewrite (re_sub_groups not_digit_or_comma _ eq_refl digit_kept Hgs).
    rewrite (re_sub_digits _ _ fp digit_kept Hf).
    rewrite (re_sub_digits _ _ _ digit_not_comma Hd).
    rewrite (re_sub_digits _ _ fp digit_not_comma Hf).
    cbn [re_sub String.append]. rewrite append_nil_r.
    now rewrite (float_point _ _ Hd Hne Hf). }
  assert (Hbare : estimates_row_data [String.concat EmptyString groups ++ "," ++ fp]
    = Ok [Some (float_of_decimal false
                  (digits_val 0 (String.concat EmptyString groups ++ fp))
                  (- Z.of_nat (String.length fp)))]).
  { rewrite estimates_row_data_one, (digits_not_sentinel _ _ Hd Hne).
    rewrite !re_sub_app.
    change (re_sub (is_char ",") "." (re_sub not_digit_or_comma EmptyString ","))
      with ".".
    rewrite (re_sub_digits _ _ _ digit_kept Hd), (re_sub_digits _ _ fp digit_kept Hf).
    rewrite (re_sub_digits _ _ _ digit_not_comma Hd), (re_sub_digits _ _ fp digit_not_comma Hf).
    change ("." ++ fp) with (String "." fp).
    now rewrite (float_point _ _ Hd Hne Hf). }
  split; [now rewrite Hdec, Hbare|]. split; [exact Hdec|].
  intros Hlen. rewrite Hdec.
  now rewrite (float_of_decimal_in_range false _ _ Hd Hf Hlen).
Qed.

(** The cell ["ca. 1.234,5 EUR"]. *)
Lemma estimates_normalizer_ignores_decoration_witness :
  estimates_row_data ["ca. 1.234,5 EUR"] = estimates_row_data ["1234,5"] /\
  estimates_row_data ["ca. 1.234,5 EUR"] = Ok [Some (Finite false 12345 (-1))].
Proof.
  split.
  - exact (proj1 (estimates_normalizer_ignores_decoration "ca. " " EUR" ["1"; "234"] "5"
                    eq_refl eq_refl eq_refl eq_refl)).
  - refine (proj2 (proj2 (estimates_normalizer_ignores_decoration "ca. " " EUR"
                            ["1"; "234"] "5" eq_refl eq_refl eq_refl eq_refl)) _).
    simpl. lia.
Defined.

(** A cell without a digit and without a comma, other than ["-"], has
    nothing left for [float]. *)
Lemma estimates_row_data_no_digit (cells : list string) (x : string) :
  In x cells -> x <> "-" -> all_chars not_digit_or_comma x = true ->
  exists e, estimates_row_data cells = Raise e.
Proof.
  intros Hin Hne Hall. unfold estimates_row_data.
  apply (for_each_raises _ _
           (Some (re_sub (is_char ",") "." (re_sub not_digit_or_comma EmptyString x)))
           ValueError).
  - apply in_map_iff. exists (Some (re_sub not_digit_or_comma EmptyString x)).
    split; [reflexivity|].
    apply in_map_iff. exists (Some x). split; [reflexivity|].
    apply in_map_iff. exists x. split; [|exact Hin].
    destruct (String.eqb_spec x "-"); [congruence | reflexivity].
  - now rewrite (re_sub_all_removed _ _ Hall).
Qed.

Section EstimatesAbort.

Context {DataFrame : Type}.
Variable _make_soup : string -> result (Soup DataFrame).

(** [get_estimates] has no handler.  It raises [AttributeError] when no
    [<h1>] starts with the estimates heading, and it raises as a whole when a
    cell after the name of some row, not the ["-"] sentinel, has no digit and
    no comma (["n/a"], ["k.A."]): one such cell loses the whole table. *)
Theorem get_estimates_aborts (stock : string) (soup : Soup DataFrame) :
  _make_soup ("https://www.finanzen.net/schaetzungen/" ++ lower stock) = Ok soup ->
  _check_site DataFrame soup = Ok tt ->
  (find_heading (String.prefix estimates_heading) (h1 DataFrame soup) = None ->
   get_estimates DataFrame _make_soup stock = Raise AttributeError) /\
  (forall table row name cells x,
     find_heading (String.prefix estimates_heading) (h1 DataFrame soup) = Some table ->
     In row (drop 1 (trs table)) ->
     tds row = name :: cells ->
     In x cells -> x <> "-" -> all_chars not_digit_or_comma x = true ->
     exists e, get_estimates DataFrame _make_soup stock = Raise e).
Proof.
  intros Hs Hc. unfold get_estimates. rewrite Hs. cbn. rewrite Hc. cbn. split.
  - intros Hf. now rewrite Hf.
  - intros table row name cells x Hf Hrow Htds Hx Hne Hall. rewrite Hf. cbn.
    apply (for_rows_raises _ _ row Hrow). intros acc.
    unfold estimates_row. rewrite Htds.
    destruct (estimates_row_data_no_digit cells x Hx Hne Hall) as [e H].
    rewrite H. cbn. eauto.
Qed.

End EstimatesAbort.

(** The estimates page with the cell ["n/a"], and a page without heading. *)
Lemma get_estimates_aborts_witness :
  get_estimates unit (fun _ => Ok anonymous_page) "sap" = Raise AttributeError /\
  exists e, get_estimates unit (fun _ => Ok (estimates_page ["30.871"; "n/a"])) "sap"
            = Raise e.
Proof.
  split.
  - exact (proj1 (get_estimates_aborts (fun _ => Ok anonymous_page) "sap"
                    anonymous_page eq_refl eq_refl) eq_refl).
  - refine (proj2 (get_estimates_aborts (fun _ => Ok (estimates_page ["30.871"; "n/a"]))
                     "sap" (estimates_page ["30.871"; "n/a"]) eq_refl eq_refl)
              _ {| font_bold := None; tds := ["Umsatz"; "30.871"; "n/a"] |}
              "Umsatz" ["30.871"; "n/a"] "n/a" eq_refl _ eq_refl _ _ eq_refl).
    + simpl. left. reflexivity.
    + simpl. right. left. reflexivity.
    + discriminate.
Defined.

(** ** The lxml variants *)

Lemma split_space_0_app (a b : string) :
  all_chars (fun c => negb (Ascii.eqb c " ")) a = true ->
  split_space_0 (a ++ String " " b) = a.
Proof.
  induction a as [|c a IH]; [reflexivity|]. cbn [all_chars]. intros H.
  apply andb_prop in H as [Hc Ha]. apply negb_true_iff in Hc.
  cbn. now rewrite Hc, (IH Ha).
Qed.

Lemma signed_plain_not_blank :
  forall c, is_signed_plain c = true -> negb (Ascii.eqb c " ") = true.
Proof. by_256. Qed.

Lemma groups_cell_not_sentinel (groups : list string) (rest : string) :
  digit_groups groups = true ->
  String.eqb (String.concat "." groups ++ rest) "-" = false.
Proof.
  intros Hg. destruct groups as [|g gs]; [discriminate|].
  cbn [digit_groups] in Hg. apply andb_prop in Hg as [Hg1 Hgs].
  apply negb_true_iff in Hg1. destruct g as [|d g]; [discriminate|].
  cbn [forallb] in Hgs. apply andb_prop in Hgs as [Hdg _].
  assert (Hs : all_digits (String d g) = true) by exact Hdg.
  destruct gs.
  - cbn [String.concat]. apply digits_not_sentinel; [exact Hs | discriminate].
  - rewrite concat_cons by discriminate. rewrite append_assoc.
    apply digits_not_sentinel; [exact Hs | discriminate].
Qed.

(** A cell of [get_estimates_lxml]: a localized number, with or without a
    minus, followed by a space and a unit, becomes the float of that number;
    the sign is kept and what follows the first space is dropped.  With at
    most 308 digits before the comma the float is finite. *)
Theorem estimates_lxml_cell_number (neg : bool) (groups : list string)
    (fp unit_text : string) :
  digit_groups groups = true ->
  all_digits fp = true ->
  estimates_lxml_cell ((if neg then "-" else EmptyString)
                       ++ String.concat "." groups ++ "," ++ fp ++ " " ++ unit_text)
  = Ok (CFloat (float_of_decimal neg
                  (digits_val 0 (String.concat EmptyString groups ++ fp))
                  (- Z.of_nat (String.length fp)))) /\
  ((String.length (String.concat EmptyString groups) <= 308)%nat ->
   estimates_lxml_cell ((if neg then "-" else EmptyString)
                        ++ String.concat "." groups ++ "," ++ fp ++ " " ++ unit_text)
   = Ok (CFloat (Finite neg (digits_val 0 (String.concat EmptyString groups ++ fp))
                   (- Z.of_nat (String.length fp))))).
Proof.
  intros Hg Hf.
  assert (Hgs : forallb all_digits groups = true).
  { destruct groups; [discriminate|]. cbn [digit_groups] in Hg.
    now apply andb_prop in Hg as [_ Hg]. }
  pose proof (all_digits_groups _ Hgs) as Hd.
  pose proof (groups_not_empty _ Hg) as Hne.
  set (G := String.concat EmptyString groups) in *.
  assert (Hclean : forall sign, (sign = "-" \/ sign = EmptyString) ->
    str_replace "," "." (str_replace "." EmptyString
      (sign ++ String.concat "." groups ++ "," ++ fp ++ " " ++ unit_text))
    = (sign ++ G ++ String "." fp)
      ++ String " " (str_replace "," "." (str_replace "." EmptyString unit_text))).
  { intros sign Hsign. unfold str_replace. rewrite !re_sub_app.
    rewrite (re_sub_point_groups _ Hgs). fold G.
    rewrite (re_sub_digits _ _ fp digit_not_dot Hf).
    rewrite (re_sub_digits _ _ fp digit_not_comma Hf).
    rewrite (re_sub_digits _ _ G digit_not_comma Hd).
    destruct Hsign as [-> | ->]; cbn [re_sub is_char Ascii.eqb Bool.eqb String.append];
      rewrite ?append_assoc; reflexivity. }
  assert (Hnum : forall sign, (sign = "-" \/ sign = EmptyString) ->
    all_chars (fun c => negb (Ascii.eqb c " ")) (sign ++ G ++ String "." fp) = true).
  { intros sign Hsign. apply (all_chars_impl is_signed_plain); [exact signed_plain_not_blank|].
    rewrite !all_chars_app. cbn [all_chars].
    rewrite (all_chars_impl is_digit is_signed_plain G digit_signed_plain Hd).
    rewrite (all_chars_impl is_digit is_signed_plain fp digit_signed_plain Hf).
    destruct Hsign as [-> | ->]; reflexivity. }
  assert (Hval : estimates_lxml_cell ((if neg then "-" else EmptyString)
                       ++ String.concat "." groups ++ "," ++ fp ++ " " ++ unit_text)
    = Ok (CFloat (float_of_decimal neg (digits_val 0 (G ++ fp))
                    (- Z.of_nat (String.length fp))))).
  { unfold estimates_lxml_cell. destruct neg.
    - assert (Hcell : String.eqb ("-" ++ String.concat "." groups ++ "," ++ fp ++ " " ++ unit_text)
                        "-" = false).
      { change ("-" ++ ?r) with (String "-" r). apply not_sentinel_long.
        intros Heq. apply (f_equal String.length) in Heq.
        rewrite !length_append in Heq. cbn in Heq. lia. }
      rewrite Hcell, (Hclean "-" (or_introl eq_refl)).
      rewrite (split_space_0_app _ _ (Hnum "-" (or_introl eq_refl))).
      change ("-" ++ G ++ String "." fp) with (String "-" (G ++ String "." fp)).
      now rewrite (float_minus_point _ _ Hd Hne Hf).
    - change (EmptyString ++ String.concat "." groups ++ "," ++ fp ++ " " ++ unit_text)
        with (String.concat "." groups ++ "," ++ fp ++ " " ++ unit_text).
      assert (Hcell : String.eqb (String.concat "." groups ++ "," ++ fp ++ " " ++ unit_text)
                        "-" = false).
      { now apply groups_cell_not_sentinel. }
      rewrite Hcell.
      pose proof (Hclean EmptyString (or_intror eq_refl)) as Hc.
      change (EmptyString ++ String.concat "." groups ++ "," ++ fp ++ " " ++ unit_text)
        with (String.concat "." groups ++ "," ++ fp ++ " " ++ unit_text) in Hc.
      change (EmptyString ++ G ++ String "." fp) with (G ++ String "." fp) in Hc.
      rewrite Hc.
      pose proof (Hnum EmptyString (or_intror eq_refl)) as Hn.
      change (EmptyString ++ G ++ String "." fp) with (G ++ String "." fp) in Hn.
      rewrite (split_space_0_app _ _ Hn).
      now rewrite (float_point _ _ Hd Hne Hf). }
  split; [exact Hval|].
  intros Hlen. rewrite Hval.
  now rewrite (float_of_decimal_in_range neg _ _ Hd Hf Hlen).
Qed.

(** The cell ["-1.234,5 EUR"]. *)
Lemma estimates_lxml_cell_number_witness :
  estimates_lxml_cell "-1.234,5 EUR" = Ok (CFloat (Finite true 12345 (-1))).
Proof.
  refine (proj2 (estimates_lxml_cell_number true ["1"; "234"] "5" "EUR" eq_refl eq_refl) _).
  simpl. lia.
Defined.

Section LxmlErrors.

Context {Element DataFrame Obj : Type}.
Variable requests_get : string -> result string.
Variable html_fromstring : string -> result Element.
Variable xpath : Element -> string -> list Element.
Variable xpath_text : Element -> string -> list string.
Variable children : Element -> list Element.
Variable make_frame_cells : list (list Cell) -> result DataFrame.
Variable make_frame_text : list (list string) -> result DataFrame.
Variable pd_concat : list DataFrame -> result DataFrame.

Local Abbreviation get_parser' :=
  (get_parser Element requests_get html_fromstring).
Local Abbreviation get_estimates_lxml' :=
  (get_estimates_lxml Element DataFrame requests_get html_fromstring xpath
     xpath_text children make_frame_cells Obj).
Local Abbreviation get_fundamentals_lxml' :=
  (get_fundamentals_lxml Element DataFrame requests_get html_fromstring xpath
     xpath_text make_frame_text pd_concat Obj).

(** With the base URL unreachable, [get_parser] exits for a known function. *)
Lemma get_parser_site_down (function stock_name : string) :
  In function ["search"; "stock"; "estimates"; "fundamentals"; "index"] ->
  requests_get "https://www.finanzen.net" = Raise RequestException ->
  get_parser' function stock_name = Raise SystemExit.
Proof.
  intros Hin Hreq. unfold get_parser, check_site_availability. cbv zeta.
  rewrite Hreq. cbn [In] in Hin.
  repeat (destruct Hin as [<- | Hin]; [reflexivity|]). destruct Hin.
Qed.

(** [get_parser] knows five functions.  For any other name it raises
    [ValueError] without a request; for a known one it first requests the
    site's base URL, and a [RequestException] there ends in [SystemExit]. *)
Theorem get_parser_errors (function stock_name : string) :
  (~ In function ["search"; "stock"; "estimates"; "fundamentals"; "index"] ->
   get_parser Element requests_get html_fromstring function stock_name = Raise ValueError) /\
  (In function ["search"; "stock"; "estimates"; "fundamentals"; "index"] ->
   requests_get "https://www.finanzen.net" = Raise RequestException ->
   get_parser Element requests_get html_fromstring function stock_name = Raise SystemExit).
Proof.
  unfold get_parser. cbv zeta. split.
  - intros Hn. cbn [In] in Hn.
    rewrite !lookup_insert_ne by (intros <-; tauto).
    now rewrite lookup_empty.
  - apply get_parser_site_down.
Qed.

(** With the site unreachable -- every request raising a
    [RequestException] -- [get_fundamentals_lxml] ends in [SystemExit],
    through [get_parser], while [get_estimates_lxml], which requests its
    page itself, lets the [RequestException] through.  Neither touches the
    default lists. *)
Theorem lxml_site_unreachable (stock : string) (d : Defaults Obj) :
  (forall url, requests_get url = Raise RequestException) ->
  get_fundamentals_lxml' stock d = (Raise SystemExit, d) /\
  get_estimates_lxml' stock d = (Raise RequestException, d).
Proof.
  intros Hreq. destruct d as [de df]. split.
  - assert (Htab : forall acc table,
              fundamentals_lxml_table Element DataFrame requests_get html_fromstring
                xpath xpath_text make_frame_text stock acc table = Raise SystemExit).
    { intros acc table. unfold fundamentals_lxml_table.
      now rewrite (get_parser_site_down "fundamentals" stock
                     ltac:(cbn; tauto) (Hreq _)). }
    unfold get_fundamentals_lxml, get_fundamentals_lxml_body. cbn [for_tables].
    now rewrite Htab.
  - unfold get_estimates_lxml, get_estimates_lxml_body. cbn. now rewrite Hreq.
Qed.

(** When the page has no row under the estimates heading,
    [get_estimates_lxml] raises [UnboundLocalError]: [dataframe] is assigned
    inside the loop only. *)
Theorem get_estimates_lxml_no_rows (stock response : string) (parser : Element)
    (d : Defaults Obj) :
  requests_get ("https://www.finanzen.net/schaetzungen/" ++ stock) = Ok response ->
  html_fromstring response = Ok parser ->
  xpath parser (xp_estimates ++ "//table//tr") = [] ->
  get_estimates_lxml' stock d = (Raise UnboundLocalError, d).
Proof.
  intros Hreq Hparse Hrows. destruct d as [de df].
  unfold get_estimates_lxml, get_estimates_lxml_body. cbv zeta.
  rewrite Hreq. cbv [mbind result_bind]. rewrite Hparse, Hrows. reflexivity.
Qed.

End LxmlErrors.

(** An unknown function, and the site down. *)
Lemma get_parser_errors_witness :
  get_parser unit (fun _ => Raise RequestException) (fun _ => Ok tt) "quotes" "sap"
  = Raise ValueError /\
  get_parser unit (fun _ => Raise RequestException) (fun _ => Ok tt) "search" "sap"
  = Raise SystemExit.
Proof.
  destruct (get_parser_errors (Element := unit) (fun _ => Raise RequestException)
              (fun _ => Ok tt) "quotes" "sap") as [H1 _].
  destruct (get_parser_errors (Element := unit) (fun _ => Raise RequestException)
              (fun _ => Ok tt) "search" "sap") as [_ H2].
  split.
  - apply H1. cbn. intros H. repeat (destruct H as [H | H]; [discriminate H|]). exact H.
  - apply H2; [cbn; left; reflexivity | reflexivity].
Defined.

(** Both variants with every request failing. *)
Lemma lxml_site_unreachable_witness :
  get_fundamentals_lxml unit unit (fun _ => Raise RequestException) (fun _ => Ok tt)
    (fun _ _ => []) (fun _ _ => []) (fun _ => Ok tt) (fun _ => Ok tt) unit
    "sap" (fresh unit)
  = (Raise SystemExit, fresh unit) /\
  get_estimates_lxml unit unit (fun _ => Raise RequestException) (fun _ => Ok tt)
    (fun _ _ => []) (fun _ _ => []) (fun _ => []) (fun _ => Ok tt) unit
    "sap" (fresh unit)
  = (Raise RequestException, fresh unit).
Proof.
  exact (lxml_site_unreachable (fun _ => Raise RequestException) (fun _ => Ok tt)
           (fun _ _ => []) (fun _ _ => []) (fun _ => []) (fun _ => Ok tt)
           (fun _ => Ok tt) (fun _ => Ok tt) "sap" (fresh unit) (fun _ => eq_refl)).
Defined.

(** A page on which the query finds no row. *)
Lemma get_estimates_lxml_no_rows_witness :
  get_estimates_lxml unit unit (fun _ => Ok "<html></html>") (fun _ => Ok tt)
    (fun _ _ => []) (fun _ _ => []) (fun _ => []) (fun _ => Ok tt) unit
    "sap" (fresh unit)
  = (Raise UnboundLocalError, fresh unit).
Proof.
  exact (get_estimates_lxml_no_rows (fun _ => Ok "<html></html>") (fun _ => Ok tt)
           (fun _ _ => []) (fun _ _ => []) (fun _ => []) (fun _ => Ok tt)
           "sap" "<html></html>" tt (fresh unit) eq_refl eq_refl eq_refl).
Defined.

(** ** [get_indices] *)

Lemma fold_insert_lookup_inv {V : Type} (pairs : list (string * V)) :
  forall (d : gmap string V) (k : string) (v : V),
  fold_left (fun d kv => <[fst kv := snd kv]> d) pairs d !! k = Some v ->
  (k, v) ∈ pairs \/ d !! k = Some v.
Proof.
  induction pairs as [|[k0 v0] pairs IH]; intros d k v H; [now right|].
  cbn in H. destruct (IH _ _ _ H) as [Hin | Hd].
  - left. now apply elem_of_cons; right.
  - destruct (decide (k0 = k)) as [->|Hne].
    + rewrite lookup_insert_eq in Hd. injection Hd as ->. left. apply elem_of_cons. now left.
    + rewrite lookup_insert_ne in Hd by exact Hne. now right.
Qed.

(** The loop of [get_indices] over links that all have an [href]. *)
Lemma for_lis_links (lis : list Li) (links : list (string * string)) (rest : list Li) :
  Forall2 (fun li p => li_a li = Some (fst p, Some (snd p))) lis links ->
  forall indices,
    for_lis indices (lis ++ rest)%list
    = for_lis (fold_left (fun d kv => <[fst kv := snd kv]> d)
                 (map (fun p => (fst p, finanzen_net ++ snd p)) links) indices) rest.
Proof.
  induction 1 as [|li p lis links Hli _ IH]; intros indices; [reflexivity|].
  cbn [app for_lis map fold_left].
  assert (He : get_indices_entry indices li
               = Returns (<[fst p := finanzen_net ++ snd p]> indices)).
  { unfold get_indices_entry. now rewrite Hli. }
  rewrite He. apply IH.
Qed.

Section Indices.

Variable _make_index_soup : string -> result IndexSoup.

(** [get_indices] on a navigation whose first entries are links with an
    [href].  If there is nothing after them, the dictionary has each link
    text with the host followed by its [href] (a later link replacing an
    earlier one of the same text), so every value is an absolute URL of the
    site.  If the next entry has no [<a>], the call raises [TypeError]; if
    its [<a>] has no [href], [KeyError]. *)
Theorem get_indices_result (url : string) (soup : IndexSoup) (lis rest : list Li)
    (links : list (string * string)) :
  _make_index_soup url = Ok soup ->
  box_nav soup = Some (lis ++ rest)%list ->
  Forall2 (fun li p => li_a li = Some (fst p, Some (snd p))) lis links ->
  match rest with
  | [] =>
      exists indices,
        get_indices _make_index_soup url = Returns indices /\
        indices = dict_of (map (fun p => (fst p, finanzen_net ++ snd p)) links) /\
        forall text value, indices !! text = Some value ->
          exists href, (text, href) ∈ links /\ value = finanzen_net ++ href
  | li :: _ =>
      match li_a li with
      | None => get_indices _make_index_soup url = Raises TypeError
      | Some (_, None) => get_indices _make_index_soup url = Raises (Builtin KeyError)
      | Some (_, Some _) => True
      end
  end.
Proof.
  intros Hs Hnav Hlinks.
  assert (Hrun : get_indices _make_index_soup url
    = for_lis (dict_of (map (fun p => (fst p, finanzen_net ++ snd p)) links)) rest).
  { unfold get_indices. rewrite Hs. cbn. rewrite Hnav. cbn.
    now rewrite (for_lis_links _ _ _ Hlinks). }
  destruct rest as [|li rest].
  - eexists. split; [exact Hrun|]. split; [reflexivity|].
    intros text value Hl. unfold dict_of in Hl.
    apply fold_insert_lookup_inv in Hl as [Hin | Hempty].
    + apply list_elem_of_fmap in Hin as ([t h] & Heq & Hin).
      cbn in Heq. injection Heq as -> ->. now exists h.
    + rewrite lookup_empty in Hempty. discriminate.
  - rewrite Hrun. cbn [for_lis]. unfold get_indices_entry.
    destruct (li_a li) as [[text [href|]]|]; [exact I | reflexivity | reflexivity].
Qed.

End Indices.

(** The navigation with the links DAX and MDAX. *)
Lemma get_indices_result_witness :
  exists indices,
    get_indices (fun _ => Ok index_page) "https://www.finanzen.net/index/dax/30-werte"
    = Returns indices /\
    indices = dict_of [("DAX", finanzen_net ++ "/index/dax/30-werte");
                       ("MDAX", finanzen_net ++ "/index/mdax/werte")] /\
    forall text value, indices !! text = Some value ->
      exists href, (text, href) ∈ [("DAX", "/index/dax/30-werte"); ("MDAX", "/index/mdax/werte")]
                   /\ value = finanzen_net ++ href.
Proof.
  refine (get_indices_result (fun _ => Ok index_page)
            "https://www.finanzen.net/index/dax/30-werte" index_page
            [ {| li_a := Some ("DAX", Some "/index/dax/30-werte") |};
              {| li_a := Some ("MDAX", Some "/index/mdax/werte") |} ] []
            [("DAX", "/index/dax/30-werte"); ("MDAX", "/index/mdax/werte")]
            eq_refl eq_refl _).
  repeat constructor.
Defined.

(** ** [search_stock] *)

Lemma line_of_one_line (s : string) :
  all_chars (fun c => negb (Ascii.eqb c "010")) s = true -> line_of s = s.
Proof.
  induction s as [|c s IH]; [reflexivity|]. cbn [all_chars line_of]. intros H.
  apply andb_prop in H as [Hc Hs]. apply negb_true_iff in Hc.
  now rewrite Hc, (IH Hs).
Qed.

Lemma find_last_suffix (s : string) :
  find_last "-aktie" (s ++ "-aktie") = Some (String.length s).
Proof.
  induction s as [|c s IH]; [reflexivity|].
  change (String c s ++ "-aktie") with (String c (s ++ "-aktie")).
  cbn [find_last String.length]. now rewrite IH.
Qed.

Lemma substring_app (a b : string) : String.substring 0 (String.length a) (a ++ b) = a.
Proof. induction a as [|c a IH]; cbn; [now destruct b | now rewrite IH]. Qed.

(** The group of the pattern, right after ["aktien/"]. *)
Lemma group_aktie_name (name : string) :
  name <> EmptyString ->
  all_chars (fun c => negb (Ascii.eqb c "010")) name = true ->
  group_aktie (name ++ "-aktie") = Some name.
Proof.
  intros Hne Hline. unfold group_aktie.
  rewrite line_of_one_line by (rewrite all_chars_app, Hline; reflexivity).
  destruct name as [|c name]; [congruence|].
  change (String c name ++ "-aktie") with (String c (name ++ "-aktie")).
  cbv iota. now rewrite find_last_suffix, substring_app.
Qed.

Lemma search_aktie_skip (c : ascii) (s : string) :
  String.prefix "aktien/" (String c s) = false ->
  search_aktie (String c s) = search_aktie s.
Proof. intros H. cbn [search_aktie]. now rewrite H. Qed.

Lemma search_aktie_here (t g : string) :
  group_aktie t = Some g -> search_aktie ("aktien/" ++ t) = Some g.
Proof.
  intros Hg. change ("aktien/" ++ t) with (String "a" ("ktien/" ++ t)).
  cbn [search_aktie]. change (String "a" ("ktien/" ++ t)) with ("aktien/" ++ t).
  rewrite prefix_app. change (string_drop 7 ("aktien/" ++ t)) with t. now rewrite Hg.
Qed.

(** The short name in a link of the site: for [/aktien/<short>-aktie]
    appended to the host, the pattern gives [short] back, whatever [short]
    has in it beside line feeds. *)
Lemma search_aktie_link (name : string) :
  name <> EmptyString ->
  all_chars (fun c => negb (Ascii.eqb c "010")) name = true ->
  search_aktie (finanzen_net ++ "/aktien/" ++ name ++ "-aktie") = Some name.
Proof.
  intros Hne Hline.
  change (finanzen_net ++ "/aktien/" ++ name ++ "-aktie")
    with ("https://www.finanzen.net/" ++ "aktien/" ++ name ++ "-aktie").
  generalize (group_aktie_name _ Hne Hline).
  generalize (name ++ "-aktie"). intros t Hg.
  apply search_aktie_here in Hg. revert Hg. generalize ("aktien/" ++ t).
  intros u Hu. cbn [String.append].
  do 25 (rewrite search_aktie_skip by reflexivity). exact Hu.
Qed.

Lemma for_search_rows_entries (rows : list (list Td)) (entries : list (string * string)) :
  Forall2 stock_row rows entries ->
  for_search_rows rows
  = Returns (map result_pair
               entries).
Proof.
  induction 1 as [|row p rows entries Hrow _ IH]; [reflexivity|].
  destruct Hrow as (cell & rest & -> & Ht & Ha & _).
  cbn [for_search_rows map]. unfold search_stock_row. rewrite Ha, Ht, IH. reflexivity.
Qed.

Lemma print_results_entries (entries : list (string * string)) :
  Forall (fun p => snd p <> EmptyString /\
                   all_chars (fun c => negb (Ascii.eqb c "010")) (snd p) = true) entries ->
  forall printed,
    print_results printed
      (map result_pair entries)
    = ((printed ++ map result_line entries)%list, Returns tt).
Proof.
  induction 1 as [|p entries [Hne Hline] _ IH]; intros printed; cbn [map print_results].
  - now rewrite app_nil_r.
  - unfold result_pair at 1. cbn [fst snd].
    rewrite (search_aktie_link _ Hne Hline), IH.
    now rewrite <- app_assoc.
Qed.

Lemma apply_limit_map {A B : Type} (f : A -> B) (limit : Z) (l : list A) :
  apply_limit limit (map f l) = map f (apply_limit limit l).
Proof.
  unfold apply_limit. rewrite length_map. destruct (limit >? 0)%Z; [|reflexivity].
  now rewrite <- fmap_take.
Qed.

Lemma apply_limit_take {A : Type} (limit : Z) (l : list A) :
  apply_limit limit l = if (0 <? limit)%Z then take (Z.to_nat limit) l else l.
Proof.
  unfold apply_limit. rewrite Z.gtb_ltb. destruct (0 <? limit)%Z eqn:Hl; [|reflexivity].
  rewrite Z.gtb_ltb. destruct (Z.of_nat (length l) <? limit)%Z eqn:Hlen; [|reflexivity].
  apply Z.ltb_lt in Hlen. rewrite Nat2Z.id.
  rewrite !take_ge; [reflexivity | lia | lia].
Qed.

Section SearchStock.

Variable _make_search_soup : string -> result SearchSoup.

(** When every result row has a stock link, [search_stock] prints one
    line per result, name and short name, in the order of the page: all of
    them for a limit of zero or less, the first [limit] of them otherwise
    (all, when there are fewer); it returns [None]. *)
Theorem search_stock_prints (stock : string) (limit : Z) (soup : SearchSoup)
    (rows : list (list Td)) (entries : list (string * string)) :
  _make_search_soup (isin_search_url ++ lower stock) = Ok soup ->
  div_red soup = None ->
  table_table soup = Some rows ->
  Forall2 stock_row (drop 1 rows) entries ->
  search_stock _make_search_soup stock limit
  = (map result_line (if (0 <? limit)%Z then take (Z.to_nat limit) entries else entries),
     Returns NoneValue).
Proof.
  intros Hs Hred Htab Hrows. unfold search_stock. rewrite Hs, Hred, Htab.
  rewrite (for_search_rows_entries _ _ Hrows), apply_limit_map.
  assert (Hall : Forall (fun p => snd p <> EmptyString /\
      all_chars (fun c => negb (Ascii.eqb c "010")) (snd p) = true)
      (apply_limit limit entries)).
  { rewrite apply_limit_take. apply Forall_forall. intros p Hp.
    assert (Hin : p ∈ entries).
    { destruct (0 <? limit)%Z; [|exact Hp].
      apply list_elem_of_lookup in Hp as [i Hi]. apply lookup_take_Some in Hi as [Hi _].
      eapply list_elem_of_lookup_2; eauto. }
    clear Hp. induction Hrows as [|row q rows' entries' Hrow _ IH].
    - now apply elem_of_nil in Hin.
    - apply elem_of_cons in Hin as [-> | Hin]; [|now apply IH].
      destruct Hrow as (_ & _ & _ & _ & _ & Hne & Hline). now split. }
  rewrite (print_results_entries _ Hall []). cbn. now rewrite apply_limit_take.
Qed.

(** When the page says that the search gave no result, [search_stock]
    returns an empty list and prints nothing; the result table is not looked
    for. *)
Theorem search_stock_no_result (stock pre post : string) (limit : Z)
    (soup : SearchSoup) :
  _make_search_soup (isin_search_url ++ lower stock) = Ok soup ->
  div_red soup = Some (pre ++ "kein Ergebnis geliefert" ++ post) ->
  search_stock _make_search_soup stock limit = ([], Returns EmptyList).
Proof.
  intros Hs Hred. unfold search_stock. now rewrite Hs, Hred, contains_app.
Qed.

End SearchStock.

(** Two stocks found, and a limit of one. *)
Lemma search_stock_prints_witness :
  search_stock (fun _ => Ok stock_results_page) "SAP" 1
  = (["SAP SE: sap"], Returns NoneValue).
Proof.
  refine (search_stock_prints (fun _ => Ok stock_results_page) "SAP" 1
            stock_results_page _
            [("SAP SE", "sap"); ("Deutsche Bank AG", "deutsche_bank")]
            eq_refl eq_refl eq_refl _).
  repeat constructor.
  - eexists _, _. repeat split. discriminate.
  - eexists _, _. repeat split. discriminate.
Defined.

(** The page without result. *)
Lemma search_stock_no_result_witness :
  search_stock (fun _ => Ok no_result_page) "xyzzy" 5 = ([], Returns EmptyList).
Proof.
  exact (search_stock_no_result (fun _ => Ok no_result_page) "xyzzy"
           "Ihre Suche hat leider " "." 5 no_result_page eq_refl eq_refl).
Defined.

Lemma for_search_rows_app (a b : list (list Td)) :
  for_search_rows (a ++ b)
  = (ra ← for_search_rows a; rb ← for_search_rows b; Returns (ra ++ rb)%list).
Proof.
  induction a as [|row a IH]; cbn [app for_search_rows].
  - now destruct (for_search_rows b).
  - destruct (search_stock_row row); [|reflexivity]. cbn. rewrite IH.
    destruct (for_search_rows a); [|reflexivity]. cbn.
    now destruct (for_search_rows b).
Qed.

Lemma print_results_prefix (entries : list (string * string))
    (tail : list (string * string)) :
  Forall (fun p => snd p <> EmptyString /\
                   all_chars (fun c => negb (Ascii.eqb c "010")) (snd p) = true) entries ->
  forall printed,
    print_results printed
      (map result_pair entries
       ++ tail)%list
    = print_results (printed ++ map result_line entries)%list tail.
Proof.
  induction 1 as [|p entries [Hne Hline] _ IH]; intros printed;
    cbn [map app print_results].
  - now rewrite app_nil_r.
  - unfold result_pair at 1. cbn [fst snd].
    rewrite (search_aktie_link _ Hne Hline), IH.
    now rewrite <- app_assoc.
Qed.

Lemma stock_rows_one_line (rows : list (list Td)) (entries : list (string * string)) :
  Forall2 stock_row rows entries ->
  Forall (fun p => snd p <> EmptyString /\
                   all_chars (fun c => negb (Ascii.eqb c "010")) (snd p) = true) entries.
Proof.
  induction 1 as [|row p rows entries Hrow _ IH]; constructor; [|exact IH].
  destruct Hrow as (_ & _ & _ & _ & _ & Hne & Hline). now split.
Qed.

Section SearchStockOtherLink.

Variable _make_search_soup : string -> result SearchSoup.

(** A result whose link is not a stock link -- the pattern
    [aktien/(.+)-aktie] does not match it -- makes [search_stock] raise
    [AttributeError] once the results before it are printed, unless a
    positive limit ends the list before that result. *)
Theorem search_stock_other_link (stock : string) (limit : Z) (soup : SearchSoup)
    (header : list Td) (stock_rows rest_rows : list (list Td)) (cell : Td)
    (cells : list Td) (href : string) (entries rest_list : list (string * string)) :
  _make_search_soup (isin_search_url ++ lower stock) = Ok soup ->
  div_red soup = None ->
  table_table soup = Some (header :: stock_rows ++ (cell :: cells) :: rest_rows)%list ->
  Forall2 stock_row stock_rows entries ->
  td_a cell = Some (Some href) ->
  search_aktie (finanzen_net ++ href) = None ->
  for_search_rows rest_rows = Returns rest_list ->
  search_stock _make_search_soup stock limit
  = if (0 <? limit)%Z && (limit <=? Z.of_nat (length entries))%Z
    then (map result_line (take (Z.to_nat limit) entries), Returns NoneValue)
    else (map result_line entries, Raises (Builtin AttributeError)).
Proof.
  intros Hs Hred Htab Hrows Ha Hno Hrest.
  pose proof (stock_rows_one_line _ _ Hrows) as Hgood.
  pose proof (Forall2_length _ _ _ Hrows) as Hlen.
  set (bad := (td_text cell, finanzen_net ++ href)).
  assert (Hall : for_search_rows (stock_rows ++ (cell :: cells) :: rest_rows)
                 = Returns (map result_pair entries ++ bad :: rest_list)%list).
  { rewrite for_search_rows_app, (for_search_rows_entries _ _ Hrows).
    cbn [for_search_rows]. unfold search_stock_row. rewrite Ha, Hrest. reflexivity. }
  unfold search_stock. rewrite Hs, Hred, Htab.
  change (drop 1 (header :: stock_rows ++ (cell :: cells) :: rest_rows))
    with (stock_rows ++ (cell :: cells) :: rest_rows)%list.
  rewrite Hall, apply_limit_take.
  assert (Hgl : length (map result_pair entries) = length entries) by apply length_map.
  assert (Hbad : forall printed tail,
            print_results printed (bad :: tail)
            = (printed, Raises (Builtin AttributeError))).
  { intros printed tail. cbn [print_results]. subst bad. cbn [snd]. now rewrite Hno. }
  destruct (0 <? limit)%Z eqn:Hpos; cbn [andb].
  - apply Z.ltb_lt in Hpos.
    destruct (limit <=? Z.of_nat (length entries))%Z eqn:Hle.
    + apply Z.leb_le in Hle.
      rewrite take_app_le by lia. rewrite firstn_map.
      assert (Hg' : Forall (fun p => snd p <> EmptyString /\
          all_chars (fun c => negb (Ascii.eqb c "010")) (snd p) = true)
          (take (Z.to_nat limit) entries)) by now apply Forall_take.
      rewrite (print_results_entries _ Hg' []). reflexivity.
    + apply Z.leb_gt in Hle.
      rewrite take_app_ge by lia.
      destruct (Z.to_nat limit - length (map result_pair entries)) as [|m] eqn:E; [lia|].
      change (take (S m) (bad :: rest_list)) with (bad :: take m rest_list).
      rewrite (print_results_prefix _ _ Hgood []), Hbad. reflexivity.
  - rewrite (print_results_prefix _ _ Hgood []), Hbad. reflexivity.
Qed.

End SearchStockOtherLink.

(** The page with two stocks and an index: limits of two and of three. *)
Lemma search_stock_other_link_witness :
  search_stock (fun _ => Ok search_page) "SAP" 2
  = (["SAP SE: sap"; "Deutsche Bank AG: deutsche_bank"], Returns NoneValue) /\
  search_stock (fun _ => Ok search_page) "SAP" 3
  = (["SAP SE: sap"; "Deutsche Bank AG: deutsche_bank"], Raises (Builtin AttributeError)).
Proof.
  pose (stock_rows :=
    [ [ {| td_text := "SAP SE"; td_a := Some (Some "/aktien/sap-aktie") |};
        {| td_text := "DE0007164600"; td_a := None |} ];
      [ {| td_text := "Deutsche Bank AG";
           td_a := Some (Some "/aktien/deutsche_bank-aktie") |} ] ]).
  pose (entries := [("SAP SE", "sap"); ("Deutsche Bank AG", "deutsche_bank")]).
  assert (Hrows : Forall2 stock_row stock_rows entries).
  { repeat constructor; eexists _, _; repeat split; discriminate. }
  split.
  - exact (search_stock_other_link (fun _ => Ok search_page) "SAP" 2 search_page
             [] stock_rows [] {| td_text := "DAX 40"; td_a := Some (Some "/index/dax") |}
             [] "/index/dax" entries [] eq_refl eq_refl eq_refl Hrows eq_refl eq_refl
             eq_refl).
  - exact (search_stock_other_link (fun _ => Ok search_page) "SAP" 3 search_page
             [] stock_rows [] {| td_text := "DAX 40"; td_a := Some (Some "/index/dax") |}
             [] "/index/dax" entries [] eq_refl eq_refl eq_refl Hrows eq_refl eq_refl
             eq_refl).
Defined.

(** ** [search_stock_lxml] *)

Lemma replace_from_skip (old new p t : string) :
  replace_from old new (String.length p) (p ++ t) = replace_from old new 0 t.
Proof.
  induction p as [|c p IH]; [now destruct t|].
  change (String c p ++ t) with (String c (p ++ t)). cbn [String.length replace_from].
  exact IH.
Qed.

(** An occurrence at the start is replaced, and the search resumes after it. *)
Lemma replace_all_prefix (a : ascii) (old' new t : string) :
  replace_all (String a old') new (String a old' ++ t)
  = new ++ replace_all (String a old') new t.
Proof.
  unfold replace_all.
  change (String a old' ++ t) with (String a (old' ++ t)) at 1.
  cbn [replace_from].
  change (String a (old' ++ t)) with (String a old' ++ t).
  rewrite prefix_app.
  replace (String.length (String a old') - 1) with (String.length old')
    by (cbn [String.length]; lia).
  now rewrite replace_from_skip.
Qed.

(** A text without the first character of [old] has no occurrence. *)
Lemma replace_all_skip (a : ascii) (old' new s t : string) :
  all_chars (fun c => negb (Ascii.eqb c a)) s = true ->
  replace_all (String a old') new (s ++ t) = s ++ replace_all (String a old') new t.
Proof.
  unfold replace_all. induction s as [|c s IH]; [reflexivity|].
  cbn [all_chars]. intros H. apply andb_prop in H as [Hc Hs].
  apply negb_true_iff in Hc.
  change (String c s ++ t) with (String c (s ++ t)). cbn [replace_from].
  change (String.prefix (String a old') (String c (s ++ t)))
    with (if ascii_dec a c then String.prefix old' (s ++ t) else false).
  destruct (ascii_dec a c) as [<-|_].
  - now rewrite Ascii.eqb_refl in Hc.
  - now rewrite (IH Hs).
Qed.

(** Line 491 undoes the link of a stock: from [/aktien/<short>-aktie] it
    gives [short] back, for a short name without ["/"] and without ["-"]. *)
Theorem fn_stock_name_of_link (short : string) :
  all_chars (fun c => negb (Ascii.eqb c "/") && negb (Ascii.eqb c "-")) short = true ->
  fn_stock_name_of ("/aktien/" ++ short ++ "-aktie") = short.
Proof.
  intros H. unfold fn_stock_name_of.
  assert (Hslash : all_chars (fun c => negb (Ascii.eqb c "/")) (short ++ "-aktie") = true).
  { rewrite all_chars_app. rewrite (all_chars_impl _ (fun c => negb (Ascii.eqb c "/")) _
      (fun c Hc => proj1 (andb_prop _ _ Hc)) H). reflexivity. }
  assert (Hdash : all_chars (fun c => negb (Ascii.eqb c "-")) short = true).
  { exact (all_chars_impl _ (fun c => negb (Ascii.eqb c "-")) _
             (fun c Hc => proj2 (andb_prop _ _ Hc)) H). }
  rewrite (replace_all_prefix "/" "aktien/" EmptyString (short ++ "-aktie")).
  cbn [String.append].
  rewrite <- (append_nil_r (short ++ "-aktie")) at 1.
  rewrite (replace_all_skip "/" "aktien/" EmptyString _ EmptyString Hslash).
  change (replace_all "/aktien/" EmptyString EmptyString) with EmptyString.
  rewrite append_nil_r.
  rewrite (replace_all_skip "-" "aktie" EmptyString _ "-aktie" Hdash).
  change (replace_all "-aktie" EmptyString "-aktie") with EmptyString.
  apply append_nil_r.
Qed.

(** The link of Deutsche Bank. *)
Lemma fn_stock_name_of_link_witness :
  fn_stock_name_of "/aktien/deutsche_bank-aktie" = "deutsche_bank".
Proof. exact (fn_stock_name_of_link "deutsche_bank" eq_refl). Defined.

Section SearchLxmlLimit.

Context {Element DataFrame : Type}.
Variable requests_get : string -> result string.
Variable html_fromstring : string -> result Element.
Variable xpath : Element -> string -> list Element.
Variable xpath_text : Element -> string -> list string.
Variable empty_frame : DataFrame.
Variable df_append : DataFrame -> string * string * string * string -> DataFrame.

Local Abbreviation row_of := (search_lxml_row Element xpath xpath_text).
Local Abbreviation loop := (search_lxml_loop Element DataFrame xpath xpath_text df_append).

(** The loop with a limit of [n]: the rows up to the one after the [n]-th
    are read, the first [n] are appended. *)
Lemma search_lxml_loop_limit (n : nat) :
  forall (rows : list Element) (ts : list (string * string * string * string))
         (df : DataFrame),
  Forall2 (fun e t => row_of e = Ok t) (take (S n) rows) ts ->
  loop true (Z.of_nat n) df rows = Ok (fold_left df_append (take n ts) df).
Proof.
  induction n as [|n IH]; intros rows ts df Hrows.
  - destruct rows as [|e rows]; [reflexivity|].
    cbn [take] in Hrows. inversion Hrows as [|? t ? ? He _]; subst.
    cbn [search_lxml_loop negb]. rewrite He. reflexivity.
  - destruct rows as [|e rows].
    + inversion Hrows; subst. reflexivity.
    + cbn [take] in Hrows. inversion Hrows as [|? t ? ts' He Hrest]; subst.
      cbn [search_lxml_loop negb]. rewrite He. cbn [mbind result_bind].
      replace (Z.of_nat (S n) =? 0)%Z with false by (symmetry; apply Z.eqb_neq; lia).
      replace (Z.of_nat (S n) >? 0)%Z with true
        by (symmetry; rewrite Z.gtb_ltb; apply Z.ltb_lt; lia).
      replace (Z.of_nat (S n) - 1)%Z with (Z.of_nat n) by lia.
      rewrite (IH _ _ _ Hrest). reflexivity.
Qed.

(** The loop with a negative limit: every row is read and appended. *)
Lemma search_lxml_loop_all (limit : Z) :
  (limit < 0)%Z ->
  forall (rows : list Element) (ts : list (string * string * string * string))
         (df : DataFrame),
  Forall2 (fun e t => row_of e = Ok t) rows ts ->
  loop true limit df rows = Ok (fold_left df_append ts df).
Proof.
  intros Hneg rows ts df Hrows. revert df.
  induction Hrows as [|e t rows ts He _ IH]; intros df; [reflexivity|].
  cbn [search_lxml_loop negb]. rewrite He. cbn [mbind result_bind].
  replace (limit =? 0)%Z with false by (symmetry; apply Z.eqb_neq; lia).
  replace (limit >? 0)%Z with false by (symmetry; rewrite Z.gtb_ltb; apply Z.ltb_ge; lia).
  apply IH.
Qed.

(** [search_stock_lxml] skips the first row of the result table and appends
    the following ones to an empty frame, in order: all of them for a
    negative limit, the first [limit] otherwise.  With a limit of [n] it
    still reads the row after the [n]-th before it stops, so that row has to
    be well-formed too; the rows after it are not read. *)
Theorem search_stock_lxml_limit (stock home response : string) (limit : Z)
    (parser first : Element) (rows : list Element)
    (ts : list (string * string * string * string)) :
  requests_get "https://www.finanzen.net" = Ok home ->
  requests_get ("https://www.finanzen.net" ++ "/suchergebnis.asp?_search=" ++ stock)
  = Ok response ->
  html_fromstring response = Ok parser ->
  xpath parser ("//div[contains(@class, " ++ quoted "table" ++ ")]//tr") = first :: rows ->
  Forall2 (fun e t => row_of e = Ok t)
          (if (limit <? 0)%Z then rows else take (S (Z.to_nat limit)) rows) ts ->
  search_stock_lxml Element DataFrame requests_get html_fromstring xpath xpath_text
    empty_frame df_append stock limit
  = Ok (fold_left df_append (if (limit <? 0)%Z then ts else take (Z.to_nat limit) ts)
          empty_frame).
Proof.
  intros Hhome Hreq Hparse Hrows Hts.
  assert (Hp : get_parser Element requests_get html_fromstring "search" stock = Ok parser).
  { unfold get_parser, check_site_availability. cbv zeta.
    replace ((<["index":="/index/"]> (<["fundamentals":="/bilanz_guv/"]>
               (<["estimates":="/schaetzungen/"]> (<["stock":="/aktien/"]>
                 (<["search":="/suchergebnis.asp?_search="]> ∅)))) : gmap string string)
             !! "search") with (Some "/suchergebnis.asp?_search=") by reflexivity.
    rewrite Hhome. cbv [mbind result_bind]. now rewrite Hreq. }
  unfold search_stock_lxml. cbv zeta. rewrite Hp. cbv [mbind result_bind].
  rewrite Hrows. cbn [length Nat.eqb search_lxml_loop negb].
  destruct (limit <? 0)%Z eqn:Hl.
  - apply Z.ltb_lt in Hl. now apply search_lxml_loop_all.
  - apply Z.ltb_ge in Hl. rewrite <- (Z2Nat.id limit Hl) at 1.
    now apply search_lxml_loop_limit.
Qed.

End SearchLxmlLimit.

(** A result table of three rows, read with a limit of one: an element is
    a number, [0] the document, [1] to [3] the rows, [10] to [12] the cells
    of a row. *)
Lemma search_stock_lxml_limit_witness :
  search_stock_lxml nat (list (string * string * string * string))
    (fun _ => Ok "<html>")
    (fun _ => Ok 0)
    (fun e _ => match e with 0 => [1; 2; 3] | _ => [10; 11; 12] end)
    (fun e q => match e with
                | 11 => [" DE0007164600 "]
                | 12 => ["716460"]
                | _ => if String.eqb q ".//a/text()" then ["SAP"; " SE"]
                       else ["/aktien/sap-aktie"]
                end)
    [] (fun df row => df ++ [row])%list "sap" 1
  = Ok [("SAP SE", "sap", "DE0007164600", "716460")].
Proof.
  refine (search_stock_lxml_limit (fun _ => Ok "<html>") (fun _ => Ok 0)
            (fun e _ => match e with 0 => [1; 2; 3] | _ => [10; 11; 12] end)
            (fun e q => match e with
                        | 11 => [" DE0007164600 "]
                        | 12 => ["716460"]
                        | _ => if String.eqb q ".//a/text()" then ["SAP"; " SE"]
                               else ["/aktien/sap-aktie"]
                        end)
            [] (fun df row => df ++ [row])%list "sap" "<html>" "<html>" 1 0 1 [2; 3]
            [("SAP SE", "sap", "DE0007164600", "716460");
             ("SAP SE", "sap", "DE0007164600", "716460")]
            eq_refl eq_refl eq_refl eq_refl _).
  repeat constructor.
Defined.

(** ** Names that are no ISIN *)

Lemma all_chars_get (cls : ascii -> bool) (s : string) :
  all_chars cls s = true -> forall i c, String.get i s = Some c -> cls c = true.
Proof.
  induction s as [|a s IH]; intros H i c Hg; [discriminate|].
  cbn [all_chars] in H. apply andb_prop in H as [Ha Hs].
  destruct i as [|i]; cbn in Hg; [injection Hg as <-; exact Ha | eauto].
Qed.

Lemma lower_digit_inv : forall c, is_digit (lower_char c) = true -> is_digit c = true.
Proof. by_256. Qed.

(** A request without any digit is never taken for an ISIN: lower-cased by
    the orchestrator, it is appended to the base URL. *)
Theorem join_url_name_without_digit (url stock : string) :
  all_chars (fun c => negb (is_digit c)) stock = true ->
  join_url url (lower stock) = (url ++ lower stock, None).
Proof.
  intros H. apply join_url_direct.
  destruct (parse_for_isin (lower stock)) as [isin|] eqn:Hp; [exfalso | reflexivity].
  destruct (re_search_sound _ _ _ Hp) as (pre & post & Heq & Hs & _).
  apply isin_shaped_iff in Hs. destruct Hs as [Hlen Hcls].
  assert (Hlow : all_chars (fun c => negb (is_digit c)) (lower stock) = true).
  { clear -H. induction stock as [|c s IH]; [reflexivity|].
    cbn [all_chars lower map_string] in *. apply andb_prop in H as [Hc Hs].
    fold (lower s). rewrite (IH Hs), andb_true_r.
    destruct (is_digit (lower_char c)) eqn:Hd; [|reflexivity].
    apply lower_digit_inv in Hd. now rewrite Hd in Hc. }
  rewrite Heq, !all_chars_app in Hlow.
  apply andb_prop in Hlow as [_ Hlow]. apply andb_prop in Hlow as [Hisin _].
  do 12 (destruct isin as [|? isin]; [discriminate Hlen|]).
  pose proof (all_chars_get _ _ Hisin 11 _ eq_refl) as Hnd.
  pose proof (Hcls 11 _ eq_refl) as Hd. cbv [isin_class Nat.ltb Nat.leb] in Hd.
  cbv beta in Hnd. rewrite Hd in Hnd. discriminate Hnd.
Qed.

(** The request ["Deutsche_Bank"]. *)
Lemma join_url_name_without_digit_witness :
  join_url "https://www.finanzen.net/bilanz_guv/" (lower "Deutsche_Bank")
  = ("https://www.finanzen.net/bilanz_guv/" ++ lower "Deutsche_Bank", None).
Proof.
  exact (join_url_name_without_digit "https://www.finanzen.net/bilanz_guv/"
           "Deutsche_Bank" eq_refl).
Defined.

(** A row of two cells, the second one the sentinel. *)
Lemma fundamentals_row_data_pointwise_witness :
  fundamentals_row_data ["1.000,5"; "-"] = Ok [Some (Finite false 10005 (-1)); None].
Proof.
  apply (proj2 (fundamentals_row_data_pointwise ["1.000,5"; "-"]
                  [Some (Finite false 10005 (-1)); None])).
  repeat constructor. cbn. exists (Finite false 10005 (-1)). split; reflexivity.
Defined.
